(** * pyTara_V: the resilient request layer and the TARA workflow, embedded in Rocq

    The Python sources are embedded shallowly.  Python objects that are
    mutated in place become records threaded through the functions; an
    exception becomes the [Raise] branch of [res]; the external world
    (the HTTP endpoint, the wall clock, the text generator, [json.loads])
    is a parameter of the function that consults it.

    Part I holds the definitions, one module per Python class or file.
    Part II holds the properties. *)

From Stdlib Require Import List String Ascii Bool Arith ZArith QArith Lia Lqa Sorted.
Import ListNotations.

Set Implicit Arguments.
Set Warnings "-register-all".

(* ===================================================================== *)
(** * Part I. Definitions *)
(* ===================================================================== *)

(** ** Python values, exceptions and the few built-ins the sources use *)

Module Py.

(** The exception classes that the modelled code can meet. *)
Inductive exn : Type :=
| Exception
| KeyError
| IndexError
| TypeError
| AttributeError
| ValueError
| RuntimeError
| ZeroDivisionError
| Timeout
| HTTPError (status_code : Z)
| RequestException
| JSONDecodeError
| RecursionError.

(** [isinstance(e, ValueError)]: [json.JSONDecodeError] is a subclass of
    [ValueError]. *)
Definition is_value_error (e : exn) : bool :=
  match e with
  | ValueError | JSONDecodeError => true
  | _ => false
  end.

(** A computation either returns or raises. *)
Inductive res (A : Type) : Type :=
| Ret (a : A)
| Raise (e : exn).

Arguments Ret {A} a.
Arguments Raise {A} e.

Definition bind {A B : Type} (m : res A) (k : A -> res B) : res B :=
  match m with
  | Ret a => k a
  | Raise e => Raise e
  end.

(** What a handler [except Exception] leaves of a call: the value it
    returned, if it returned. *)
Definition value_of {A : Type} (m : res A) : option A :=
  match m with
  | Ret a => Some a
  | Raise _ => None
  end.

(** What [json.loads] produces: [None], booleans, numbers, [str], [list]
    and [dict].  A dict is kept as its list of items in insertion order
    (keys are distinct, as [json.loads] builds them). *)
Inductive json : Type :=
| JNull
| JBool (b : bool)
| JNum (q : Q)
| JStr (s : string)
| JList (l : list json)
| JObj (items : list (string * json)).

Definition dict := list (string * json).

(** [d.get(key)]: the value bound to [key], if any. *)
Fixpoint dict_get (d : dict) (key : string) : option json :=
  match d with
  | [] => None
  | (k, v) :: rest => if String.eqb k key then Some v else dict_get rest key
  end.

(** [key in d] for a dict [d]. *)
Definition dict_mem (d : dict) (key : string) : bool :=
  match dict_get d key with
  | Some _ => true
  | None => false
  end.

(** [d[key]]: raises [KeyError] when the key is absent. *)
Definition getitem (d : dict) (key : string) : res json :=
  match dict_get d key with
  | Some v => Ret v
  | None => Raise KeyError
  end.

(** [key in l] for a list of strings. *)
Fixpoint str_in (key : string) (l : list string) : bool :=
  match l with
  | [] => false
  | k :: rest => String.eqb key k || str_in key rest
  end.

(** [len(v)]: defined on [str], [list] and [dict] only. *)
Definition len (v : json) : res nat :=
  match v with
  | JStr s => Ret (String.length s)
  | JList l => Ret (List.length l)
  | JObj items => Ret (List.length items)
  | _ => Raise TypeError
  end.

(** [for item in v]: a list yields its elements, a string its characters
    (each a string of length one), a dict its keys. *)
Definition iter (v : json) : res (list json) :=
  match v with
  | JList l => Ret l
  | JStr s => Ret (map (fun c => JStr (String c EmptyString)) (list_ascii_of_string s))
  | JObj items => Ret (map (fun kv => JStr (fst kv)) items)
  | _ => Raise TypeError
  end.

(** [v.items()]: only a dict has the method. *)
Definition items (v : json) : res dict :=
  match v with
  | JObj its => Ret its
  | _ => Raise AttributeError
  end.

(** Truth value of a Python object. *)
Definition truthy (v : json) : bool :=
  match v with
  | JNull => false
  | JBool b => b
  | JNum q => negb (Qeq_bool q 0)
  | JStr s => negb (String.eqb s "")
  | JList l => match l with [] => false | _ => true end
  | JObj its => match its with [] => false | _ => true end
  end.

(** Characters that [str.isspace] accepts, among the code points below 256. *)
Definition isspace (c : ascii) : bool :=
  let n := nat_of_ascii c in
  ((9 <=? n) && (n <=? 13)) || ((28 <=? n) && (n <=? 32))
  || (n =? 133) || (n =? 160).

Fixpoint lstrip_chars (l : list ascii) : list ascii :=
  match l with
  | [] => []
  | c :: rest => if isspace c then lstrip_chars rest else l
  end.

(** [s.strip()] *)
Definition strip (s : string) : string :=
  string_of_list_ascii
    (rev (lstrip_chars (rev (lstrip_chars (list_ascii_of_string s))))).

(** [sub in s] for two strings: [sub] occurs in [s] as a contiguous run. *)
Fixpoint str_contains (sub s : string) : bool :=
  String.prefix sub s
  || match s with
     | EmptyString => false
     | String _ rest => str_contains sub rest
     end.

(** [key in v] where [key] is a string: membership among the keys of a
    dict, among the elements of a list, substring test on a string;
    [TypeError] on the values that are not iterable. *)
Definition contains (v : json) (key : string) : res bool :=
  match v with
  | JObj its => Ret (dict_mem its key)
  | JList l =>
      Ret (existsb (fun x => match x with JStr s => String.eqb s key | _ => false end) l)
  | JStr s => Ret (str_contains key s)
  | _ => Raise TypeError
  end.

(** [s.find(c)] for a one-character needle: the first index, or -1. *)
Fixpoint find_char (c : ascii) (s : string) : Z :=
  match s with
  | EmptyString => (-1)%Z
  | String a rest =>
      if Ascii.eqb a c then 0%Z
      else let i := find_char c rest in
           if (i <? 0)%Z then (-1)%Z else (i + 1)%Z
  end.

(** [s.rfind(c)] for a one-character needle: the last index, or -1. *)
Fixpoint rfind_char (c : ascii) (s : string) : Z :=
  match s with
  | EmptyString => (-1)%Z
  | String a rest =>
      let i := rfind_char c rest in
      if (0 <=? i)%Z then (i + 1)%Z
      else if Ascii.eqb a c then 0%Z else (-1)%Z
  end.

(** Index normalisation of a slice bound: negative bounds count from the
    end, and every bound is clipped to [0, len]. *)
Definition clip_index (n : nat) (i : Z) : nat :=
  let len := Z.of_nat n in
  let j := if (i <? 0)%Z then Z.max 0 (len + i) else Z.min i len in
  Z.to_nat j.

(** [s[start:stop]] *)
Definition slice (s : string) (start stop : Z) : string :=
  let n := String.length s in
  let a := clip_index n start in
  let b := clip_index n stop in
  String.substring a (b - a) s.

(** [min(a, b)] and [max(a, b)] on numbers: Python returns the first
    argument unless the second is strictly smaller (resp. larger). *)
Definition qmin (a b : Q) : Q := if Qle_bool a b then a else b.

(** [a < b] on numbers, as a boolean. *)
Definition qlt (a b : Q) : bool := negb (Qle_bool b a).

Definition zmin (a b : Z) : Z := if (b <? a)%Z then b else a.

(** [s.upper()] and [s.lower()], on the ASCII letters; the other code
    points below 256 never turn into an ASCII letter. *)
Definition upper_char (c : ascii) : ascii :=
  let n := nat_of_ascii c in
  if (97 <=? n) && (n <=? 122) then ascii_of_nat (n - 32) else c.

Definition lower_char (c : ascii) : ascii :=
  let n := nat_of_ascii c in
  if (65 <=? n) && (n <=? 90) then ascii_of_nat (n + 32) else c.

Fixpoint upper (s : string) : string :=
  match s with
  | EmptyString => EmptyString
  | String c rest => String (upper_char c) (upper rest)
  end.

Fixpoint lower (s : string) : string :=
  match s with
  | EmptyString => EmptyString
  | String c rest => String (lower_char c) (lower rest)
  end.

(** [v[key]] with a string key: only a dict can be subscripted so. *)
Definition subscript (v : json) (key : string) : res json :=
  match v with
  | JObj its => getitem its key
  | _ => Raise TypeError
  end.

(** [l.index(x)]: the position of the first element equal to [x]. *)
Fixpoint index_of {A : Type} (eqb : A -> A -> bool) (x : A) (l : list A) : option nat :=
  match l with
  | [] => None
  | y :: rest =>
      if eqb y x then Some O
      else match index_of eqb x rest with
           | Some i => Some (S i)
           | None => None
           end
  end.

(** [l[i]] for a list and an index that is not negative. *)
Definition list_item {A : Type} (l : list A) (i : nat) : res A :=
  match nth_error l i with
  | Some x => Ret x
  | None => Raise IndexError
  end.

(** [d.get(k)] for a dict literal keyed by strings. *)
Fixpoint assoc {A : Type} (d : list (string * A)) (k : string) : option A :=
  match d with
  | [] => None
  | (k', v) :: rest => if String.eqb k' k then Some v else assoc rest k
  end.

(** [range(n)] *)
Definition range (n : Z) : list Z := map Z.of_nat (seq 0 (Z.to_nat n)).

(** A computation that also acts on a world [W]: the effects of the
    part that ran are kept when it raises. *)
Definition io (W A : Type) : Type := W -> W * res A.

Definition io_ret {W A : Type} (a : A) : io W A := fun w => (w, Ret a).

Definition io_raise {W A : Type} (e : exn) : io W A := fun w => (w, Raise e).

Definition io_bind {W A B : Type} (m : io W A) (k : A -> io W B) : io W B :=
  fun w =>
    match m w with
    | (w, Ret a) => k a w
    | (w, Raise e) => (w, Raise e)
    end.

End Py.

Export Py.

Declare Scope py_scope.
Notation "x <- m ;; k" := (Py.bind m (fun x => k))
  (at level 61, m at next level, right associativity) : py_scope.
Notation "x <~ m ;; k" := (Py.io_bind m (fun x => k))
  (at level 61, m at next level, right associativity) : py_scope.
Open Scope py_scope.

(** Early exit from a [for] loop whose body may [return False]: the body
    answers [Ret true] to go on, [Ret false] to leave the function with
    [False], and may raise. *)
Fixpoint for_all {A : Type} (body : A -> res bool) (l : list A) : res bool :=
  match l with
  | [] => Ret true
  | x :: rest =>
      ok <- body x ;;
      if ok then for_all body rest else Ret false
  end.

(** ** ai_assistant/base_ai.py *)

Module BaseAIAssistant.

(** *** The token bucket *)

(** The attributes of [self] that the rate limiter reads and writes.
    [tokens] starts as an [int] and becomes a [float] at the first
    refill; both are read here as rationals, on which the comparisons,
    [min] and the subtraction of the source have the same order
    properties as on floats. *)
Record bucket : Type := mkBucket {
  max_burst : Q;
  token_refill_rate : Q;
  tokens : Q;
  last_refill_time : Q
}.

(** The part of [__init__] that sets up the bucket; [now] is the reading
    of [time.time()]. *)
Definition init_bucket (rate_limit_per_minute max_burst : Z) (now : Q) : bucket :=
  {| max_burst := inject_Z max_burst;
     token_refill_rate := inject_Z rate_limit_per_minute / 60;
     tokens := inject_Z max_burst;
     last_refill_time := now |}.

(** [_refill_tokens]; [current_time] is the reading of [time.time()]. *)
Definition _refill_tokens (current_time : Q) (self : bucket) : bucket :=
  let elapsed := current_time - last_refill_time self in
  let new_tokens := elapsed * token_refill_rate self in
  if qlt 0 new_tokens then
    {| max_burst := max_burst self;
       token_refill_rate := token_refill_rate self;
       tokens := qmin (max_burst self) (tokens self + new_tokens);
       last_refill_time := current_time |}
  else self.

(** [_refill_tokens_async] has the same body. *)
Definition _refill_tokens_async (current_time : Q) (self : bucket) : bucket :=
  let elapsed := current_time - last_refill_time self in
  let new_tokens := elapsed * token_refill_rate self in
  if qlt 0 new_tokens then
    {| max_burst := max_burst self;
       token_refill_rate := token_refill_rate self;
       tokens := qmin (max_burst self) (tokens self + new_tokens);
       last_refill_time := current_time |}
  else self.

(** How a call of [_acquire_token] stands when the observation ends. *)
Inductive acquisition : Type :=
| Acquired                      (* [return True] *)
| Waiting                       (* still inside [while True] *)
| Failed (e : exn).             (* the wait computation raised *)

Definition debit (required_tokens : Z) (self : bucket) : bucket :=
  {| max_burst := max_burst self;
     token_refill_rate := token_refill_rate self;
     tokens := tokens self - inject_Z required_tokens;
     last_refill_time := last_refill_time self |}.

(** [_acquire_token].  Each turn of [while True] reads the clock once, in
    [_refill_tokens]; [clock] lists the readings of the turns that are
    observed.  [wait_time] divides by the refill rate, and [time.sleep]
    refuses a negative length. *)
Fixpoint _acquire_token (required_tokens : Z) (clock : list Q) (self : bucket)
  : bucket * acquisition :=
  match clock with
  | [] => (self, Waiting)
  | now :: later =>
      let self := _refill_tokens now self in
      if Qle_bool (inject_Z required_tokens) (tokens self) then
        (debit required_tokens self, Acquired)
      else if Qeq_bool (token_refill_rate self) 0 then
        (self, Failed ZeroDivisionError)
      else
        let wait_time :=
          (inject_Z required_tokens - tokens self) / token_refill_rate self in
        if qlt wait_time 0 then (self, Failed ValueError)
        else _acquire_token required_tokens later self
  end.

(** [_acquire_token_async]: the same turn, taken under [_async_lock];
    [asyncio.sleep] accepts a negative delay. *)
Fixpoint _acquire_token_async (required_tokens : Z) (clock : list Q) (self : bucket)
  : bucket * acquisition :=
  match clock with
  | [] => (self, Waiting)
  | now :: later =>
      let self := _refill_tokens_async now self in
      if Qle_bool (inject_Z required_tokens) (tokens self) then
        (debit required_tokens self, Acquired)
      else if Qeq_bool (token_refill_rate self) 0 then
        (self, Failed ZeroDivisionError)
      else _acquire_token_async required_tokens later self
  end.

(** The calls that reach the bucket. *)
Inductive call : Type :=
| CallRefill (now : Q)
| CallAcquire (required_tokens : Z) (clock : list Q)
| CallAcquireAsync (required_tokens : Z) (clock : list Q).

Definition run_call (c : call) (self : bucket) : bucket :=
  match c with
  | CallRefill now => _refill_tokens now self
  | CallAcquire n clock => fst (_acquire_token n clock self)
  | CallAcquireAsync n clock => fst (_acquire_token_async n clock self)
  end.

(** The bucket after each call of a sequence, oldest first. *)
Fixpoint bucket_history (calls : list call) (self : bucket) : list bucket :=
  match calls with
  | [] => []
  | c :: rest => let self := run_call c self in self :: bucket_history rest self
  end.

(** *** The response validators *)

(** The four top-level keys whose value [_validate_response_format]
    inspects element by element. *)
Definition LIST_KEYS : list string :=
  [ "possible_damage_scenario_list"%string;
    "possible_threat_scenario_list"%string;
    "possible_attack_path_list"%string;
    "asset_cybersecurity_requirement_list"%string ].

(** [sub_content.strip() == ""]; [strip] is a method of [str] only. *)
Definition is_blank (sub_content : json) : res bool :=
  match sub_content with
  | JStr s => Ret (String.eqb (strip s) "")
  | _ => Raise AttributeError
  end.

(** The loop [for sub_key, sub_content in item.items()] of the list branch. *)
Definition check_item (item : json) : res bool :=
  its <- items item ;;
  for_all (fun kv => blank <- is_blank (snd kv) ;; Ret (negb blank)) its.

(** The branch taken for a key of [LIST_KEYS]. *)
Definition check_list_key (response_json : dict) (key : string) : res bool :=
  if negb (dict_mem response_json key) then Ret false
  else
    v <- getitem response_json key ;;
    n <- len v ;;
    if Nat.eqb n 0 then Ret false
    else
      elems <- iter v ;;
      for_all check_item elems.

(** The branch taken when the template value is a dict: every nested key
    name must be [in response_json[key]]. *)
Definition check_dict_key (response_json : dict) (key : string)
    (format_value : dict) : res bool :=
  for_all
    (fun kv =>
       v <- getitem response_json key ;;
       present <- contains v (fst kv) ;;
       Ret present)
    format_value.

(** One turn of [for key, format_value in format_json.items()]. *)
Definition check_key (response_json : dict) (entry : string * json) : res bool :=
  let (key, format_value) := entry in
  if str_in key LIST_KEYS then check_list_key response_json key
  else
    match format_value with
    | JObj sub_format => check_dict_key response_json key sub_format
    | _ => Ret (dict_mem response_json key)
    end.

(** The body of the [try] once [format_text] has been parsed. *)
Definition validate_against (response_json : dict) (format_json : json) : res bool :=
  its <- items format_json ;;
  for_all (check_key response_json) its.

Section WithJsonLoads.

(** [json.loads] of the Python standard library as a handler
    [except Exception] sees it: [None] stands for any exception. *)
Variable json_loads : string -> option json.

(** [_validate_response_format]: any exception inside the [try] is logged
    and answered with [False]. *)
Definition _validate_response_format (response_json : dict) (format_text : string) : bool :=
  match json_loads format_text with
  | None => false
  | Some format_json =>
      match validate_against response_json format_json with
      | Ret b => b
      | Raise _ => false
      end
  end.

End WithJsonLoads.

Section WithJsonLoadsExceptions.

(** [json.loads] with the exception it raises: [json.JSONDecodeError] on
    a text that is not JSON, and on some texts another one
    ([RecursionError] when the text nests deeper than the interpreter's
    stack allows, the plain [ValueError] of [int] on a number of more
    than 4300 digits). *)
Variable json_loads : string -> res json.

(** [_validate_json_response]: parse the text; on [json.JSONDecodeError],
    and on nothing else, parse the slice from the first opening brace to
    the last closing brace, where any exception is passed over; else
    [ValueError]. *)
Definition _validate_json_response (response_text : string) : res json :=
  match json_loads response_text with
  | Ret v => Ret v
  | Raise JSONDecodeError =>
      let start := find_char "{"%char response_text in
      let stop := (rfind_char "}"%char response_text + 1)%Z in
      if negb (start =? -1)%Z && negb (stop =? 0)%Z then
        match json_loads (slice response_text start stop) with
        | Ret v => Ret v
        | Raise _ => Raise ValueError
        end
      else Raise ValueError
  | Raise e => Raise e
  end.

End WithJsonLoadsExceptions.

(** *** The retry loop *)

Section RequestLoop.

(** [json.loads], as above. *)
Variable json_loads : string -> option json.

(** The world the hooks act on (connection pool, clock, remote endpoint). *)
Variable World : Type.

(** [_acquire_token] as the loop sees it: a step on the world that
    returns or raises (a wait that never ends is outside this model). *)
Variable acquire_token : io World unit.

(** The abstract methods of the class, and [_parse_response], which a
    subclass may override. *)
Variable _prepare_request_data : io World json.
Variable _send_request : json -> io World json.
Variable _parse_response : json -> io World json.

(** [time.sleep(delay)] *)
Variable sleep : Z -> World -> World.

Variable max_retries : Z.
Variable format_text : string.

(** The [try] block of [request_ai_response]. *)
Definition try_block : io World dict :=
  _ <~ acquire_token ;;
  request_data <~ _prepare_request_data ;;
  response <~ _send_request request_data ;;
  parsed_response <~ _parse_response response ;;
  match parsed_response with
  | JObj d =>
      if _validate_response_format json_loads d format_text
      then io_ret d
      else io_raise ValueError
  | _ => io_raise ValueError
  end.

(** What one logical request leaves behind: the world, the number of
    times the [try] block was entered, the arguments of [time.sleep] in
    call order, and the result. *)
Record run : Type := mkRun {
  final : World;
  attempts : nat;
  delays : list Z;
  outcome : res dict
}.

(** The [while retry_count <= self.max_retries] loop; [fuel] bounds the
    number of turns. *)
Fixpoint request_loop (fuel : nat) (retry_count : Z) (w : World)
    (attempts : nat) (delays : list Z) : option run :=
  match fuel with
  | O => None
  | S fuel =>
      if (retry_count <=? max_retries)%Z then
        match try_block w with
        | (w, Ret parsed_response) =>
            Some (mkRun w (S attempts) delays (Ret parsed_response))
        | (w, Raise _) =>
            let retry_count := (retry_count + 1)%Z in
            if (retry_count <=? max_retries)%Z then
              let delay := zmin (2 ^ (retry_count - 1)) 30 in
              request_loop fuel retry_count (sleep delay w)
                (S attempts) (delays ++ [delay])
            else
              request_loop fuel retry_count w (S attempts) delays
        end
      else Some (mkRun w attempts delays (Raise Exception))
  end.

(** [request_ai_response]: [max_retries + 2] turns are enough, because
    every turn that does not leave the loop increments [retry_count]. *)
Definition request_ai_response (w : World) : option run :=
  request_loop (Z.to_nat (max_retries + 1) + 1) 0 w 0 [].

(** [request_ai_response_async] runs the same loop on the async hooks. *)
Definition request_ai_response_async (w : World) : option run :=
  request_loop (Z.to_nat (max_retries + 1) + 1) 0 w 0 [].

End RequestLoop.

End BaseAIAssistant.

(** ** ai_assistant/deepseek_ai.py *)

Module DeepSeekAIAssistant.

(** What [session.post] followed by [raise_for_status] and [json()] can
    do: deliver a body, run into the timeout, meet a status that
    [raise_for_status] rejects, fail otherwise inside [requests], or
    raise an exception that is none of [requests.exceptions] (the
    [ValueError] of a timeout that is not positive, for one), which no
    handler of the loop catches.  The retry strategy mounted on the
    session works inside one [session.post]: a status of its
    [status_forcelist] (429, 500, 502, 503, 504) that persists ends in
    [RetryError], one of the failures inside [requests]. *)
Inductive reply : Type :=
| Delivered (body : json)
| TimedOut
| Rejected (status_code : Z)
| Broken
| Crashed (e : exn).

(** The connection as the function leaves it: the [timeout] argument of
    every POST so far and the argument of every [time.sleep], oldest
    first. *)
Record net : Type := mkNet {
  posts : list Q;
  slept : list Z
}.

Definition post_with (current_timeout : Q) (w : net) : net :=
  {| posts := posts w ++ [current_timeout]; slept := slept w |}.

Definition sleep (seconds : Z) (w : net) : net :=
  {| posts := posts w; slept := slept w ++ [seconds] |}.

Section SendRequest.

(** The remote endpoint: its reply to the n-th POST of this connection,
    given the request and the timeout granted. *)
Variable endpoint : json -> nat -> Q -> reply.

Variable max_retries : Z.
Variable timeout : Z.

(** The body of [for attempt in range(self.max_retries + 1)]. *)
Fixpoint send_loop (request_data : json) (attempts_left : list Z)
    (current_timeout : Q) (w : net) : net * res json :=
  match attempts_left with
  | [] => (w, Ret JNull)
  | attempt :: later =>
      let answer := endpoint request_data (List.length (posts w)) current_timeout in
      let w := post_with current_timeout w in
      match answer with
      | Delivered json_response => (w, Ret json_response)
      | TimedOut =>
          let current_timeout := qmin (current_timeout * (3 # 2)) 120 in
          if (attempt =? max_retries)%Z then (w, Raise Timeout)
          else send_loop request_data later current_timeout (sleep (2 ^ attempt) w)
      | Rejected status_code =>
          if (attempt =? max_retries)%Z || (500 <=? status_code)%Z
          then (w, Raise (HTTPError status_code))
          else send_loop request_data later current_timeout (sleep (2 ^ attempt) w)
      | Broken =>
          if (attempt =? max_retries)%Z then (w, Raise RequestException)
          else send_loop request_data later current_timeout (sleep (2 ^ attempt) w)
      | Crashed e => (w, Raise e)
      end
  end.

(** [_send_request] *)
Definition _send_request (request_data : json) : io net json :=
  send_loop request_data (range (max_retries + 1)) (inject_Z timeout).

(** [_send_request_async] follows the same steps on the aiohttp session. *)
Definition _send_request_async (request_data : json) : io net json :=
  send_loop request_data (range (max_retries + 1)) (inject_Z timeout).

End SendRequest.

End DeepSeekAIAssistant.

(** ** tara_objs/damage_scenario_impact_level.py *)

Module SeverityLevel.

Inductive t : Type := NEGLIGIBLE | MODERATE | MAJOR | SEVERE.

Definition members : list t := [NEGLIGIBLE; MODERATE; MAJOR; SEVERE].

Definition name (m : t) : string :=
  match m with
  | NEGLIGIBLE => "NEGLIGIBLE"
  | MODERATE => "MODERATE"
  | MAJOR => "MAJOR"
  | SEVERE => "SEVERE"
  end.

Definition value (m : t) : Z :=
  match m with
  | NEGLIGIBLE => 0
  | MODERATE => 1
  | MAJOR => 2
  | SEVERE => 3
  end.

Definition eqb (a b : t) : bool := (value a =? value b)%Z.

(** [SeverityLevel(v)]: the member whose value is [v]. *)
Definition of_value (v : Z) : res t :=
  match find (fun m => (value m =? v)%Z) members with
  | Some m => Ret m
  | None => Raise ValueError
  end.

(** [SeverityLevel.get(severity)] on a [str]. *)
Definition get_str (severity : string) : t :=
  match find (fun m => String.eqb (name m) (upper severity)) members with
  | Some m => m
  | None => NEGLIGIBLE
  end.

(** [SeverityLevel.get] on any value: [upper] is a method of [str]. *)
Definition get (severity : json) : res t :=
  match severity with
  | JStr s => Ret (get_str s)
  | _ => Raise AttributeError
  end.

End SeverityLevel.

Module DamageScenarioImpactLevel.

Import SeverityLevel.

Record t : Type := mk {
  damage_scenario_sn : string;
  damage_scenario : string;
  safety : SeverityLevel.t;
  financial : SeverityLevel.t;
  operational : SeverityLevel.t;
  privacy : SeverityLevel.t;
  impact_level : SeverityLevel.t
}.

(** [max(a, b, c, d)] *)
Definition max4 (a b c d : Z) : Z := Z.max (Z.max (Z.max a b) c) d.

(** [SeverityLevel(max(...))] on the values of four dimensions. *)
Definition overall (safety financial operational privacy : SeverityLevel.t)
  : res SeverityLevel.t :=
  let max_level := max4 (value safety) (value financial) (value operational) (value privacy) in
  of_value max_level.

(** [_calculate_impact_level] *)
Definition _calculate_impact_level (self : t) : res SeverityLevel.t :=
  overall (safety self) (financial self) (operational self) (privacy self).

(** [__init__]: no object exists if the last assignment raises. *)
Definition init (damage_scenario_sn damage_scenario : string)
    (safety financial operational privacy : SeverityLevel.t) : res t :=
  level <- overall safety financial operational privacy ;;
  Ret (mk damage_scenario_sn damage_scenario safety financial operational privacy level).

Definition set_safety (v : SeverityLevel.t) (self : t) : t :=
  mk (damage_scenario_sn self) (damage_scenario self)
     v (financial self) (operational self) (privacy self) (impact_level self).

Definition set_financial (v : SeverityLevel.t) (self : t) : t :=
  mk (damage_scenario_sn self) (damage_scenario self)
     (safety self) v (operational self) (privacy self) (impact_level self).

Definition set_operational (v : SeverityLevel.t) (self : t) : t :=
  mk (damage_scenario_sn self) (damage_scenario self)
     (safety self) (financial self) v (privacy self) (impact_level self).

Definition set_privacy (v : SeverityLevel.t) (self : t) : t :=
  mk (damage_scenario_sn self) (damage_scenario self)
     (safety self) (financial self) (operational self) v (impact_level self).

Definition set_impact_level (v : SeverityLevel.t) (self : t) : t :=
  mk (damage_scenario_sn self) (damage_scenario self)
     (safety self) (financial self) (operational self) (privacy self) v.

(** [if v is not None: self.attr = v] *)
Definition assign_if_given (setter : SeverityLevel.t -> t -> t)
    (v : option SeverityLevel.t) (self : t) : t :=
  match v with
  | Some v => setter v self
  | None => self
  end.

(** [self.impact_level = self._calculate_impact_level()] *)
Definition recalculate : io t unit :=
  fun self =>
    match _calculate_impact_level self with
    | Ret level => (set_impact_level level self, Ret tt)
    | Raise e => (self, Raise e)
    end.

(** [set_impact_levels] *)
Definition set_impact_levels (safety financial operational privacy : option SeverityLevel.t)
  : io t unit :=
  fun self =>
    let self := assign_if_given set_safety safety self in
    let self := assign_if_given set_financial financial self in
    let self := assign_if_given set_operational operational self in
    let self := assign_if_given set_privacy privacy self in
    recalculate self.

(** [SeverityLevel.get(attributes[k]) if attributes[k] else None] *)
Definition level_argument (attributes : json) (k : string) : res (option SeverityLevel.t) :=
  v <- subscript attributes k ;;
  if truthy v then
    v <- subscript attributes k ;;
    m <- SeverityLevel.get v ;;
    Ret (Some m)
  else Ret None.

(** The four keyword arguments of the call in
    [set_impact_levels_by_strings], evaluated left to right. *)
Definition level_arguments (attributes : json)
  : res (option SeverityLevel.t * option SeverityLevel.t
         * option SeverityLevel.t * option SeverityLevel.t) :=
  safety <- level_argument attributes "safety" ;;
  financial <- level_argument attributes "financial" ;;
  operational <- level_argument attributes "operational" ;;
  privacy <- level_argument attributes "privacy" ;;
  Ret (safety, financial, operational, privacy).

(** [set_impact_levels_by_strings]: the arguments are evaluated before
    the object is touched, then [set_impact_levels] runs, then the
    overall level is computed once more. *)
Definition set_impact_levels_by_strings (attributes : json) : io t unit :=
  fun self =>
    match level_arguments attributes with
    | Raise e => (self, Raise e)
    | Ret (safety, financial, operational, privacy) =>
        (_ <~ set_impact_levels safety financial operational privacy ;;
         recalculate) self
    end.

End DamageScenarioImpactLevel.

(** ** tara_objs/threat_scenario_attack_feasibility.py *)

Module TimeConsumingLevel.
Inductive t : Type :=
| NO_MORE_THAN_ONE_DAY | NO_MORE_THAN_ONE_WEEK | NO_MORE_THAN_ONE_MONTH
| NO_MORE_THAN_SIX_MONTHS | MORE_THAN_SIX_MONTHS.
End TimeConsumingLevel.

Module ExpertiseLevel.
Inductive t : Type := LAYMAN | PROFICIENT | EXPERT | MULTIPLE_EXPERT.
End ExpertiseLevel.

Module KnowledgeAboutTOELevel.
Inductive t : Type := PUBLIC | RESTRICTED | CONFIDENTIAL | STRICTLY_CONFIDENTIAL.
End KnowledgeAboutTOELevel.

Module WindowOfOpportunityLevel.
Inductive t : Type := UNLIMITED | EASY | MODERATE | DIFFICULT.
End WindowOfOpportunityLevel.

Module EquipmentLevel.
Inductive t : Type := STANDARD | SPECIALIZED | BESPOKE | MULTIPLE_BESPOKE.
End EquipmentLevel.

Module AttackFeasibilityRating.

Inductive t : Type := VERY_LOW | LOW | MEDIUM | HIGH.

Definition value (r : t) : string :=
  match r with
  | VERY_LOW => "verylow"
  | LOW => "low"
  | MEDIUM => "medium"
  | HIGH => "high"
  end.

End AttackFeasibilityRating.

Module ThreatScenarioAttackFeasibility.

Record t : Type := mk {
  threat_id : string;
  threat_scenario : string;
  attack_path : string;
  time_consuming : option TimeConsumingLevel.t;
  expertise : option ExpertiseLevel.t;
  knowledge_about_toe : option KnowledgeAboutTOELevel.t;
  window_of_opportunity : option WindowOfOpportunityLevel.t;
  equipment : option EquipmentLevel.t;
  difficulty : option Z;
  attack_feasibility_rating : option AttackFeasibilityRating.t
}.

End ThreatScenarioAttackFeasibility.

(** ** tara_objs/risk_treatment_decision.py *)

Module RiskTreatmentOption.

Inductive t : Type := AVOID | REDUCE | SHARE | RETAIN.

Definition members : list t := [AVOID; REDUCE; SHARE; RETAIN].

Definition name (o : t) : string :=
  match o with
  | AVOID => "AVOID"
  | REDUCE => "REDUCE"
  | SHARE => "SHARE"
  | RETAIN => "RETAIN"
  end.

Definition value (o : t) : string :=
  match o with
  | AVOID => "Avoid"
  | REDUCE => "Reduce"
  | SHARE => "Share"
  | RETAIN => "Retain"
  end.

(** [from_string] *)
Definition from_string (v : string) : option t :=
  find (fun o => String.eqb (lower (value o)) (lower v)) members.

End RiskTreatmentOption.

Module RiskTreatmentDecision.

(** The text attributes hold whatever the response carried, [JNull] for
    [None]. *)
Record t : Type := mk {
  risk_value : Z;
  risk_treatment : option RiskTreatmentOption.t;
  item_change : json;
  cybersecurity_claim_id : json;
  cybersecurity_claim : json;
  cybersecurity_goal_id : json;
  cybersecurity_goal : json
}.

(** [RiskTreatmentDecision()] *)
Definition init : t := mk 0 None JNull JNull JNull JNull JNull.

(** [_parse_enum(value, RiskTreatmentOption)] on a value taken from a
    response. *)
Definition _parse_enum (v : json) : res (option RiskTreatmentOption.t) :=
  match v with
  | JNull => Ret None
  | JStr s =>
      match RiskTreatmentOption.from_string s with
      | Some o => Ret (Some o)
      | None => Raise ValueError
      end
  | _ => Raise TypeError
  end.

Definition with_risk_value (v : Z) (self : t) : t :=
  mk v (risk_treatment self) (item_change self) (cybersecurity_claim_id self)
     (cybersecurity_claim self) (cybersecurity_goal_id self) (cybersecurity_goal self).

Definition with_risk_treatment (o : option RiskTreatmentOption.t) (self : t) : t :=
  mk (risk_value self) o (item_change self) (cybersecurity_claim_id self)
     (cybersecurity_claim self) (cybersecurity_goal_id self) (cybersecurity_goal self).

Definition with_item_change (v : json) (self : t) : t :=
  mk (risk_value self) (risk_treatment self) v (cybersecurity_claim_id self)
     (cybersecurity_claim self) (cybersecurity_goal_id self) (cybersecurity_goal self).

Definition with_cybersecurity_goal (v : json) (self : t) : t :=
  mk (risk_value self) (risk_treatment self) (item_change self) (cybersecurity_claim_id self)
     (cybersecurity_claim self) (cybersecurity_goal_id self) v.

Definition with_cybersecurity_claim (v : json) (self : t) : t :=
  mk (risk_value self) (risk_treatment self) (item_change self) (cybersecurity_claim_id self)
     v (cybersecurity_goal_id self) (cybersecurity_goal self).

(** [set_risk_treatment]: a falsy argument clears the option. *)
Definition set_risk_treatment (v : json) : io t unit :=
  fun self =>
    if truthy v then
      match _parse_enum v with
      | Ret o => (with_risk_treatment o self, Ret tt)
      | Raise e => (self, Raise e)
      end
    else (with_risk_treatment None self, Ret tt).

End RiskTreatmentDecision.

(** ** tara_objs/cybersecurity_control_requirement.py *)

Module CybersecurityControlRequirement.

Record t : Type := mk {
  cybersecurity_control_id : json;
  cybersecurity_control : json;
  allocated_to_device : json;
  cybersecurity_requirement_id : json;
  cybersecurity_requirement : json
}.

(** [CybersecurityControlRequirement()]: every attribute is [None]. *)
Definition init : t := mk JNull JNull JNull JNull JNull.

Definition with_cybersecurity_control (v : json) (self : t) : t :=
  mk (cybersecurity_control_id self) v (allocated_to_device self)
     (cybersecurity_requirement_id self) (cybersecurity_requirement self).

Definition with_allocated_to_device (v : json) (self : t) : t :=
  mk (cybersecurity_control_id self) (cybersecurity_control self) v
     (cybersecurity_requirement_id self) (cybersecurity_requirement self).

Definition with_cybersecurity_requirement_id (v : json) (self : t) : t :=
  mk (cybersecurity_control_id self) (cybersecurity_control self) (allocated_to_device self)
     v (cybersecurity_requirement self).

Definition with_cybersecurity_requirement (v : json) (self : t) : t :=
  mk (cybersecurity_control_id self) (cybersecurity_control self) (allocated_to_device self)
     (cybersecurity_requirement_id self) v.

Section Regenerate.

(** The first eight hexadecimal digits of the SHA-256 digest of the
    requirement text followed by the eight bytes of the time stamp
    ([hashlib] is outside the repository). *)
Variable short_hash : string -> Z -> string.

(** [regenerate_csr_id]; [encode] is a method of [str]. *)
Definition regenerate_csr_id (current_time : Z) : io t unit :=
  fun self =>
    match cybersecurity_requirement self with
    | JStr text =>
        (with_cybersecurity_requirement_id
           (JStr ("CSR-" ++ short_hash text current_time)) self, Ret tt)
    | _ => (self, Raise AttributeError)
    end.

End Regenerate.

End CybersecurityControlRequirement.

(** ** tara_objs/asset_info.py, tara_objs/asset_info_cybersecurity_attribute.py *)

Module AssetType.
Inductive t : Type := HARDWARE | SOFTWARE | DATA | COMMUNICATION.
End AssetType.

Module AssetInfo.
Record t : Type := mk {
  asset_id : string;
  asset_name : string;
  communication_protocol : string;
  asset_type : AssetType.t;
  remarks : string
}.
End AssetInfo.

Module CybersecurityAttribute.
Inductive t : Type :=
| AUTHENTICITY | INTEGRITY | NON_REPUDIATION | CONFIDENTIALITY
| AVAILABILITY | AUTHORIZATION | PRIVACY.
End CybersecurityAttribute.

Module AssetInfoCybersecurityAttribute.
Record t : Type := mk {
  asset_info : AssetInfo.t;
  assigned_security_attribute : option CybersecurityAttribute.t
}.
End AssetInfoCybersecurityAttribute.

(** ** tara_objs/asset_tara_info.py *)

Module AssetTaraInfo.

Record t : Type := mk {
  asset_cybersecurity_attribute : option AssetInfoCybersecurityAttribute.t;
  damage_scenario_impact_level : option DamageScenarioImpactLevel.t;
  threat_scenario_attack_feasibility : option ThreatScenarioAttackFeasibility.t;
  risk_treatment_decision : option RiskTreatmentDecision.t;
  cybersecurity_control_requirement : option CybersecurityControlRequirement.t
}.

(** [set_risk_treatment_decision] *)
Definition set_risk_treatment_decision (decision : RiskTreatmentDecision.t) (self : t) : t :=
  mk (asset_cybersecurity_attribute self) (damage_scenario_impact_level self)
     (threat_scenario_attack_feasibility self) (Some decision)
     (cybersecurity_control_requirement self).

(** [set_cybersecurity_control_requirement] *)
Definition set_cybersecurity_control_requirement
    (requirement : CybersecurityControlRequirement.t) (self : t) : t :=
  mk (asset_cybersecurity_attribute self) (damage_scenario_impact_level self)
     (threat_scenario_attack_feasibility self) (risk_treatment_decision self)
     (Some requirement).

(** The dict literal [risk_matrix] of [calculate_overall_risk]: one row
    per feasibility value, one column per severity value. *)
Definition risk_matrix : list (string * list Z) :=
  [ ("verylow"%string, [1; 1; 1; 2]%Z);
    ("low"%string, [1; 2; 2; 3]%Z);
    ("medium"%string, [1; 2; 3; 4]%Z);
    ("high"%string, [1; 3; 4; 5]%Z) ].

(** An attribute assignment on [self.risk_treatment_decision]. *)
Definition on_decision (f : RiskTreatmentDecision.t -> RiskTreatmentDecision.t) : io t unit :=
  fun self =>
    match risk_treatment_decision self with
    | Some d => (set_risk_treatment_decision (f d) self, Ret tt)
    | None => (self, Raise AttributeError)
    end.

(** [calculate_overall_risk] *)
Definition calculate_overall_risk : io t unit :=
  fun self =>
    match damage_scenario_impact_level self, threat_scenario_attack_feasibility self with
    | Some damage, Some threat =>
        let impact_level :=
          SeverityLevel.value (DamageScenarioImpactLevel.impact_level damage) in
        match ThreatScenarioAttackFeasibility.attack_feasibility_rating threat with
        | Some attack_feasibility =>
            match assoc risk_matrix (AttackFeasibilityRating.value attack_feasibility) with
            | Some row =>
                match list_item row (Z.to_nat impact_level) with
                | Ret v => on_decision (RiskTreatmentDecision.with_risk_value v) self
                | Raise e => (self, Raise e)
                end
            | None => (self, Ret tt)
            end
        | None => (self, Ret tt)
        end
    | _, _ => (self, Ret tt)
    end.

End AssetTaraInfo.

(** ** tara_objs/asset_info_attribute_damage_impact.py,
       tara_objs/asset_info_damage_scenario_threat_scenario.py,
       tara_objs/asset_threat_risk_treatment_decision.py *)

Module AssetInfoAttributeDamageImpact.
Record t : Type := mk {
  asset_info_attribute : AssetInfoCybersecurityAttribute.t;
  damage_scenario_impact_level : DamageScenarioImpactLevel.t
}.
End AssetInfoAttributeDamageImpact.

Module AssetInfoDamageScenarioThreatScenario.
Record t : Type := mk {
  asset_info_attribute_damage_impact : AssetInfoAttributeDamageImpact.t;
  threat_scenario_attack_feasibility : ThreatScenarioAttackFeasibility.t
}.
End AssetInfoDamageScenarioThreatScenario.

Module AssetThreatRiskTreatmentDecision.

(** [risk_treatment] is declared [Optional[Union[str, RiskTreatmentDecision]]]. *)
Inductive treatment : Type :=
| NoTreatment
| TreatmentText (s : string)
| TreatmentDecision (d : RiskTreatmentDecision.t).

Record t : Type := mk {
  asset_info_damage_scenario_threat_scenario : AssetInfoDamageScenarioThreatScenario.t;
  risk_treatment : treatment
}.

(** The list literal [risk_matrix] of [calculate_risk_value]. *)
Definition risk_matrix : list (list Z) :=
  [ [2; 3; 4; 5]; [1; 2; 3; 4]; [1; 2; 2; 3]; [1; 1; 1; 1] ]%Z.

Definition impact_values : list SeverityLevel.t :=
  [SeverityLevel.SEVERE; SeverityLevel.MAJOR; SeverityLevel.MODERATE; SeverityLevel.NEGLIGIBLE].

Definition feasibility_values : list string :=
  ["verylow"; "low"; "medium"; "high"]%string.

(** [calculate_risk_value].  With no feasibility rating the method calls
    [calculate_attack_feasibility_rating] with an argument that the
    callee does not take. *)
Definition calculate_risk_value : io t unit :=
  fun self =>
    let scenario := asset_info_damage_scenario_threat_scenario self in
    let impact_level :=
      DamageScenarioImpactLevel.impact_level
        (AssetInfoAttributeDamageImpact.damage_scenario_impact_level
           (AssetInfoDamageScenarioThreatScenario.asset_info_attribute_damage_impact scenario)) in
    match ThreatScenarioAttackFeasibility.attack_feasibility_rating
            (AssetInfoDamageScenarioThreatScenario.threat_scenario_attack_feasibility scenario) with
    | None => (self, Raise TypeError)
    | Some feasibility_rating =>
        let impact_index :=
          match index_of SeverityLevel.eqb impact_level impact_values with
          | Some i => i
          | None => O
          end in
        let feasibility_index :=
          match index_of String.eqb (AttackFeasibilityRating.value feasibility_rating)
                  feasibility_values with
          | Some i => i
          | None => O
          end in
        match (row <- list_item risk_matrix impact_index ;; list_item row feasibility_index) with
        | Raise e => (self, Raise e)
        | Ret v =>
            match risk_treatment self with
            | TreatmentDecision d =>
                (mk scenario (TreatmentDecision (RiskTreatmentDecision.with_risk_value v d)),
                 Ret tt)
            | _ => (self, Raise AttributeError)
            end
        end
    end.

End AssetThreatRiskTreatmentDecision.

(** ** tara_workflow.py *)

Module Workflow.

(** One call of [TARAAnalyzer.analyze_asset]. *)
Record request : Type := mkRequest {
  msg : string;
  prompt : string;
  format_text : string
}.

(** The objects a branch works on: the artifact, which every stage
    mutates in place and hands on, the requests issued so far and the
    arguments of [asyncio.sleep] so far, oldest first. *)
Record heap : Type := mkHeap {
  artifact : AssetTaraInfo.t;
  issued : list request;
  slept : list Z
}.

Definition issue (r : request) (h : heap) : heap :=
  mkHeap (artifact h) (issued h ++ [r]) (slept h).

Definition sleep (seconds : Z) (h : heap) : heap :=
  mkHeap (artifact h) (issued h) (slept h ++ [seconds]).

(** A method call on the artifact. *)
Definition on_artifact {A : Type} (m : io AssetTaraInfo.t A) : io heap A :=
  fun h =>
    match m (artifact h) with
    | (a, r) => (mkHeap a (issued h) (slept h), r)
    end.

(** An attribute assignment on [artifact.cybersecurity_control_requirement]. *)
Definition on_requirement (m : io CybersecurityControlRequirement.t unit)
  : io AssetTaraInfo.t unit :=
  fun self =>
    match AssetTaraInfo.cybersecurity_control_requirement self with
    | Some c =>
        match m c with
        | (c, r) => (AssetTaraInfo.set_cybersecurity_control_requirement c self, r)
        end
    | None => (self, Raise AttributeError)
    end.

(** An attribute assignment or method call on
    [artifact.risk_treatment_decision]. *)
Definition on_decision (m : io RiskTreatmentDecision.t unit) : io AssetTaraInfo.t unit :=
  fun self =>
    match AssetTaraInfo.risk_treatment_decision self with
    | Some d =>
        match m d with
        | (d, r) => (AssetTaraInfo.set_risk_treatment_decision d self, r)
        end
    | None => (self, Raise AttributeError)
    end.

Definition assign {S : Type} (f : S -> S) : io S unit := fun s => (f s, Ret tt).

(** [analysis_result[key]] *)
Definition field {W : Type} (analysis_result : dict) (key : string) : io W json :=
  fun w => (w, getitem analysis_result key).

Section Stages.

(** The request layer seen from the workflow: what the n-th request gets,
    the validated response or nothing when the retries are used up. *)
Variable generator : nat -> request -> option dict.

(** The serialisers and the prompt texts of [AssetTaraInfo]. *)
Variable prepare_for_ai04 : AssetTaraInfo.t -> string.
Variable prepare_for_ai05 : AssetTaraInfo.t -> string.
Variable get_prompt07 : string.
Variable get_prompt08 : string.

(** The [format_text] literals of the two stages. *)
Variable risk_treatment_format : string.
Variable cso_csr_format : string.

(** [hashlib] and [time.time] as [regenerate_csr_id] uses them; the
    reading is indexed by the number of requests issued. *)
Variable short_hash : string -> Z -> string.
Variable time_ms : nat -> Z.

(** [TARAAnalyzer.analyze_asset]: empty arguments are refused before any
    request; a failure of the request layer comes back as [RuntimeError]. *)
Definition analyze_asset (msg prompt format_text : string) : io heap dict :=
  fun h =>
    if String.eqb msg "" || String.eqb prompt "" then (h, Raise ValueError)
    else
      let r := mkRequest msg prompt format_text in
      match generator (List.length (issued h)) r with
      | Some response => (issue r h, Ret response)
      | None => (issue r h, Raise RuntimeError)
      end.

(** [TARAAnalyzer.analyze_asset_async]: the same checks around
    [request_ai_response_async]. *)
Definition analyze_asset_async (msg prompt format_text : string) : io heap dict :=
  fun h =>
    if String.eqb msg "" || String.eqb prompt "" then (h, Raise ValueError)
    else
      let r := mkRequest msg prompt format_text in
      match generator (List.length (issued h)) r with
      | Some response => (issue r h, Ret response)
      | None => (issue r h, Raise RuntimeError)
      end.

(** [asset_threat_risk_treatment_assessment] *)
Definition asset_threat_risk_treatment_assessment : io heap unit :=
  _ <~ on_artifact (assign (AssetTaraInfo.set_risk_treatment_decision RiskTreatmentDecision.init)) ;;
  _ <~ on_artifact AssetTaraInfo.calculate_overall_risk ;;
  analysis_result <~ (fun h => analyze_asset (prepare_for_ai04 (artifact h))
                                 get_prompt07 risk_treatment_format h) ;;
  v <~ field analysis_result "risk_treatment" ;;
  _ <~ on_artifact (on_decision (RiskTreatmentDecision.set_risk_treatment v)) ;;
  v <~ field analysis_result "item_change" ;;
  _ <~ on_artifact (on_decision (assign (RiskTreatmentDecision.with_item_change v))) ;;
  v <~ field analysis_result "cybersecurity_goal" ;;
  _ <~ on_artifact (on_decision (assign (RiskTreatmentDecision.with_cybersecurity_goal v))) ;;
  v <~ field analysis_result "cybersecurity_claim" ;;
  on_artifact (on_decision (assign (RiskTreatmentDecision.with_cybersecurity_claim v))).

(** [asset_threat_risk_treatment_assessment_async] *)
Definition asset_threat_risk_treatment_assessment_async : io heap unit :=
  _ <~ on_artifact (assign (AssetTaraInfo.set_risk_treatment_decision RiskTreatmentDecision.init)) ;;
  _ <~ on_artifact AssetTaraInfo.calculate_overall_risk ;;
  analysis_result <~ (fun h => analyze_asset_async (prepare_for_ai04 (artifact h))
                                 get_prompt07 risk_treatment_format h) ;;
  v <~ field analysis_result "risk_treatment" ;;
  _ <~ on_artifact (on_decision (RiskTreatmentDecision.set_risk_treatment v)) ;;
  v <~ field analysis_result "item_change" ;;
  _ <~ on_artifact (on_decision (assign (RiskTreatmentDecision.with_item_change v))) ;;
  v <~ field analysis_result "cybersecurity_goal" ;;
  _ <~ on_artifact (on_decision (assign (RiskTreatmentDecision.with_cybersecurity_goal v))) ;;
  v <~ field analysis_result "cybersecurity_claim" ;;
  on_artifact (on_decision (assign (RiskTreatmentDecision.with_cybersecurity_claim v))).

(** [artifact.risk_treatment_decision.risk_treatment.name.lower() == "reduce"] *)
Definition decision_is_reduce : io heap bool :=
  fun h =>
    match AssetTaraInfo.risk_treatment_decision (artifact h) with
    | None => (h, Raise AttributeError)
    | Some d =>
        match RiskTreatmentDecision.risk_treatment d with
        | None => (h, Raise AttributeError)
        | Some o => (h, Ret (String.eqb (lower (RiskTreatmentOption.name o)) "reduce"))
        end
    end.

(** The assignments that follow the request of [asset_cso_csr_assessment],
    up to [regenerate_csr_id]. *)
Definition populate_requirement (analysis_result : dict) : io heap unit :=
  v <~ field analysis_result "cybersecurity_control" ;;
  _ <~ on_artifact (on_requirement
         (assign (CybersecurityControlRequirement.with_cybersecurity_control v))) ;;
  v <~ field analysis_result "allocated_to_device" ;;
  _ <~ on_artifact (on_requirement
         (assign (CybersecurityControlRequirement.with_allocated_to_device v))) ;;
  v <~ field analysis_result "cybersecurity_requirement_id" ;;
  _ <~ on_artifact (on_requirement
         (assign (CybersecurityControlRequirement.with_cybersecurity_requirement_id v))) ;;
  v <~ field analysis_result "cybersecurity_requirement" ;;
  _ <~ on_artifact (on_requirement
         (assign (CybersecurityControlRequirement.with_cybersecurity_requirement v))) ;;
  (fun h =>
     on_artifact (on_requirement
       (CybersecurityControlRequirement.regenerate_csr_id short_hash
          (time_ms (List.length (issued h))))) h).

(** [asset_cso_csr_assessment] *)
Definition asset_cso_csr_assessment : io heap unit :=
  _ <~ on_artifact (assign (AssetTaraInfo.set_cybersecurity_control_requirement
                              CybersecurityControlRequirement.init)) ;;
  reduce <~ decision_is_reduce ;;
  if reduce then
    analysis_result <~ (fun h => analyze_asset (prepare_for_ai05 (artifact h))
                                   get_prompt08 cso_csr_format h) ;;
    populate_requirement analysis_result
  else io_ret tt.

(** [asset_cso_csr_assessment_async] *)
Definition asset_cso_csr_assessment_async : io heap unit :=
  _ <~ on_artifact (assign (AssetTaraInfo.set_cybersecurity_control_requirement
                              CybersecurityControlRequirement.init)) ;;
  reduce <~ decision_is_reduce ;;
  if reduce then
    analysis_result <~ (fun h => analyze_asset_async (prepare_for_ai05 (artifact h))
                                   get_prompt08 cso_csr_format h) ;;
    populate_requirement analysis_result
  else io_ret tt.

(** What [process_threat_scenario_async] hands back. *)
Inductive returned : Type :=
| TheArtifact
| PyNone.

Record branch : Type := mkBranch {
  final : heap;
  attempts : nat;
  outcome : res returned
}.

Definition max_retries : Z := 2.

(** The [while retry_count <= max_retries] loop of
    [process_threat_scenario_async]. *)
Fixpoint threat_loop (fuel : nat) (retry_count : Z) (h : heap) (attempts : nat)
  : option branch :=
  match fuel with
  | O => None
  | S fuel =>
      if (retry_count <=? max_retries)%Z then
        match (_ <~ asset_threat_risk_treatment_assessment_async ;;
               asset_cso_csr_assessment_async) h with
        | (h, Ret _) => Some (mkBranch h (S attempts) (Ret TheArtifact))
        | (h, Raise _) =>
            let retry_count := (retry_count + 1)%Z in
            if (retry_count >? max_retries)%Z then
              Some (mkBranch h (S attempts) (Ret PyNone))
            else
              threat_loop fuel retry_count (sleep (2 ^ (retry_count - 1)) h) (S attempts)
        end
      else Some (mkBranch h attempts (Ret PyNone))
  end.

(** [process_threat_scenario_async].  The description of the threat
    scenario is read before the loop, outside any [try]. *)
Definition process_threat_scenario_async (h : heap) : option branch :=
  match AssetTaraInfo.threat_scenario_attack_feasibility (artifact h) with
  | None => Some (mkBranch h 0 (Raise AttributeError))
  | Some _ => threat_loop 4 0 h 0
  end.

End Stages.

(** *** The loops that read the outcome of [asyncio.gather] *)

(** In [process_damage_scenario_async]: an outcome that is an exception is
    skipped, one that is [None] is dropped, any other is appended. *)
Fixpoint collect_threat_scenarios {T : Type} (threat_scenario_results : list (res (option T)))
    (results : list T) : list T :=
  match threat_scenario_results with
  | [] => results
  | Raise _ :: rest => collect_threat_scenarios rest results
  | Ret None :: rest => collect_threat_scenarios rest results
  | Ret (Some result) :: rest => collect_threat_scenarios rest (results ++ [result])
  end.

(** In [process_attribute_async]: [results.extend(result)]. *)
Fixpoint collect_damage_scenarios {T : Type} (damage_scenario_results : list (res (list T)))
    (results : list T) : list T :=
  match damage_scenario_results with
  | [] => results
  | Raise _ :: rest => collect_damage_scenarios rest results
  | Ret result :: rest => collect_damage_scenarios rest (results ++ result)
  end.

(** In [_process_asset_async]:
    [asset_cybersecurity_info_list.extend(result)]. *)
Fixpoint collect_attributes {T : Type} (attribute_results : list (res (list T)))
    (asset_cybersecurity_info_list : list T) : list T :=
  match attribute_results with
  | [] => asset_cybersecurity_info_list
  | Raise _ :: rest => collect_attributes rest asset_cybersecurity_info_list
  | Ret result :: rest => collect_attributes rest (asset_cybersecurity_info_list ++ result)
  end.

(** In [exec_tara_analysis_workflow_async]: every outcome that is not an
    exception is a pair of lists, each appended to its own total. *)
Fixpoint collect_assets {T C : Type} (results : list (res (list T * list C)))
    (asset_tara_info_list : list T) (asset_csr_info_list : list C) : list T * list C :=
  match results with
  | [] => (asset_tara_info_list, asset_csr_info_list)
  | Raise _ :: rest => collect_assets rest asset_tara_info_list asset_csr_info_list
  | Ret (single_asset_tara_info_list, single_asset_csr_list) :: rest =>
      collect_assets rest
        (asset_tara_info_list ++ single_asset_tara_info_list)
        (asset_csr_info_list ++ single_asset_csr_list)
  end.

End Workflow.

(** ** Vocabulary of the properties *)

Module Spec.

(** The outcomes of a gather that are not exceptions, in order. *)
Fixpoint successes {A : Type} (outcomes : list (res A)) : list A :=
  match outcomes with
  | [] => []
  | Ret a :: rest => a :: successes rest
  | Raise _ :: rest => successes rest
  end.

(** The branches that delivered an artifact. *)
Fixpoint delivered {A : Type} (l : list (option A)) : list A :=
  match l with
  | [] => []
  | Some a :: rest => a :: delivered rest
  | None :: rest => delivered rest
  end.

(** The number of entries in a list of result lists. *)
Definition total_entries {A : Type} (l : list (list A)) : nat :=
  list_sum (map (@List.length A) l).

(** The overall level of a damage scenario is the largest of its four
    dimensions. *)
Definition consistent (x : DamageScenarioImpactLevel.t) : Prop :=
  SeverityLevel.value (DamageScenarioImpactLevel.impact_level x)
  = Z.max (Z.max (Z.max (SeverityLevel.value (DamageScenarioImpactLevel.safety x))
                        (SeverityLevel.value (DamageScenarioImpactLevel.financial x)))
                 (SeverityLevel.value (DamageScenarioImpactLevel.operational x)))
          (SeverityLevel.value (DamageScenarioImpactLevel.privacy x)).

(** The overall level is not below any dimension. *)
Definition dominates (x : DamageScenarioImpactLevel.t) : Prop :=
  let top := SeverityLevel.value (DamageScenarioImpactLevel.impact_level x) in
  (SeverityLevel.value (DamageScenarioImpactLevel.safety x) <= top
   /\ SeverityLevel.value (DamageScenarioImpactLevel.financial x) <= top
   /\ SeverityLevel.value (DamageScenarioImpactLevel.operational x) <= top
   /\ SeverityLevel.value (DamageScenarioImpactLevel.privacy x) <= top)%Z.

(** The risk value that a method call left in the decision it wrote to,
    when the call returned. *)
Definition overall_risk_assigned (a : AssetTaraInfo.t) : option Z :=
  match AssetTaraInfo.calculate_overall_risk a with
  | (a, Ret _) => option_map RiskTreatmentDecision.risk_value
                    (AssetTaraInfo.risk_treatment_decision a)
  | (_, Raise _) => None
  end.

Definition risk_value_assigned (b : AssetThreatRiskTreatmentDecision.t) : option Z :=
  match AssetThreatRiskTreatmentDecision.calculate_risk_value b with
  | (b, Ret _) =>
      match AssetThreatRiskTreatmentDecision.risk_treatment b with
      | AssetThreatRiskTreatmentDecision.TreatmentDecision d =>
          Some (RiskTreatmentDecision.risk_value d)
      | _ => None
      end
  | (_, Raise _) => None
  end.

(** The severity and the feasibility that [calculate_risk_value] reads. *)
Definition impact_of (b : AssetThreatRiskTreatmentDecision.t) : SeverityLevel.t :=
  DamageScenarioImpactLevel.impact_level
    (AssetInfoAttributeDamageImpact.damage_scenario_impact_level
       (AssetInfoDamageScenarioThreatScenario.asset_info_attribute_damage_impact
          (AssetThreatRiskTreatmentDecision.asset_info_damage_scenario_threat_scenario b))).

Definition feasibility_of (b : AssetThreatRiskTreatmentDecision.t)
  : option AttackFeasibilityRating.t :=
  ThreatScenarioAttackFeasibility.attack_feasibility_rating
    (AssetInfoDamageScenarioThreatScenario.threat_scenario_attack_feasibility
       (AssetThreatRiskTreatmentDecision.asset_info_damage_scenario_threat_scenario b)).

(** The pause the specification prescribes after the k-th failed attempt
    ([k] counts from 1). *)
Definition backoff (k : nat) : Z := Z.min (2 ^ (Z.of_nat k - 1)) 30.

(** The pauses after the failed attempts [1 .. n]. *)
Definition backoffs (n : nat) : list Z := map backoff (seq 1 n).

(** The pause of the orchestrator before its k-th retry. *)
Definition retry_pause (k : nat) : Z := 2 ^ (Z.of_nat k - 1).

(** The world after [n] runs of [body] in a row that all raised, the
    first from [w], where the failure counted [j] is followed by
    [pause j], the next by [pause (j + 1)], and so on, and each further
    run starts from the world that the pause left; [None] when one of
    the [n] runs returned. *)
Fixpoint after_failures {W A : Type} (body : io W A) (pause : nat -> W -> W)
    (n j : nat) (w : W) : option W :=
  match n with
  | O => Some w
  | S n =>
      match body w with
      | (w1, Raise _) => after_failures body pause n (S j) (pause j w1)
      | (_, Ret _) => None
      end
  end.

(** A stage that never sleeps. *)
Definition keeps_slept {A : Type} (m : io Workflow.heap A) : Prop :=
  forall h, Workflow.slept (fst (m h)) = Workflow.slept h.

(** A stage that issues no request. *)
Definition keeps_issued {A : Type} (m : io Workflow.heap A) : Prop :=
  forall h, Workflow.issued (fst (m h)) = Workflow.issued h.

(** The per-attempt timeouts of one call never go down. *)
Definition nondecreasing (l : list Q) : Prop := Sorted Qle l.

(** No per-attempt timeout is above the ceiling of 120 seconds. *)
Definition under_ceiling (l : list Q) : Prop := Forall (fun t => t <= 120) l.

(** The invariant of the token bucket. *)
Definition bucket_ok (b : BaseAIAssistant.bucket) : Prop :=
  0 <= BaseAIAssistant.tokens b /\ BaseAIAssistant.tokens b <= BaseAIAssistant.max_burst b.

(** A call that asks for a number of tokens that is not negative. *)
Definition sane_call (c : BaseAIAssistant.call) : Prop :=
  match c with
  | BaseAIAssistant.CallRefill _ => True
  | BaseAIAssistant.CallAcquire n _ => (0 <= n)%Z
  | BaseAIAssistant.CallAcquireAsync n _ => (0 <= n)%Z
  end.

(** [c] occurs in [s]; [i] is the position of its first occurrence;
    [j] is the position of its last occurrence. *)
Definition occurs (c : ascii) (s : string) : Prop :=
  exists i, String.get i s = Some c.

Definition first_index (c : ascii) (s : string) (i : nat) : Prop :=
  String.get i s = Some c /\ forall k, (k < i)%nat -> String.get k s <> Some c.

Definition last_index (c : ascii) (s : string) (j : nat) : Prop :=
  String.get j s = Some c /\ forall k, (j < k)%nat -> String.get k s <> Some c.

(** The characters of [s] from position [i] to position [j], both
    included; empty when [j] is before [i]. *)
Definition between (s : string) (i j : nat) : string :=
  String.substring i (j + 1 - i) s.

(** A blank string holds white space only. *)
Definition blank (s : string) : Prop :=
  forallb isspace (list_ascii_of_string s) = true.

(** An element of a required sequence: an object whose every field is a
    string that is not blank. *)
Definition element_ok (item : json) : Prop :=
  exists fields,
    item = JObj fields
    /\ Forall (fun kv => exists s, snd kv = JStr s /\ ~ blank s) fields.

(** What the validator asks of the payload for one of the four list
    keys: a sequence that is not empty and whose elements are all in
    order. *)
Definition list_key_ok (response_json : dict) (key : string) : Prop :=
  exists elems,
    dict_get response_json key = Some (JList elems)
    /\ elems <> []
    /\ Forall element_ok elems.

(** What the validator asks of the payload for one entry of the
    template. *)
Definition key_ok (response_json : dict) (entry : string * json) : Prop :=
  if str_in (fst entry) BaseAIAssistant.LIST_KEYS then list_key_ok response_json (fst entry)
  else
    match snd entry with
    | JObj sub_format =>
        Forall (fun kv => exists v, dict_get response_json (fst entry) = Some v
                                    /\ contains v (fst kv) = Ret true) sub_format
    | _ => dict_get response_json (fst entry) <> None
    end.

(** The risk-treatment option an artifact carries, if any. *)
Definition decided (a : AssetTaraInfo.t) : option RiskTreatmentOption.t :=
  match AssetTaraInfo.risk_treatment_decision a with
  | Some d => RiskTreatmentDecision.risk_treatment d
  | None => None
  end.

(** Two states of an artifact that agree on everything but the control
    requirement. *)
Definition same_upstream (a a' : AssetTaraInfo.t) : Prop :=
  AssetTaraInfo.asset_cybersecurity_attribute a' = AssetTaraInfo.asset_cybersecurity_attribute a
  /\ AssetTaraInfo.damage_scenario_impact_level a' = AssetTaraInfo.damage_scenario_impact_level a
  /\ AssetTaraInfo.threat_scenario_attack_feasibility a'
     = AssetTaraInfo.threat_scenario_attack_feasibility a
  /\ AssetTaraInfo.risk_treatment_decision a' = AssetTaraInfo.risk_treatment_decision a.

(** A stage that leaves everything but the control requirement alone. *)
Definition frames_upstream {A : Type} (m : io Workflow.heap A) : Prop :=
  forall h, same_upstream (Workflow.artifact h) (Workflow.artifact (fst (m h))).

(** The artifact handed on when the stage is skipped. *)
Definition passed_through (h : Workflow.heap) : Workflow.heap :=
  Workflow.mkHeap
    (AssetTaraInfo.set_cybersecurity_control_requirement
       CybersecurityControlRequirement.init (Workflow.artifact h))
    (Workflow.issued h) (Workflow.slept h).

End Spec.

(** ** Sample objects *)

Module Sample.

Definition asset : AssetInfo.t :=
  AssetInfo.mk "A-01" "Gateway" "CAN" AssetType.HARDWARE "".

Definition attribute : AssetInfoCybersecurityAttribute.t :=
  AssetInfoCybersecurityAttribute.mk asset (Some CybersecurityAttribute.INTEGRITY).

Definition damage : DamageScenarioImpactLevel.t :=
  DamageScenarioImpactLevel.mk "damage_scenario_1" "loss of braking"
    SeverityLevel.SEVERE SeverityLevel.MODERATE SeverityLevel.MAJOR
    SeverityLevel.NEGLIGIBLE SeverityLevel.SEVERE.

Definition threat : ThreatScenarioAttackFeasibility.t :=
  ThreatScenarioAttackFeasibility.mk "threat_scenario_1" "spoofed frames" "bus access"
    None None None None None None (Some AttackFeasibilityRating.MEDIUM).

Definition decision (o : option RiskTreatmentOption.t) : RiskTreatmentDecision.t :=
  RiskTreatmentDecision.mk 0 o JNull JNull JNull JNull JNull.

(** An artifact as it reaches the last stage, with the given decision. *)
Definition artifact (o : option RiskTreatmentOption.t) : AssetTaraInfo.t :=
  AssetTaraInfo.mk (Some attribute) (Some damage) (Some threat) (Some (decision o)) None.

Definition treatment_decision : AssetThreatRiskTreatmentDecision.t :=
  AssetThreatRiskTreatmentDecision.mk
    (AssetInfoDamageScenarioThreatScenario.mk
       (AssetInfoAttributeDamageImpact.mk attribute damage) threat)
    (AssetThreatRiskTreatmentDecision.TreatmentDecision (decision None)).

(** The heap of a branch that starts on the sample artifact. *)
Definition heap (o : option RiskTreatmentOption.t) : Workflow.heap :=
  Workflow.mkHeap (artifact o) [] [].

(** A request layer that always gives up. *)
Definition silent (n : nat) (r : Workflow.request) : option dict := None.

Definition serialise (a : AssetTaraInfo.t) : string := "{...}".

(** An endpoint that never answers in time. *)
Definition dead_endpoint (request_data : json) (n : nat) (t : Q) : DeepSeekAIAssistant.reply :=
  DeepSeekAIAssistant.TimedOut.

(** A parser that knows one text only, the empty object. *)
Definition toy_loads (text : string) : res json :=
  if String.eqb text "{}" then Ret (JObj []) else Raise JSONDecodeError.

(** A parser that nothing satisfies. *)
Definition no_json (text : string) : res json := Raise JSONDecodeError.

(** The same parser with a stack of two frames: a text that opens three
    arrays in a row exhausts it. *)
Definition shallow_loads (text : string) : res json :=
  if String.prefix "[[[" text then Raise RecursionError else toy_loads text.

(** The template and the payloads of the validator examples, under a
    key that is not one of the four list keys and under one that is. *)
Definition template (key : string) : json :=
  JObj [(key, JList [JObj [("a"%string, JStr "x")]])].

Definition payload_blank (key : string) : dict :=
  [(key, JList [JObj [("a"%string, JStr "1")]; JObj [("a"%string, JStr "")]])].

Definition payload_good (key : string) : dict :=
  [(key, JList [JObj [("a"%string, JStr "1")]])].

Definition payload_missing : dict := [("other"%string, JStr "1")].

(** A response of the text generator to the control and requirement
    request. *)
Definition cso_response : dict :=
  [ ("cybersecurity_control_id"%string, JStr "CSO-001");
    ("cybersecurity_control"%string, JStr "authenticate frames");
    ("allocated_to_device"%string, JStr "yes");
    ("cybersecurity_requirement_id"%string, JStr "CSR-001");
    ("cybersecurity_requirement"%string, JStr "frames carry a MAC") ].

Definition helpful (n : nat) (r : Workflow.request) : option dict := Some cso_response.

(** A response of the text generator to the risk-treatment request, and
    a request layer that gives up on the first request only. *)
Definition risk_response : dict :=
  [ ("risk_treatment"%string, JStr "Avoid");
    ("item_change"%string, JStr "remove the interface");
    ("cybersecurity_goal"%string, JStr "");
    ("cybersecurity_claim"%string, JStr "") ].

Definition flaky (n : nat) (r : Workflow.request) : option dict :=
  match n with
  | O => None
  | S _ => Some risk_response
  end.

End Sample.


(** ** ai_assistant/deepseek_ai.py: [_parse_response] *)

Module DeepSeekResponse.

(** [s.replace(old, new)] for a needle [old] of one character. *)
Fixpoint replace_char (old : ascii) (new : string) (s : string) : string :=
  match s with
  | EmptyString => EmptyString
  | String c rest =>
      if Ascii.eqb c old then (new ++ replace_char old new rest)%string
      else String c (replace_char old new rest)
  end.

(** [v.get(key)]: a method of [dict] only. *)
Definition get (v : json) (key : string) : res (option json) :=
  match v with
  | JObj its => Ret (dict_get its key)
  | _ => Raise AttributeError
  end.

(** [v[0]]: the first element of a list, the first character of a
    string; the keys of a dict that [json] built are strings, so [0] is
    none of them. *)
Definition first (v : json) : res json :=
  match v with
  | JList l => list_item l 0
  | JStr s =>
      match s with
      | EmptyString => Raise IndexError
      | String c _ => Ret (JStr (String c EmptyString))
      end
  | JObj _ => Raise KeyError
  | _ => Raise TypeError
  end.

(** What [content[:100]] and [content.strip()] ask of [content]: only a
    string has both; a list can be sliced but has no [strip]; the other
    values cannot be sliced (a dict raises [TypeError] up to Python 3.11,
    where a slice is not hashable). *)
Definition text_of (content : json) : res string :=
  match content with
  | JStr s => Ret s
  | JList _ => Raise AttributeError
  | _ => Raise TypeError
  end.

(** [content.strip().replace(newline, empty).replace(semicolon, comma)] *)
Definition clean (content : string) : string :=
  replace_char ";"%char ","%string
    (replace_char "010"%char ""%string (strip content)).

Section WithJsonLoads.

(** [json.loads] with the exception it raises, as in
    [BaseAIAssistant._validate_json_response]. *)
Variable json_loads : string -> res json.

(** [_parse_response]; its handler is [except ValueError]. *)
Definition _parse_response (response : json) : res json :=
  choices <- get response "choices" ;;
  match choices with
  | Some choices =>
      if truthy choices then
        n <- len choices ;;
        if (0 <? n)%nat then
          choice <- first choices ;;
          message <- subscript choice "message" ;;
          content <- subscript message "content" ;;
          content <- text_of content ;;
          let content := clean content in
          match BaseAIAssistant._validate_json_response json_loads content with
          | Ret result => Ret result
          | Raise e =>
              if is_value_error e
              then Ret (JObj [("content"%string, JStr content)])
              else Raise e
          end
        else Ret response
      else Ret response
  | None => Ret response
  end.

End WithJsonLoads.

End DeepSeekResponse.

(** ** tara_objs/threat_scenario_attack_feasibility.py: the methods *)

Module AttackFeasibility.

Import ThreatScenarioAttackFeasibility.

(** The members of the five factor enums, in definition order, and
    their values. *)
Definition time_consuming_members : list TimeConsumingLevel.t :=
  [ TimeConsumingLevel.NO_MORE_THAN_ONE_DAY; TimeConsumingLevel.NO_MORE_THAN_ONE_WEEK;
    TimeConsumingLevel.NO_MORE_THAN_ONE_MONTH; TimeConsumingLevel.NO_MORE_THAN_SIX_MONTHS;
    TimeConsumingLevel.MORE_THAN_SIX_MONTHS ].

Definition time_consuming_value (l : TimeConsumingLevel.t) : string :=
  match l with
  | TimeConsumingLevel.NO_MORE_THAN_ONE_DAY => "<=1d"
  | TimeConsumingLevel.NO_MORE_THAN_ONE_WEEK => "<=1w"
  | TimeConsumingLevel.NO_MORE_THAN_ONE_MONTH => "<=1m"
  | TimeConsumingLevel.NO_MORE_THAN_SIX_MONTHS => "<=6m"
  | TimeConsumingLevel.MORE_THAN_SIX_MONTHS => ">6m"
  end.

Definition expertise_members : list ExpertiseLevel.t :=
  [ ExpertiseLevel.LAYMAN; ExpertiseLevel.PROFICIENT; ExpertiseLevel.EXPERT;
    ExpertiseLevel.MULTIPLE_EXPERT ].

Definition expertise_value (l : ExpertiseLevel.t) : string :=
  match l with
  | ExpertiseLevel.LAYMAN => "layman"
  | ExpertiseLevel.PROFICIENT => "proficient"
  | ExpertiseLevel.EXPERT => "expert"
  | ExpertiseLevel.MULTIPLE_EXPERT => "multiple expert"
  end.

Definition knowledge_members : list KnowledgeAboutTOELevel.t :=
  [ KnowledgeAboutTOELevel.PUBLIC; KnowledgeAboutTOELevel.RESTRICTED;
    KnowledgeAboutTOELevel.CONFIDENTIAL; KnowledgeAboutTOELevel.STRICTLY_CONFIDENTIAL ].

Definition knowledge_value (l : KnowledgeAboutTOELevel.t) : string :=
  match l with
  | KnowledgeAboutTOELevel.PUBLIC => "public"
  | KnowledgeAboutTOELevel.RESTRICTED => "restricted"
  | KnowledgeAboutTOELevel.CONFIDENTIAL => "confidential"
  | KnowledgeAboutTOELevel.STRICTLY_CONFIDENTIAL => "strictly confidential"
  end.

Definition window_members : list WindowOfOpportunityLevel.t :=
  [ WindowOfOpportunityLevel.UNLIMITED; WindowOfOpportunityLevel.EASY;
    WindowOfOpportunityLevel.MODERATE; WindowOfOpportunityLevel.DIFFICULT ].

Definition window_value (l : WindowOfOpportunityLevel.t) : string :=
  match l with
  | WindowOfOpportunityLevel.UNLIMITED => "unlimited"
  | WindowOfOpportunityLevel.EASY => "easy"
  | WindowOfOpportunityLevel.MODERATE => "moderate"
  | WindowOfOpportunityLevel.DIFFICULT => "difficult"
  end.

Definition equipment_members : list EquipmentLevel.t :=
  [ EquipmentLevel.STANDARD; EquipmentLevel.SPECIALIZED; EquipmentLevel.BESPOKE;
    EquipmentLevel.MULTIPLE_BESPOKE ].

Definition equipment_value (l : EquipmentLevel.t) : string :=
  match l with
  | EquipmentLevel.STANDARD => "standard"
  | EquipmentLevel.SPECIALIZED => "specialized"
  | EquipmentLevel.BESPOKE => "bespoke"
  | EquipmentLevel.MULTIPLE_BESPOKE => "multiple bespoke"
  end.

(** [from_string] of an enum class: the first member whose value is the
    argument, else [None]. *)
Definition from_string {A : Type} (members : list A) (value : A -> string) (v : string)
  : option A :=
  find (fun level => String.eqb (value level) v) members.

(** [_parse_enum(value, enum_class)] on a value taken from a response. *)
Definition _parse_enum {A : Type} (members : list A) (value : A -> string) (v : json)
  : res (option A) :=
  match v with
  | JNull => Ret None
  | JStr s =>
      match from_string members value s with
      | Some parsed => Ret (Some parsed)
      | None => Raise ValueError
      end
  | _ => Raise TypeError
  end.

Definition with_time_consuming (v : option TimeConsumingLevel.t) (self : t) : t :=
  mk (threat_id self) (threat_scenario self) (attack_path self) v (expertise self)
     (knowledge_about_toe self) (window_of_opportunity self) (equipment self)
     (difficulty self) (attack_feasibility_rating self).

Definition with_expertise (v : option ExpertiseLevel.t) (self : t) : t :=
  mk (threat_id self) (threat_scenario self) (attack_path self) (time_consuming self) v
     (knowledge_about_toe self) (window_of_opportunity self) (equipment self)
     (difficulty self) (attack_feasibility_rating self).

Definition with_knowledge_about_toe (v : option KnowledgeAboutTOELevel.t) (self : t) : t :=
  mk (threat_id self) (threat_scenario self) (attack_path self) (time_consuming self)
     (expertise self) v (window_of_opportunity self) (equipment self)
     (difficulty self) (attack_feasibility_rating self).

Definition with_window_of_opportunity (v : option WindowOfOpportunityLevel.t) (self : t)
  : t :=
  mk (threat_id self) (threat_scenario self) (attack_path self) (time_consuming self)
     (expertise self) (knowledge_about_toe self) v (equipment self)
     (difficulty self) (attack_feasibility_rating self).

Definition with_equipment (v : option EquipmentLevel.t) (self : t) : t :=
  mk (threat_id self) (threat_scenario self) (attack_path self) (time_consuming self)
     (expertise self) (knowledge_about_toe self) (window_of_opportunity self) v
     (difficulty self) (attack_feasibility_rating self).

Definition with_difficulty (v : option Z) (self : t) : t :=
  mk (threat_id self) (threat_scenario self) (attack_path self) (time_consuming self)
     (expertise self) (knowledge_about_toe self) (window_of_opportunity self)
     (equipment self) v (attack_feasibility_rating self).

Definition with_attack_feasibility_rating (v : option AttackFeasibilityRating.t)
    (self : t) : t :=
  mk (threat_id self) (threat_scenario self) (attack_path self) (time_consuming self)
     (expertise self) (knowledge_about_toe self) (window_of_opportunity self)
     (equipment self) (difficulty self) v.

(** An attribute assignment whose right-hand side may raise: the
    attribute keeps its value when it does. *)
Definition assign_parsed {A : Type} (parsed : res (option A))
    (store : option A -> t -> t) : io t unit :=
  fun self =>
    match parsed with
    | Ret v => (store v self, Ret tt)
    | Raise e => (self, Raise e)
    end.

(** The spellings that [set_time_consuming] knows besides the values of
    the enum. *)
Definition time_consuming_alias (value : string) : option TimeConsumingLevel.t :=
  if String.eqb value "no_more_than_1d" then Some TimeConsumingLevel.NO_MORE_THAN_ONE_DAY
  else if String.eqb value "no_more_than_1w" then Some TimeConsumingLevel.NO_MORE_THAN_ONE_WEEK
  else if String.eqb value "no_more_than_1m" then Some TimeConsumingLevel.NO_MORE_THAN_ONE_MONTH
  else if String.eqb value "no_more_than_6m" then Some TimeConsumingLevel.NO_MORE_THAN_SIX_MONTHS
  else if String.eqb value "more_than_6m" then Some TimeConsumingLevel.MORE_THAN_SIX_MONTHS
  else None.

(** [set_time_consuming] *)
Definition set_time_consuming (value : json) : io t unit :=
  match match value with JStr s => time_consuming_alias s | _ => None end with
  | Some level => fun self => (with_time_consuming (Some level) self, Ret tt)
  | None =>
      assign_parsed (_parse_enum time_consuming_members time_consuming_value value)
        with_time_consuming
  end.

(** [set_expertise], [set_knowledge_about_toe],
    [set_window_of_opportunity], [set_equipment] *)
Definition set_expertise (value : json) : io t unit :=
  assign_parsed (_parse_enum expertise_members expertise_value value) with_expertise.

Definition set_knowledge_about_toe (value : json) : io t unit :=
  assign_parsed (_parse_enum knowledge_members knowledge_value value)
    with_knowledge_about_toe.

Definition set_window_of_opportunity (value : json) : io t unit :=
  assign_parsed (_parse_enum window_members window_value value)
    with_window_of_opportunity.

Definition set_equipment (value : json) : io t unit :=
  assign_parsed (_parse_enum equipment_members equipment_value value) with_equipment.

(** The dict literals of [calculate_difficulty]. *)
Definition time_consuming_values (l : TimeConsumingLevel.t) : Z :=
  match l with
  | TimeConsumingLevel.NO_MORE_THAN_ONE_DAY => 0
  | TimeConsumingLevel.NO_MORE_THAN_ONE_WEEK => 1
  | TimeConsumingLevel.NO_MORE_THAN_ONE_MONTH => 4
  | TimeConsumingLevel.NO_MORE_THAN_SIX_MONTHS => 17
  | TimeConsumingLevel.MORE_THAN_SIX_MONTHS => 19
  end%Z.

Definition expertise_values (l : ExpertiseLevel.t) : Z :=
  match l with
  | ExpertiseLevel.LAYMAN => 0
  | ExpertiseLevel.PROFICIENT => 3
  | ExpertiseLevel.EXPERT => 6
  | ExpertiseLevel.MULTIPLE_EXPERT => 8
  end%Z.

Definition knowledge_values (l : KnowledgeAboutTOELevel.t) : Z :=
  match l with
  | KnowledgeAboutTOELevel.PUBLIC => 0
  | KnowledgeAboutTOELevel.RESTRICTED => 3
  | KnowledgeAboutTOELevel.CONFIDENTIAL => 7
  | KnowledgeAboutTOELevel.STRICTLY_CONFIDENTIAL => 11
  end%Z.

Definition window_values (l : WindowOfOpportunityLevel.t) : Z :=
  match l with
  | WindowOfOpportunityLevel.UNLIMITED => 0
  | WindowOfOpportunityLevel.EASY => 1
  | WindowOfOpportunityLevel.MODERATE => 4
  | WindowOfOpportunityLevel.DIFFICULT => 10
  end%Z.

Definition equipment_values (l : EquipmentLevel.t) : Z :=
  match l with
  | EquipmentLevel.STANDARD => 0
  | EquipmentLevel.SPECIALIZED => 4
  | EquipmentLevel.BESPOKE => 7
  | EquipmentLevel.MULTIPLE_BESPOKE => 9
  end%Z.

(** [if self.x: total_difficulty += x_values.get(self.x, 0)] *)
Definition add_factor {A : Type} (values : A -> Z) (factor : option A)
    (total_difficulty : Z) : Z :=
  match factor with
  | Some level => (total_difficulty + values level)%Z
  | None => total_difficulty
  end.

(** [calculate_difficulty] *)
Definition calculate_difficulty (self : t) : Z :=
  let total_difficulty := 0%Z in
  let total_difficulty :=
    add_factor time_consuming_values (time_consuming self) total_difficulty in
  let total_difficulty := add_factor expertise_values (expertise self) total_difficulty in
  let total_difficulty :=
    add_factor knowledge_values (knowledge_about_toe self) total_difficulty in
  let total_difficulty :=
    add_factor window_values (window_of_opportunity self) total_difficulty in
  let total_difficulty := add_factor equipment_values (equipment self) total_difficulty in
  total_difficulty.

(** [calculate_attack_feasibility_rating]: stores the difficulty and
    returns the rating. *)
Definition calculate_attack_feasibility_rating : io t AttackFeasibilityRating.t :=
  fun self =>
    let d := calculate_difficulty self in
    let self := with_difficulty (Some d) self in
    if (25 <=? d)%Z then (self, Ret AttackFeasibilityRating.VERY_LOW)
    else if (20 <=? d)%Z then (self, Ret AttackFeasibilityRating.LOW)
    else if (14 <=? d)%Z then (self, Ret AttackFeasibilityRating.MEDIUM)
    else (self, Ret AttackFeasibilityRating.HIGH).

(** [update_feasibility_rating] *)
Definition update_feasibility_rating : io t unit :=
  rating <~ calculate_attack_feasibility_rating ;;
  (fun self => (with_attack_feasibility_rating (Some rating) self, Ret tt)).

End AttackFeasibility.

(** ** tara_workflow.py: the feasibility stage *)

Module FeasibilityStage.

Import Workflow.

(** A method call on [artifact.threat_scenario_attack_feasibility]. *)
Definition on_feasibility (m : io ThreatScenarioAttackFeasibility.t unit)
  : io AssetTaraInfo.t unit :=
  fun self =>
    match AssetTaraInfo.threat_scenario_attack_feasibility self with
    | Some threat =>
        match m threat with
        | (threat, r) =>
            (AssetTaraInfo.mk (AssetTaraInfo.asset_cybersecurity_attribute self)
               (AssetTaraInfo.damage_scenario_impact_level self) (Some threat)
               (AssetTaraInfo.risk_treatment_decision self)
               (AssetTaraInfo.cybersecurity_control_requirement self), r)
        end
    | None => (self, Raise AttributeError)
    end.

(** The assignments that follow the request of the stage. *)
Definition apply_factors (analysis_result : dict) : io heap unit :=
  v <~ field analysis_result "time_consuming" ;;
  _ <~ on_artifact (on_feasibility (AttackFeasibility.set_time_consuming v)) ;;
  v <~ field analysis_result "expertise" ;;
  _ <~ on_artifact (on_feasibility (AttackFeasibility.set_expertise v)) ;;
  v <~ field analysis_result "knowledge_about_toe" ;;
  _ <~ on_artifact (on_feasibility (AttackFeasibility.set_knowledge_about_toe v)) ;;
  v <~ field analysis_result "window_of_opportunity" ;;
  _ <~ on_artifact (on_feasibility (AttackFeasibility.set_window_of_opportunity v)) ;;
  v <~ field analysis_result "equipment" ;;
  _ <~ on_artifact (on_feasibility (AttackFeasibility.set_equipment v)) ;;
  on_artifact (on_feasibility AttackFeasibility.update_feasibility_rating).

Section Stage.

Variable generator : nat -> request -> option dict.
Variable prepare_for_ai03 : AssetTaraInfo.t -> string.
Variable get_prompt06 : string.
Variable feasibility_format : string.

(** [get_possible_threat_scenario_attack_path_feasibilities]: the attack
    path is read first, for the log. *)
Definition get_possible_threat_scenario_attack_path_feasibilities : io heap unit :=
  _ <~ on_artifact (on_feasibility (io_ret tt)) ;;
  analysis_result <~ (fun h => analyze_asset generator (prepare_for_ai03 (artifact h))
                                 get_prompt06 feasibility_format h) ;;
  apply_factors analysis_result.

(** [get_possible_threat_scenario_attack_path_feasibilities_async] *)
Definition get_possible_threat_scenario_attack_path_feasibilities_async : io heap unit :=
  _ <~ on_artifact (on_feasibility (io_ret tt)) ;;
  analysis_result <~ (fun h => analyze_asset_async generator (prepare_for_ai03 (artifact h))
                                 get_prompt06 feasibility_format h) ;;
  apply_factors analysis_result.

End Stage.

End FeasibilityStage.

Module SampleMore.

(** A response of the text generator to the feasibility request, and one
    whose second answer is no member of its enum. *)
Definition feasibility_response : dict :=
  [ ("time_consuming"%string, JStr "no_more_than_6m");
    ("expertise"%string, JStr "expert");
    ("knowledge_about_toe"%string, JStr "restricted");
    ("window_of_opportunity"%string, JStr "easy");
    ("equipment"%string, JStr "standard") ].

Definition feasibility_response_misspelt : dict :=
  [ ("time_consuming"%string, JStr "no_more_than_6m");
    ("expertise"%string, JStr "Expert");
    ("knowledge_about_toe"%string, JStr "restricted");
    ("window_of_opportunity"%string, JStr "easy");
    ("equipment"%string, JStr "standard") ].

Definition assessor (n : nat) (r : Workflow.request) : option dict :=
  Some feasibility_response.

Definition careless_assessor (n : nat) (r : Workflow.request) : option dict :=
  Some feasibility_response_misspelt.

End SampleMore.

(** ** tara_workflow.py: the loops over a list in a response *)

Module FanOut.

(** [for item in elems: for key, value in item.items(): ...append(...)]:
    the pairs for which the three list stages build one copy of the
    artifact each, in the order of the appends. *)
Fixpoint expand (elems : list json) : res (list (string * json)) :=
  match elems with
  | [] => Ret []
  | item :: rest =>
      its <- items item ;;
      more <- expand rest ;;
      Ret (its ++ more)
  end.

(** The same loop from [analysis_result[list_key]] on. *)
Definition entries (analysis_result : dict) (list_key : string)
  : res (list (string * json)) :=
  v <- getitem analysis_result list_key ;;
  elems <- iter v ;;
  expand elems.

End FanOut.

(** ** tara_objs/asset_csr_info.py and
       [summarize_single_asset_cybersecurity_requirements] *)

Module AssetCSRInfo.

(** Every attribute is an optional string; the five of the requirement
    hold whatever the response carried. *)
Record t : Type := mk {
  asset_id : json;
  asset_name : json;
  cybersecurity_requirement_id : json;
  csr_id : json;
  title : json;
  sub_title : json;
  cybersecurity_requirement : json
}.

(** [AssetCSRInfo(asset_id=..., asset_name=...)] *)
Definition init (asset_id asset_name : json) : t :=
  mk asset_id asset_name JNull JNull JNull JNull JNull.

End AssetCSRInfo.

Module Summary.

Section Summarize.

(** The world [TARAAnalyzer.analyze_asset] acts on, and the call as this
    function sees it. *)
Variable World : Type.
Variable analyze_asset : string -> string -> string -> io World dict.

Variable prepare_for_ai06 : AssetTaraInfo.t -> string.
Variable get_prompt : string.
Variable format_text : string.

(** [allocated_to_device == yes] *)
Definition is_yes (v : json) : bool :=
  match v with
  | JStr s => String.eqb s "yes"
  | _ => false
  end.

(** The first loop: the messages of the artifacts whose requirement is
    allocated to the device, and an [AssetCSRInfo] made from the first
    artifact of the list. *)
Fixpoint gather (asset_cybersecurity_info_list : list AssetTaraInfo.t)
    (msg_list : list string) (asset_csr_info : option AssetCSRInfo.t)
  : res (list string * option AssetCSRInfo.t) :=
  match asset_cybersecurity_info_list with
  | [] => Ret (msg_list, asset_csr_info)
  | asset_cybersecurity_info :: rest =>
      match AssetTaraInfo.cybersecurity_control_requirement asset_cybersecurity_info with
      | None => Raise AttributeError
      | Some requirement =>
          let msg_list :=
            if is_yes (CybersecurityControlRequirement.allocated_to_device requirement)
            then msg_list ++ [prepare_for_ai06 asset_cybersecurity_info]
            else msg_list in
          match asset_csr_info with
          | Some _ => gather rest msg_list asset_csr_info
          | None =>
              match AssetTaraInfo.asset_cybersecurity_attribute asset_cybersecurity_info with
              | None => Raise AttributeError
              | Some attribute =>
                  let asset_info := AssetInfoCybersecurityAttribute.asset_info attribute in
                  gather rest msg_list
                    (Some (AssetCSRInfo.init (JStr (AssetInfo.asset_id asset_info))
                             (JStr (AssetInfo.asset_name asset_info))))
              end
          end
      end
  end.

(** One turn of the second loop: a copy of [asset_csr_info] with the
    five fields of [item]. *)
Definition row (asset_csr_info : AssetCSRInfo.t) (item : json) : res AssetCSRInfo.t :=
  cybersecurity_requirement_id <- subscript item "cybersecurity_requirement_id" ;;
  csr_id <- subscript item "csr_id" ;;
  title <- subscript item "title" ;;
  sub_title <- subscript item "sub_title" ;;
  cybersecurity_requirement <- subscript item "cybersecurity_requirement" ;;
  Ret (AssetCSRInfo.mk (AssetCSRInfo.asset_id asset_csr_info)
         (AssetCSRInfo.asset_name asset_csr_info)
         cybersecurity_requirement_id csr_id title sub_title cybersecurity_requirement).

Fixpoint assemble (asset_csr_info : AssetCSRInfo.t) (elems : list json)
  : res (list AssetCSRInfo.t) :=
  match elems with
  | [] => Ret []
  | item :: rest =>
      asset_csr_info_new <- row asset_csr_info item ;;
      more <- assemble asset_csr_info rest ;;
      Ret (asset_csr_info_new :: more)
  end.

(** [summarize_single_asset_cybersecurity_requirements]; with no
    [asset_csr_info] the call of [get_prompt] is made on [None]. *)
Definition summarize_single_asset_cybersecurity_requirements
    (asset_cybersecurity_info_list : list AssetTaraInfo.t)
  : io World (list AssetCSRInfo.t) :=
  fun w =>
    match gather asset_cybersecurity_info_list [] None with
    | Raise e => (w, Raise e)
    | Ret (msg_list, asset_csr_info) =>
        let msg_list_str := String.concat (String "010"%char EmptyString) msg_list in
        match asset_csr_info with
        | None => (w, Raise AttributeError)
        | Some asset_csr_info =>
            match analyze_asset msg_list_str get_prompt format_text w with
            | (w, Raise e) => (w, Raise e)
            | (w, Ret analysis_result) =>
                (w, v <- getitem analysis_result "asset_cybersecurity_requirement_list" ;;
                    elems <- iter v ;;
                    assemble asset_csr_info elems)
            end
        end
    end.

End Summarize.

End Summary.

Module SampleSummary.

(** One artifact whose requirement is allocated to the device, and a
    response to the summary request. *)
Definition allocated_artifact : AssetTaraInfo.t :=
  AssetTaraInfo.set_cybersecurity_control_requirement
    (CybersecurityControlRequirement.with_allocated_to_device (JStr "yes")
       CybersecurityControlRequirement.init)
    (Sample.artifact (Some RiskTreatmentOption.REDUCE)).

Definition summary_response : dict :=
  [ ("asset_cybersecurity_requirement_list"%string,
     JList [JObj [ ("cybersecurity_requirement_id"%string, JStr "CSR-001");
                   ("csr_id"%string, JStr "1");
                   ("title"%string, JStr "frames");
                   ("sub_title"%string, JStr "authenticity");
                   ("cybersecurity_requirement"%string, JStr "frames carry a MAC") ]]) ].

Definition summariser (msg prompt format_text : string) : io unit dict :=
  io_ret summary_response.

End SampleSummary.

(** ** Vocabulary of the further properties *)

Module More.

(** The pause of [_send_request] after its attempt number [k] (from 0). *)
Definition inner_pause (k : nat) : Z := 2 ^ Z.of_nat k.

(** The last element of a list. *)
Definition last_of {A : Type} (l : list A) : option A := nth_error l (List.length l - 1).

(** The endpoint raised [e], an exception outside [requests.exceptions],
    at the last POST of the connection. *)
Definition crashed_at (endpoint : json -> nat -> Q -> DeepSeekAIAssistant.reply)
    (request_data : json) (w : DeepSeekAIAssistant.net) (e : exn) : Prop :=
  exists t,
    last_of (DeepSeekAIAssistant.posts w) = Some t
    /\ endpoint request_data (List.length (DeepSeekAIAssistant.posts w) - 1)%nat t
       = DeepSeekAIAssistant.Crashed e.

(** The seconds of a list of pauses, added up. *)
Definition total (l : list Z) : Z := fold_right Z.add 0%Z l.

(** A hook of the request layer that sends nothing. *)
Definition keeps_posts {A : Type} (m : io DeepSeekAIAssistant.net A) : Prop :=
  forall w, DeepSeekAIAssistant.posts (fst (m w)) = DeepSeekAIAssistant.posts w.

(** [_parse_response] as a hook of the request layer. *)
Definition parse_hook {W : Type} (json_loads : string -> res json)
  : json -> io W json :=
  fun response w => (w, DeepSeekResponse._parse_response json_loads response).

(** The place of a rating on the scale from very low to high. *)
Definition feasibility_rank (r : AttackFeasibilityRating.t) : Z :=
  match r with
  | AttackFeasibilityRating.VERY_LOW => 0
  | AttackFeasibilityRating.LOW => 1
  | AttackFeasibilityRating.MEDIUM => 2
  | AttackFeasibilityRating.HIGH => 3
  end%Z.

(** The points a factor contributes to the difficulty; a factor that is
    not set contributes none. *)
Definition points {A : Type} (values : A -> Z) (factor : option A) : Z :=
  AttackFeasibility.add_factor values factor 0.

(** [b] is at least as hard as [a] in every factor. *)
Definition harder (a b : ThreatScenarioAttackFeasibility.t) : Prop :=
  (points AttackFeasibility.time_consuming_values
     (ThreatScenarioAttackFeasibility.time_consuming a)
   <= points AttackFeasibility.time_consuming_values
        (ThreatScenarioAttackFeasibility.time_consuming b))%Z
  /\ (points AttackFeasibility.expertise_values
        (ThreatScenarioAttackFeasibility.expertise a)
      <= points AttackFeasibility.expertise_values
           (ThreatScenarioAttackFeasibility.expertise b))%Z
  /\ (points AttackFeasibility.knowledge_values
        (ThreatScenarioAttackFeasibility.knowledge_about_toe a)
      <= points AttackFeasibility.knowledge_values
           (ThreatScenarioAttackFeasibility.knowledge_about_toe b))%Z
  /\ (points AttackFeasibility.window_values
        (ThreatScenarioAttackFeasibility.window_of_opportunity a)
      <= points AttackFeasibility.window_values
           (ThreatScenarioAttackFeasibility.window_of_opportunity b))%Z
  /\ (points AttackFeasibility.equipment_values
        (ThreatScenarioAttackFeasibility.equipment a)
      <= points AttackFeasibility.equipment_values
           (ThreatScenarioAttackFeasibility.equipment b))%Z.

(** The threat scenario a branch works on. *)
Definition threat_of (h : Workflow.heap) : option ThreatScenarioAttackFeasibility.t :=
  AssetTaraInfo.threat_scenario_attack_feasibility (Workflow.artifact h).

(** What the setters of the five factors leave alone in a threat
    scenario. *)
Definition beside_factors (t : ThreatScenarioAttackFeasibility.t)
  : string * string * string * option Z * option AttackFeasibilityRating.t :=
  (ThreatScenarioAttackFeasibility.threat_id t,
   ThreatScenarioAttackFeasibility.threat_scenario t,
   ThreatScenarioAttackFeasibility.attack_path t,
   ThreatScenarioAttackFeasibility.difficulty t,
   ThreatScenarioAttackFeasibility.attack_feasibility_rating t).

(** From [h] to [h'] nothing has changed but the five factors of the
    threat scenario. *)
Definition only_factors (h h' : Workflow.heap) : Prop :=
  Workflow.issued h' = Workflow.issued h
  /\ Workflow.slept h' = Workflow.slept h
  /\ AssetTaraInfo.asset_cybersecurity_attribute (Workflow.artifact h')
     = AssetTaraInfo.asset_cybersecurity_attribute (Workflow.artifact h)
  /\ AssetTaraInfo.damage_scenario_impact_level (Workflow.artifact h')
     = AssetTaraInfo.damage_scenario_impact_level (Workflow.artifact h)
  /\ AssetTaraInfo.risk_treatment_decision (Workflow.artifact h')
     = AssetTaraInfo.risk_treatment_decision (Workflow.artifact h)
  /\ AssetTaraInfo.cybersecurity_control_requirement (Workflow.artifact h')
     = AssetTaraInfo.cybersecurity_control_requirement (Workflow.artifact h)
  /\ option_map beside_factors (threat_of h') = option_map beside_factors (threat_of h).

(** The five factors of a threat scenario. *)
Definition factors (t : ThreatScenarioAttackFeasibility.t) :=
  (ThreatScenarioAttackFeasibility.time_consuming t,
   ThreatScenarioAttackFeasibility.expertise t,
   ThreatScenarioAttackFeasibility.knowledge_about_toe t,
   ThreatScenarioAttackFeasibility.window_of_opportunity t,
   ThreatScenarioAttackFeasibility.equipment t).

(** The five setters, as the stage calls them. *)
Inductive factor_setter : io ThreatScenarioAttackFeasibility.t unit -> Prop :=
| SetTimeConsuming v : factor_setter (AttackFeasibility.set_time_consuming v)
| SetExpertise v : factor_setter (AttackFeasibility.set_expertise v)
| SetKnowledge v : factor_setter (AttackFeasibility.set_knowledge_about_toe v)
| SetWindow v : factor_setter (AttackFeasibility.set_window_of_opportunity v)
| SetEquipment v : factor_setter (AttackFeasibility.set_equipment v).

(** The artifact once [update_feasibility_rating] has run on its threat
    scenario. *)
Definition rated (a : AssetTaraInfo.t) : AssetTaraInfo.t :=
  fst (FeasibilityStage.on_feasibility AttackFeasibility.update_feasibility_rating a).

(** The fields of an element of a list in a response. *)
Definition fields_of (item : json) : list (string * json) :=
  match item with
  | JObj fields => fields
  | _ => []
  end.

(** The artifact carries a requirement that is allocated to the device. *)
Definition allocated (a : AssetTaraInfo.t) : bool :=
  match AssetTaraInfo.cybersecurity_control_requirement a with
  | Some requirement =>
      Summary.is_yes (CybersecurityControlRequirement.allocated_to_device requirement)
  | None => false
  end.

(** The asset a row of the summary names. *)
Definition names_asset (asset_info : AssetInfo.t) (row : AssetCSRInfo.t) : Prop :=
  AssetCSRInfo.asset_id row = JStr (AssetInfo.asset_id asset_info)
  /\ AssetCSRInfo.asset_name row = JStr (AssetInfo.asset_name asset_info).

(** Every binding of [d] is a binding of [d']. *)
Definition extends (d d' : dict) : Prop :=
  forall k v, dict_get d k = Some v -> dict_get d' k = Some v.

(** A stage that never takes the control requirement away. *)
Definition keeps_requirement {A : Type} (m : io Workflow.heap A) : Prop :=
  forall h h' r,
    m h = (h', r) ->
    AssetTaraInfo.cybersecurity_control_requirement (Workflow.artifact h) <> None ->
    AssetTaraInfo.cybersecurity_control_requirement (Workflow.artifact h') <> None.

(** The four dimensions of an impact assessment. *)
Definition dimensions : list string :=
  ["safety"; "financial"; "operational"; "privacy"]%string.

(** The branch with another decision, or none, in its artifact. *)
Definition with_decision (d : option RiskTreatmentDecision.t) (h : Workflow.heap)
  : Workflow.heap :=
  Workflow.mkHeap
    (AssetTaraInfo.mk
       (AssetTaraInfo.asset_cybersecurity_attribute (Workflow.artifact h))
       (AssetTaraInfo.damage_scenario_impact_level (Workflow.artifact h))
       (AssetTaraInfo.threat_scenario_attack_feasibility (Workflow.artifact h))
       d
       (AssetTaraInfo.cybersecurity_control_requirement (Workflow.artifact h)))
    (Workflow.issued h) (Workflow.slept h).

(** The risk value the artifact of a branch carries, if it has a
    decision. *)
Definition risk_value_of (h : Workflow.heap) : option Z :=
  option_map RiskTreatmentDecision.risk_value
    (AssetTaraInfo.risk_treatment_decision (Workflow.artifact h)).

(** A stage that leaves the risk value alone. *)
Definition keeps_risk_value {A : Type} (m : io Workflow.heap A) : Prop :=
  forall h h' r, m h = (h', r) -> risk_value_of h' = risk_value_of h.

End More.




(* ===================================================================== *)
(** * Part II. Properties *)
(* ===================================================================== *)

Import Spec.
Open Scope list_scope.

(** ** The two risk matrices *)

(** C3.  For every severity among NEGLIGIBLE, MODERATE, MAJOR, SEVERE and
    every feasibility rating among verylow, low, medium, high,
    [AssetTaraInfo.calculate_overall_risk] (table indexed feasibility
    first) and [AssetThreatRiskTreatmentDecision.calculate_risk_value]
    (table indexed severity first) write the same risk value. *)
Theorem risk_matrices_agree :
  forall (a : AssetTaraInfo.t) (b : AssetThreatRiskTreatmentDecision.t)
         (damage : DamageScenarioImpactLevel.t)
         (threat : ThreatScenarioAttackFeasibility.t)
         (d d' : RiskTreatmentDecision.t)
         (impact : SeverityLevel.t) (feasibility : AttackFeasibilityRating.t),
    AssetTaraInfo.damage_scenario_impact_level a = Some damage ->
    AssetTaraInfo.threat_scenario_attack_feasibility a = Some threat ->
    AssetTaraInfo.risk_treatment_decision a = Some d ->
    DamageScenarioImpactLevel.impact_level damage = impact ->
    ThreatScenarioAttackFeasibility.attack_feasibility_rating threat = Some feasibility ->
    impact_of b = impact ->
    feasibility_of b = Some feasibility ->
    AssetThreatRiskTreatmentDecision.risk_treatment b
      = AssetThreatRiskTreatmentDecision.TreatmentDecision d' ->
    exists v : Z,
      overall_risk_assigned a = Some v /\ risk_value_assigned b = Some v.
Proof.
  intros a b damage threat d d' impact feasibility Hdam Hthr Hdec Himp Hfeas Himp' Hfeas' Htr.
  unfold overall_risk_assigned, risk_value_assigned,
    AssetTaraInfo.calculate_overall_risk,
    AssetThreatRiskTreatmentDecision.calculate_risk_value.
  unfold impact_of in Himp'. unfold feasibility_of in Hfeas'.
  rewrite Hdam, Hthr, Hfeas, Himp, Himp', Hfeas'.
  unfold AssetTaraInfo.on_decision.
  destruct impact, feasibility; cbn; rewrite Hdec, Htr; cbn; eexists; split; reflexivity.
Qed.

Lemma risk_matrices_agree_witness :
  exists v : Z,
    overall_risk_assigned (Sample.artifact None) = Some v
    /\ risk_value_assigned Sample.treatment_decision = Some v.
Proof.
  apply (@risk_matrices_agree (Sample.artifact None) Sample.treatment_decision
           Sample.damage Sample.threat (Sample.decision None) (Sample.decision None)
           SeverityLevel.SEVERE AttackFeasibilityRating.MEDIUM); reflexivity.
Defined.

(** The common entry at SEVERE and medium is 4. *)
Example risk_at_severe_medium :
  overall_risk_assigned (Sample.artifact None) = Some 4%Z
  /\ risk_value_assigned Sample.treatment_decision = Some 4%Z.
Proof. split; reflexivity. Qed.

(** ** The overall impact level *)

Lemma overall_returns :
  forall s f o p : SeverityLevel.t,
  exists level,
    DamageScenarioImpactLevel.overall s f o p = Ret level
    /\ SeverityLevel.value level
       = DamageScenarioImpactLevel.max4 (SeverityLevel.value s) (SeverityLevel.value f)
           (SeverityLevel.value o) (SeverityLevel.value p).
Proof.
  intros s f o p; destruct s, f, o, p; cbn; eexists; split; reflexivity.
Qed.

Lemma recalculate_consistent :
  forall self : DamageScenarioImpactLevel.t,
  exists self',
    DamageScenarioImpactLevel.recalculate self = (self', Ret tt)
    /\ consistent self'
    /\ DamageScenarioImpactLevel.safety self' = DamageScenarioImpactLevel.safety self
    /\ DamageScenarioImpactLevel.financial self' = DamageScenarioImpactLevel.financial self
    /\ DamageScenarioImpactLevel.operational self' = DamageScenarioImpactLevel.operational self
    /\ DamageScenarioImpactLevel.privacy self' = DamageScenarioImpactLevel.privacy self.
Proof.
  intros self. unfold DamageScenarioImpactLevel.recalculate,
    DamageScenarioImpactLevel._calculate_impact_level.
  destruct (overall_returns (DamageScenarioImpactLevel.safety self)
              (DamageScenarioImpactLevel.financial self)
              (DamageScenarioImpactLevel.operational self)
              (DamageScenarioImpactLevel.privacy self)) as [level [Hret Hval]].
  rewrite Hret. eexists; split; [reflexivity|].
  unfold consistent; cbn. repeat split; try reflexivity. exact Hval.
Qed.

Lemma consistent_dominates :
  forall x : DamageScenarioImpactLevel.t, consistent x -> dominates x.
Proof.
  intros x H. unfold consistent in H. unfold dominates. cbv zeta. rewrite H. lia.
Qed.

Lemma set_impact_levels_consistent :
  forall (s f o p : option SeverityLevel.t) (self : DamageScenarioImpactLevel.t),
  exists self',
    DamageScenarioImpactLevel.set_impact_levels s f o p self = (self', Ret tt)
    /\ consistent self'.
Proof.
  intros s f o p self. unfold DamageScenarioImpactLevel.set_impact_levels.
  match goal with
  | |- context [DamageScenarioImpactLevel.recalculate ?x] =>
      destruct (recalculate_consistent x) as [self' [Hrun [Hcons _]]]
  end.
  exists self'. split; assumption.
Qed.

(** C10.  Construction, [set_impact_levels] and
    [set_impact_levels_by_strings] leave [impact_level] equal to the
    maximum of the four dimensions safety, financial, operational and
    privacy: the constructor and [set_impact_levels] always return with
    the level recomputed; [set_impact_levels_by_strings] either returns
    with the level recomputed or raises while evaluating its arguments,
    before it touches the object; and a level that is the maximum is
    never below any dimension. *)
Theorem impact_level_is_maximum :
  (forall (sn ds : string) (s f o p : SeverityLevel.t),
      exists x,
        DamageScenarioImpactLevel.init sn ds s f o p = Ret x
        /\ DamageScenarioImpactLevel.safety x = s
        /\ DamageScenarioImpactLevel.financial x = f
        /\ DamageScenarioImpactLevel.operational x = o
        /\ DamageScenarioImpactLevel.privacy x = p
        /\ consistent x /\ dominates x)
  /\ (forall (s f o p : option SeverityLevel.t) (self : DamageScenarioImpactLevel.t),
      exists self',
        DamageScenarioImpactLevel.set_impact_levels s f o p self = (self', Ret tt)
        /\ consistent self' /\ dominates self')
  /\ (forall (attributes : json) (self : DamageScenarioImpactLevel.t),
      (exists self',
          DamageScenarioImpactLevel.set_impact_levels_by_strings attributes self
          = (self', Ret tt)
          /\ consistent self' /\ dominates self')
      \/ (exists e,
             DamageScenarioImpactLevel.set_impact_levels_by_strings attributes self
             = (self, Raise e)))
  /\ (forall (attributes : json) (self : DamageScenarioImpactLevel.t),
      consistent self ->
      consistent (fst (DamageScenarioImpactLevel.set_impact_levels_by_strings attributes self))).
Proof.
  assert (Hstr : forall (attributes : json) (self : DamageScenarioImpactLevel.t),
      (exists self',
          DamageScenarioImpactLevel.set_impact_levels_by_strings attributes self
          = (self', Ret tt)
          /\ consistent self' /\ dominates self')
      \/ (exists e,
             DamageScenarioImpactLevel.set_impact_levels_by_strings attributes self
             = (self, Raise e))).
  { intros attributes self.
    unfold DamageScenarioImpactLevel.set_impact_levels_by_strings.
    destruct (DamageScenarioImpactLevel.level_arguments attributes)
      as [[[[s f] o] p] | e].
    - left. unfold io_bind.
      destruct (set_impact_levels_consistent s f o p self) as [self1 [Hrun _]].
      rewrite Hrun.
      destruct (recalculate_consistent self1) as [self2 [Hrun2 [Hcons _]]].
      exists self2. split; [exact Hrun2|]. split; [exact Hcons|].
      apply consistent_dominates; exact Hcons.
    - right. exists e. reflexivity. }
  split; [|split; [|split]].
  - intros sn ds s f o p. unfold DamageScenarioImpactLevel.init.
    destruct (overall_returns s f o p) as [level [Hret Hval]].
    rewrite Hret. cbn. eexists. split; [reflexivity|]. cbn.
    assert (Hc : consistent (DamageScenarioImpactLevel.mk sn ds s f o p level))
      by exact Hval.
    repeat split; try reflexivity; try exact Hc; apply (consistent_dominates Hc).
  - intros s f o p self.
    destruct (set_impact_levels_consistent s f o p self) as [self' [Hrun Hcons]].
    exists self'. split; [exact Hrun|]. split; [exact Hcons|].
    apply consistent_dominates; exact Hcons.
  - exact Hstr.
  - intros attributes self Hself.
    destruct (Hstr attributes self) as [[self' [Hrun [Hcons _]]] | [e Hrun]];
      rewrite Hrun; cbn; assumption.
Qed.

Lemma impact_level_is_maximum_witness :
  consistent
    (fst (DamageScenarioImpactLevel.set_impact_levels_by_strings
            (JObj [("safety"%string, JStr "Negligible"); ("financial"%string, JStr "major");
                   ("operational"%string, JStr ""); ("privacy"%string, JNull)])
            Sample.damage)).
Proof.
  apply (proj2 (proj2 (proj2 impact_level_is_maximum))).
  reflexivity.
Defined.

(** The update of the sample scenario: safety drops to NEGLIGIBLE,
    financial rises to MAJOR, the two others are kept, and the overall
    level follows to MAJOR. *)
Example set_by_strings_sample :
  DamageScenarioImpactLevel.set_impact_levels_by_strings
    (JObj [("safety"%string, JStr "Negligible"); ("financial"%string, JStr "major");
           ("operational"%string, JStr ""); ("privacy"%string, JNull)])
    Sample.damage
  = (DamageScenarioImpactLevel.mk "damage_scenario_1" "loss of braking"
       SeverityLevel.NEGLIGIBLE SeverityLevel.MAJOR SeverityLevel.MAJOR
       SeverityLevel.NEGLIGIBLE SeverityLevel.MAJOR, Ret tt).
Proof. reflexivity. Qed.

(** A missing key raises and leaves the scenario alone. *)
Example set_by_strings_missing_key :
  DamageScenarioImpactLevel.set_impact_levels_by_strings
    (JObj [("safety"%string, JStr "Severe")]) Sample.damage
  = (Sample.damage, Raise KeyError).
Proof. reflexivity. Qed.

(** ** The loops that read the outcome of a gather *)

Lemma collect_attributes_acc :
  forall (T : Type) (outcomes : list (res (list T))) (acc : list T),
    Workflow.collect_attributes outcomes acc = acc ++ List.concat (successes outcomes).
Proof.
  induction outcomes as [|[r|e] rest IH]; intros acc; cbn.
  - now rewrite app_nil_r.
  - rewrite IH. now rewrite app_assoc.
  - apply IH.
Qed.

Lemma collect_damage_scenarios_acc :
  forall (T : Type) (outcomes : list (res (list T))) (acc : list T),
    Workflow.collect_damage_scenarios outcomes acc = acc ++ List.concat (successes outcomes).
Proof.
  induction outcomes as [|[r|e] rest IH]; intros acc; cbn.
  - now rewrite app_nil_r.
  - rewrite IH. now rewrite app_assoc.
  - apply IH.
Qed.

Lemma collect_threat_scenarios_acc :
  forall (T : Type) (outcomes : list (res (option T))) (acc : list T),
    Workflow.collect_threat_scenarios outcomes acc = acc ++ delivered (successes outcomes).
Proof.
  induction outcomes as [|[[r|]|e] rest IH]; intros acc; cbn.
  - now rewrite app_nil_r.
  - rewrite IH. now rewrite <- app_assoc.
  - apply IH.
  - apply IH.
Qed.

Lemma collect_assets_acc :
  forall (T C : Type) (outcomes : list (res (list T * list C)))
         (acc : list T) (acc' : list C),
    Workflow.collect_assets outcomes acc acc'
    = (acc ++ List.concat (map fst (successes outcomes)),
       acc' ++ List.concat (map snd (successes outcomes))).
Proof.
  induction outcomes as [|[[r r']|e] rest IH]; intros acc acc'; cbn.
  - now rewrite !app_nil_r.
  - rewrite IH. now rewrite !app_assoc.
  - apply IH.
Qed.

Lemma successes_app :
  forall (A : Type) (l l' : list (res A)),
    successes (l ++ l') = successes l ++ successes l'.
Proof.
  induction l as [|[a|e] l IH]; intros l'; cbn; try rewrite IH; reflexivity.
Qed.

Lemma length_concat_total :
  forall (A : Type) (l : list (list A)), List.length (List.concat l) = total_entries l.
Proof.
  induction l as [|x l IH]; cbn; [reflexivity|].
  rewrite length_app, IH. reflexivity.
Qed.

(** C9, as the code has it.  Each loop that reads the outcomes of a
    gather step puts into the aggregate exactly the concatenation, in
    order, of the outcomes that are not exceptions, and nothing for an
    exception: an exception among the outcomes removes that branch alone.
    Where the outcomes are result lists the aggregated count is the total
    number of entries of the completed branches; where each outcome is a
    single artifact or [None] (the threat-scenario gather) it is the
    number of branches that delivered one. *)
Theorem fan_in_keeps_completed :
  forall (T C : Type)
         (attribute_results damage_scenario_results : list (res (list T)))
         (threat_scenario_results : list (res (option T)))
         (results : list (res (list T * list C))),
    Workflow.collect_attributes attribute_results [] = List.concat (successes attribute_results)
    /\ Workflow.collect_damage_scenarios damage_scenario_results []
       = List.concat (successes damage_scenario_results)
    /\ Workflow.collect_assets results [] []
       = (List.concat (map fst (successes results)), List.concat (map snd (successes results)))
    /\ Workflow.collect_threat_scenarios threat_scenario_results []
       = delivered (successes threat_scenario_results)
    /\ List.length (Workflow.collect_attributes attribute_results [])
       = total_entries (successes attribute_results)
    /\ List.length (fst (Workflow.collect_assets results [] []))
       = total_entries (map fst (successes results))
    /\ (forall (before after : list (res (list T))) (e : exn),
          Workflow.collect_attributes (before ++ Raise e :: after) []
          = Workflow.collect_attributes (before ++ after) [])
    /\ (forall (before after : list (res (list T * list C))) (e : exn),
          Workflow.collect_assets (before ++ Raise e :: after) [] []
          = Workflow.collect_assets (before ++ after) [] []).
Proof.
  intros T C attribute_results damage_scenario_results threat_scenario_results results.
  repeat split.
  - now rewrite collect_attributes_acc.
  - now rewrite collect_damage_scenarios_acc.
  - now rewrite collect_assets_acc.
  - now rewrite collect_threat_scenarios_acc.
  - rewrite collect_attributes_acc. cbn. apply length_concat_total.
  - rewrite collect_assets_acc. cbn. apply length_concat_total.
  - intros before after e. rewrite !collect_attributes_acc, !successes_app. reflexivity.
  - intros before after e. rewrite !collect_assets_acc, !successes_app. reflexivity.
Qed.

(** C9 as stated fails on the count: one completed branch that returned
    two entries gives an aggregate of two, not of one. *)
Lemma fan_in_count_is_not_branch_count :
  ~ (forall outcomes : list (res (list nat)),
        List.length (Workflow.collect_attributes outcomes [])
        = List.length (successes outcomes)).
Proof.
  intros H. specialize (H [Ret [1%nat; 2%nat]]). cbn in H. discriminate H.
Qed.

(** Three attribute branches, the middle one failed. *)
Example fan_in_sample :
  Workflow.collect_attributes [Ret [1; 2]; Raise RuntimeError; Ret [3]]%nat []
  = [1; 2; 3]%nat.
Proof. reflexivity. Qed.

(** ** The retry of the orchestrator *)

Lemma keeps_slept_bind :
  forall (A B : Type) (m : io Workflow.heap A) (k : A -> io Workflow.heap B),
    keeps_slept m -> (forall a, keeps_slept (k a)) -> keeps_slept (io_bind m k).
Proof.
  intros A B m k Hm Hk h. unfold io_bind.
  specialize (Hm h). destruct (m h) as [h1 [a|e]]; cbn in *.
  - rewrite Hk. exact Hm.
  - exact Hm.
Qed.

Lemma keeps_slept_on_artifact :
  forall (A : Type) (m : io AssetTaraInfo.t A), keeps_slept (Workflow.on_artifact m).
Proof.
  intros A m h. unfold Workflow.on_artifact.
  destruct (m (Workflow.artifact h)); reflexivity.
Qed.

Lemma keeps_slept_field :
  forall (d : dict) (k : string), keeps_slept (Workflow.field d k).
Proof. intros d k h; reflexivity. Qed.

Lemma keeps_slept_ret :
  forall (A : Type) (a : A), keeps_slept (io_ret a).
Proof. intros A a h; reflexivity. Qed.

Section ThreatScenario.

Variable generator : nat -> Workflow.request -> option dict.
Variable prepare_for_ai04 prepare_for_ai05 : AssetTaraInfo.t -> string.
Variable get_prompt07 get_prompt08 risk_treatment_format cso_csr_format : string.
Variable short_hash : string -> Z -> string.
Variable time_ms : nat -> Z.

Lemma keeps_slept_analyze :
  forall msg prompt format_text,
    keeps_slept (Workflow.analyze_asset_async generator msg prompt format_text).
Proof.
  intros msg prompt format_text h. unfold Workflow.analyze_asset_async.
  destruct (_ || _); [reflexivity|].
  destruct (generator _ _); reflexivity.
Qed.

Lemma keeps_slept_risk_treatment :
  keeps_slept (Workflow.asset_threat_risk_treatment_assessment_async generator
                 prepare_for_ai04 get_prompt07 risk_treatment_format).
Proof.
  unfold Workflow.asset_threat_risk_treatment_assessment_async.
  repeat (first
    [ apply keeps_slept_on_artifact
    | apply keeps_slept_field
    | apply keeps_slept_bind; [|intros ?] ]).
  intros h. apply keeps_slept_analyze.
Qed.

Lemma keeps_slept_cso_csr :
  keeps_slept (Workflow.asset_cso_csr_assessment_async generator
                 prepare_for_ai05 get_prompt08 cso_csr_format short_hash time_ms).
Proof.
  unfold Workflow.asset_cso_csr_assessment_async.
  apply keeps_slept_bind; [apply keeps_slept_on_artifact|intros _].
  apply keeps_slept_bind.
  { intros h. unfold Workflow.decision_is_reduce.
    destruct (AssetTaraInfo.risk_treatment_decision _) as [d|]; [|reflexivity].
    destruct (RiskTreatmentDecision.risk_treatment d); reflexivity. }
  intros [|]; [|apply keeps_slept_ret].
  apply keeps_slept_bind; [intros h; apply keeps_slept_analyze|intros analysis_result].
  unfold Workflow.populate_requirement.
  repeat (first
    [ apply keeps_slept_on_artifact
    | apply keeps_slept_field
    | apply keeps_slept_bind; [|intros ?] ]).
  intros h. apply keeps_slept_on_artifact.
Qed.

(** C7.  [process_threat_scenario_async] always returns a result within
    its loop bound.  It runs the stage pair (risk treatment, then CSO/CSR)
    at most three times, the first run and at most two retries; before
    retry k it sleeps 2^(k-1) seconds and it sleeps at no other time; it
    hands back the artifact as soon as a run succeeds, and after the
    third failed run it returns [None] instead of raising.  The runs are
    runs of the two stages on the heap: the heap that the call leaves is
    the one left by the last run of the stage pair, where every earlier
    run raised and was followed by the pause, each run starting where
    the pause ended; the artifact is handed back exactly when that last
    run returned, and [None] exactly when it was the third run and
    raised.  The one exception that leaves the function is raised before
    the loop, when the artifact has no threat-scenario record to read
    the description from; the stage pair then never runs and the heap
    is left as it was. *)
Theorem orchestrator_retry_bounded :
  forall h : Workflow.heap,
  exists b : Workflow.branch,
    Workflow.process_threat_scenario_async generator prepare_for_ai04 prepare_for_ai05
      get_prompt07 get_prompt08 risk_treatment_format cso_csr_format short_hash time_ms h
    = Some b
    /\ (Workflow.attempts b <= 3)%nat
    /\ Workflow.slept (Workflow.final b)
       = Workflow.slept h ++ map retry_pause (seq 1 (Workflow.attempts b - 1))
    /\ ((Workflow.outcome b = Ret Workflow.TheArtifact /\ (1 <= Workflow.attempts b)%nat)
        \/ (Workflow.outcome b = Ret Workflow.PyNone /\ Workflow.attempts b = 3%nat)
        \/ (Workflow.outcome b = Raise AttributeError /\ Workflow.attempts b = 0%nat
            /\ AssetTaraInfo.threat_scenario_attack_feasibility (Workflow.artifact h)
               = None))
    /\ (AssetTaraInfo.threat_scenario_attack_feasibility (Workflow.artifact h) = None ->
        b = Workflow.mkBranch h 0 (Raise AttributeError))
    /\ (AssetTaraInfo.threat_scenario_attack_feasibility (Workflow.artifact h) <> None ->
        exists h1,
          after_failures
            (io_bind (Workflow.asset_threat_risk_treatment_assessment_async generator
                        prepare_for_ai04 get_prompt07 risk_treatment_format)
                     (fun _ => Workflow.asset_cso_csr_assessment_async generator
                                 prepare_for_ai05 get_prompt08 cso_csr_format
                                 short_hash time_ms))
            (fun k => Workflow.sleep (retry_pause k))
            (Workflow.attempts b - 1) 1 h = Some h1
          /\ ((io_bind (Workflow.asset_threat_risk_treatment_assessment_async generator
                          prepare_for_ai04 get_prompt07 risk_treatment_format)
                       (fun _ => Workflow.asset_cso_csr_assessment_async generator
                                   prepare_for_ai05 get_prompt08 cso_csr_format
                                   short_hash time_ms) h1
               = (Workflow.final b, Ret tt)
               /\ Workflow.outcome b = Ret Workflow.TheArtifact)
              \/ (exists e,
                    io_bind (Workflow.asset_threat_risk_treatment_assessment_async
                               generator prepare_for_ai04 get_prompt07
                               risk_treatment_format)
                            (fun _ => Workflow.asset_cso_csr_assessment_async generator
                                        prepare_for_ai05 get_prompt08 cso_csr_format
                                        short_hash time_ms) h1
                    = (Workflow.final b, Raise e)
                    /\ Workflow.outcome b = Ret Workflow.PyNone
                    /\ Workflow.attempts b = 3%nat))).
Proof.
  intros h.
  unfold Workflow.process_threat_scenario_async.
  destruct (AssetTaraInfo.threat_scenario_attack_feasibility (Workflow.artifact h))
    as [threat|] eqn:Hthreat.
  2:{ eexists; split; [reflexivity|]. cbn. rewrite app_nil_r.
      split; [lia|]. split; [reflexivity|]. split; [right; right; auto|].
      split; [reflexivity|]. intros Habs. contradiction Habs. reflexivity. }
  unfold Workflow.threat_loop.
  assert (Hkeep : keeps_slept
            (io_bind (Workflow.asset_threat_risk_treatment_assessment_async generator
                        prepare_for_ai04 get_prompt07 risk_treatment_format)
                     (fun _ => Workflow.asset_cso_csr_assessment_async generator
                                 prepare_for_ai05 get_prompt08 cso_csr_format
                                 short_hash time_ms))).
  { apply keeps_slept_bind; [apply keeps_slept_risk_treatment|].
    intros _; apply keeps_slept_cso_csr. }
  revert Hkeep. set (stage := io_bind _ _). clearbody stage. intros Hkeep.
  change ((0 <=? Workflow.max_retries)%Z) with true. cbv iota.
  pose proof (Hkeep h) as K1.
  destruct (stage h) as [h1 [[]|e1]] eqn:E1; cbn [fst] in K1.
  { eexists; split; [reflexivity|].
    cbn [Workflow.attempts Workflow.final Workflow.outcome Nat.sub seq map].
    rewrite app_nil_r.
    split; [lia|]. split; [exact K1|]. split; [left; split; [reflexivity|lia]|].
    split; [discriminate|]. intros _. exists h. split; [reflexivity|].
    left. split; [exact E1|reflexivity]. }
  change ((0 + 1 >? Workflow.max_retries)%Z) with false.
  change ((0 + 1 <=? Workflow.max_retries)%Z) with true. cbv iota.
  change (2 ^ (0 + 1 - 1))%Z with (retry_pause 1).
  pose proof (Hkeep (Workflow.sleep (retry_pause 1) h1)) as K2.
  destruct (stage (Workflow.sleep (retry_pause 1) h1)) as [h2 [[]|e2]] eqn:E2;
    cbn [fst] in K2.
  { eexists; split; [reflexivity|].
    cbn [Workflow.attempts Workflow.final Workflow.outcome Nat.sub seq map].
    split; [lia|]. split; [rewrite K2; cbn [Workflow.sleep Workflow.slept]; rewrite K1;
                           reflexivity|].
    split; [left; split; [reflexivity|lia]|].
    split; [discriminate|]. intros _. exists (Workflow.sleep (retry_pause 1) h1).
    split; [cbn [after_failures]; rewrite E1; reflexivity|].
    left. split; [exact E2|reflexivity]. }
  change ((0 + 1 + 1 >? Workflow.max_retries)%Z) with false.
  change ((0 + 1 + 1 <=? Workflow.max_retries)%Z) with true. cbv iota.
  change (2 ^ (0 + 1 + 1 - 1))%Z with (retry_pause 2).
  pose proof (Hkeep (Workflow.sleep (retry_pause 2) h2)) as K3.
  destruct (stage (Workflow.sleep (retry_pause 2) h2)) as [h3 [[]|e3]] eqn:E3;
    cbn [fst] in K3.
  { eexists; split; [reflexivity|].
    cbn [Workflow.attempts Workflow.final Workflow.outcome Nat.sub seq map].
    split; [lia|].
    split; [rewrite K3; cbn [Workflow.sleep Workflow.slept]; rewrite K2;
            cbn [Workflow.sleep Workflow.slept]; rewrite K1, <- app_assoc; reflexivity|].
    split; [left; split; [reflexivity|lia]|].
    split; [discriminate|]. intros _. exists (Workflow.sleep (retry_pause 2) h2).
    split; [cbn [after_failures]; rewrite E1, E2; reflexivity|].
    left. split; [exact E3|reflexivity]. }
  change ((0 + 1 + 1 + 1 >? Workflow.max_retries)%Z) with true. cbv iota.
  eexists; split; [reflexivity|].
  cbn [Workflow.attempts Workflow.final Workflow.outcome Nat.sub seq map].
  split; [lia|].
  split; [rewrite K3; cbn [Workflow.sleep Workflow.slept]; rewrite K2;
          cbn [Workflow.sleep Workflow.slept]; rewrite K1, <- app_assoc; reflexivity|].
  split; [right; left; split; reflexivity|].
  split; [discriminate|]. intros _. exists (Workflow.sleep (retry_pause 2) h2).
  split; [cbn [after_failures]; rewrite E1, E2; reflexivity|].
  right. exists e3. split; [exact E3|]. split; reflexivity.
Qed.

End ThreatScenario.

Lemma orchestrator_retry_bounded_witness :
  exists b : Workflow.branch,
    Workflow.process_threat_scenario_async Sample.silent Sample.serialise Sample.serialise
      "p7" "p8" "f7" "f8" (fun _ _ => "00000000"%string) (fun _ => 0%Z) (Sample.heap None)
    = Some b
    /\ (Workflow.attempts b <= 3)%nat.
Proof.
  destruct (@orchestrator_retry_bounded Sample.silent Sample.serialise Sample.serialise
              "p7" "p8" "f7" "f8" (fun _ _ => "00000000"%string) (fun _ => 0%Z)
              (Sample.heap None)) as [b [Hrun [Hbound _]]].
  exists b. split; [exact Hrun|exact Hbound].
Defined.

(** With a request layer that always gives up the branch runs the stage
    pair three times, sleeps one then two seconds, and hands back [None]. *)
Example orchestrator_gives_up :
  option_map (fun b => (Workflow.attempts b, Workflow.slept (Workflow.final b),
                        Workflow.outcome b))
    (Workflow.process_threat_scenario_async Sample.silent Sample.serialise Sample.serialise
       "p7" "p8" "f7" "f8" (fun _ _ => "00000000"%string) (fun _ => 0%Z) (Sample.heap None))
  = Some (3%nat, [1; 2]%Z, Ret Workflow.PyNone).
Proof. reflexivity. Qed.

(** With a request layer that gives up once, the branch sleeps one
    second, runs the stage pair again and hands back the artifact, now
    decided as AVOID with an empty control requirement. *)
Example orchestrator_recovers :
  option_map (fun b => (Workflow.attempts b, Workflow.slept (Workflow.final b),
                        Workflow.outcome b,
                        decided (Workflow.artifact (Workflow.final b)),
                        AssetTaraInfo.cybersecurity_control_requirement
                          (Workflow.artifact (Workflow.final b))))
    (Workflow.process_threat_scenario_async Sample.flaky Sample.serialise Sample.serialise
       "p7" "p8" "f7" "f8" (fun _ _ => "00000000"%string) (fun _ => 0%Z) (Sample.heap None))
  = Some (2%nat, [1]%Z, Ret Workflow.TheArtifact, Some RiskTreatmentOption.AVOID,
          Some CybersecurityControlRequirement.init).
Proof. reflexivity. Qed.

(** ** The retry loop of the request layer *)

Lemma zmin_is_min : forall a b : Z, zmin a b = Z.min a b.
Proof.
  intros a b. unfold zmin. destruct (Z.ltb_spec b a); lia.
Qed.

Lemma map_seq_shift :
  forall (f : nat -> Z) (m : nat),
    map f (seq 2 m) = map (fun i => f (S i)) (seq 1 m).
Proof.
  intros f m. rewrite <- seq_shift, map_map. reflexivity.
Qed.

Section RequestLoopFacts.

Variable json_loads : string -> option json.
Variable World : Type.
Variable acquire_token : io World unit.
Variable _prepare_request_data : io World json.
Variable _send_request : json -> io World json.
Variable _parse_response : json -> io World json.
Variable sleep : Z -> World -> World.
Variable max_retries : Z.
Variable format_text : string.

(** The loop started with [retry_count] used retries and enough fuel
    ends; it enters the [try] block at most once per retry that is left;
    after each failure that is followed by another attempt it sleeps the
    prescribed pause; and it raises only when no retry is left. *)
Lemma request_loop_spec :
  forall (fuel : nat) (retry_count : Z) (w : World) (a : nat) (ds : list Z),
    (0 <= retry_count)%Z ->
    (Z.to_nat (max_retries + 1 - retry_count) < fuel)%nat ->
    exists r,
      BaseAIAssistant.request_loop json_loads acquire_token _prepare_request_data
        _send_request _parse_response sleep max_retries format_text
        fuel retry_count w a ds = Some r
      /\ (a <= BaseAIAssistant.attempts r
          <= a + Z.to_nat (max_retries + 1 - retry_count))%nat
      /\ ((1 <= Z.to_nat (max_retries + 1 - retry_count))%nat ->
          (a + 1 <= BaseAIAssistant.attempts r)%nat)
      /\ BaseAIAssistant.delays r
         = ds ++ map (fun i => backoff (Z.to_nat retry_count + i))
                     (seq 1 (BaseAIAssistant.attempts r - a - 1))
      /\ (forall e, BaseAIAssistant.outcome r = Raise e ->
            e = Exception
            /\ BaseAIAssistant.attempts r
               = (a + Z.to_nat (max_retries + 1 - retry_count))%nat).
Proof.
  induction fuel as [|fuel IH]; intros retry_count w a ds Hrc Hfuel; [lia|].
  cbn [BaseAIAssistant.request_loop].
  destruct (Z.leb_spec retry_count max_retries) as [Hle|Hgt].
  - destruct (BaseAIAssistant.try_block _ _ _ _ _ _ w) as [w1 [parsed|e]].
    + eexists; split; [reflexivity|].
      cbn [BaseAIAssistant.attempts BaseAIAssistant.delays BaseAIAssistant.outcome].
      replace (S a - a - 1)%nat with 0%nat by lia. cbn. rewrite app_nil_r.
      repeat split; try lia; congruence.
    + destruct (Z.leb_spec (retry_count + 1) max_retries) as [Hle'|Hgt'].
      * destruct (IH (retry_count + 1)%Z
                    (sleep (zmin (2 ^ (retry_count + 1 - 1)) 30) w1) (S a)
                    (ds ++ [zmin (2 ^ (retry_count + 1 - 1)) 30]))
          as [r [Hrun [Hbound [Hmore [Hdelays Hraise]]]]]; [lia|lia|].
        exists r. split; [exact Hrun|].
        assert (Hone : (S a + 1 <= BaseAIAssistant.attempts r)%nat)
          by (apply Hmore; lia).
        split; [lia|]. split; [lia|]. split.
        -- rewrite Hdelays.
           replace (BaseAIAssistant.attempts r - a - 1)%nat
             with (S (BaseAIAssistant.attempts r - S a - 1)) by lia.
           cbn [seq map]. rewrite <- app_assoc. cbn [app]. f_equal. f_equal.
           ++ rewrite zmin_is_min. unfold backoff. f_equal. f_equal. lia.
           ++ rewrite map_seq_shift. apply map_ext. intros i.
              f_equal. lia.
        -- intros e' He'. destruct (Hraise e' He') as [-> Hatt]. split; [reflexivity|lia].
      * destruct (IH (retry_count + 1)%Z w1 (S a) ds)
          as [r [Hrun [Hbound [Hmore [Hdelays Hraise]]]]]; [lia|lia|].
        exists r. split; [exact Hrun|].
        replace (Z.to_nat (max_retries + 1 - (retry_count + 1))) with 0%nat in * by lia.
        replace (Z.to_nat (max_retries + 1 - retry_count)) with 1%nat by lia.
        assert (Hatt : BaseAIAssistant.attempts r = S a) by lia.
        split; [lia|]. split; [lia|]. split.
        -- rewrite Hdelays, Hatt.
           replace (S a - S a - 1)%nat with 0%nat by lia.
           replace (S a - a - 1)%nat with 0%nat by lia. reflexivity.
        -- intros e' He'. destruct (Hraise e' He') as [-> _]. split; [reflexivity|lia].
  - eexists; split; [reflexivity|].
      cbn [BaseAIAssistant.attempts BaseAIAssistant.delays BaseAIAssistant.outcome].
    replace (Z.to_nat (max_retries + 1 - retry_count)) with 0%nat by lia.
    replace (a - a - 1)%nat with 0%nat by lia. cbn. rewrite app_nil_r.
    repeat split; try lia; congruence.
Qed.

(** The loop as a sequence of runs of the [try] block: every run but the
    last raised and was followed by its pause; the last run either
    returned, and the loop returns its result from the world it left, or
    raised with no retry left, and the loop raises from that world
    without another pause. *)
Lemma request_loop_trace :
  forall (fuel : nat) (retry_count : Z) (w : World) (a : nat) (ds : list Z)
         (r : BaseAIAssistant.run World),
    (0 <= retry_count)%Z ->
    BaseAIAssistant.request_loop json_loads acquire_token _prepare_request_data
      _send_request _parse_response sleep max_retries format_text
      fuel retry_count w a ds = Some r ->
    ((retry_count <= max_retries)%Z ->
     (a + 1 <= BaseAIAssistant.attempts r)%nat
     /\ exists w1,
          after_failures
            (BaseAIAssistant.try_block json_loads acquire_token _prepare_request_data
               _send_request _parse_response format_text)
            (fun k => sleep (Z.min (2 ^ (Z.of_nat k - 1)) 30))
            (BaseAIAssistant.attempts r - a - 1) (Z.to_nat retry_count + 1) w = Some w1
          /\ ((exists d,
                 BaseAIAssistant.try_block json_loads acquire_token _prepare_request_data
                   _send_request _parse_response format_text w1
                 = (BaseAIAssistant.final r, Ret d)
                 /\ BaseAIAssistant.outcome r = Ret d)
              \/ (exists e,
                    BaseAIAssistant.try_block json_loads acquire_token
                      _prepare_request_data _send_request _parse_response format_text w1
                    = (BaseAIAssistant.final r, Raise e)
                    /\ BaseAIAssistant.outcome r = Raise Exception
                    /\ (Z.of_nat (BaseAIAssistant.attempts r - a)
                        = max_retries + 1 - retry_count)%Z)))
    /\ ((max_retries < retry_count)%Z ->
        BaseAIAssistant.final r = w
        /\ BaseAIAssistant.attempts r = a
        /\ BaseAIAssistant.outcome r = Raise Exception).
Proof.
  induction fuel as [|fuel IH]; intros retry_count w a ds r Hrc Hrun; [discriminate|].
  cbn [BaseAIAssistant.request_loop] in Hrun.
  destruct (Z.leb_spec retry_count max_retries) as [Hle|Hgt].
  - split; [intros _|lia].
    destruct (BaseAIAssistant.try_block json_loads acquire_token _prepare_request_data
                _send_request _parse_response format_text w) as [w1 [d|e]] eqn:Etry.
    + injection Hrun as <-.
      cbn [BaseAIAssistant.attempts BaseAIAssistant.final BaseAIAssistant.outcome].
      split; [lia|]. replace (S a - a - 1)%nat with 0%nat by lia.
      exists w. split; [reflexivity|]. left. exists d. split; [exact Etry|reflexivity].
    + destruct (Z.leb_spec (retry_count + 1) max_retries) as [Hle'|Hgt'].
      * apply IH in Hrun; [|lia]. destruct Hrun as [Hin _].
        destruct (Hin Hle') as [Hatt [w2 [Hfail Hlast]]].
        split; [lia|]. exists w2. split.
        -- replace (BaseAIAssistant.attempts r - a - 1)%nat
             with (S (BaseAIAssistant.attempts r - S a - 1)) by lia.
           cbn [after_failures]. rewrite Etry.
           replace (S (Z.to_nat retry_count + 1)) with (Z.to_nat (retry_count + 1) + 1)%nat
             by lia.
           replace (Z.min (2 ^ (Z.of_nat (Z.to_nat retry_count + 1) - 1)) 30)
             with (zmin (2 ^ (retry_count + 1 - 1)) 30); [exact Hfail|].
           rewrite zmin_is_min. f_equal. f_equal. lia.
        -- destruct Hlast as [[d [H1 H2]]|[e' [H1 [H2 H3]]]].
           ++ left. exists d. split; assumption.
           ++ right. exists e'. split; [exact H1|]. split; [exact H2|lia].
      * apply IH in Hrun; [|lia]. destruct Hrun as [_ Hout].
        destruct (Hout ltac:(lia)) as [Hfinal [Hatt Houtcome]].
        split; [lia|]. exists w. rewrite Hatt.
        replace (S a - a - 1)%nat with 0%nat by lia. split; [reflexivity|].
        right. exists e. split; [rewrite Hfinal; exact Etry|].
        split; [exact Houtcome|lia].
  - split; [lia|intros _]. injection Hrun as <-.
    cbn [BaseAIAssistant.attempts BaseAIAssistant.final BaseAIAssistant.outcome].
    auto.
Qed.

End RequestLoopFacts.

Lemma nth_error_backoffs :
  forall n k : nat,
    (1 <= k <= n)%nat -> nth_error (backoffs n) (k - 1) = Some (backoff k).
Proof.
  intros n k Hk. unfold backoffs.
  rewrite nth_error_map, nth_error_seq.
  destruct (Nat.ltb_spec (k - 1) n) as [_|Hn]; [|lia].
  cbn. f_equal. f_equal. lia.
Qed.

(** For any retry budget that is not negative: one logical request ends,
    enters the [try] block between one and [max_retries + 1] times,
    sleeps the prescribed pauses between consecutive attempts and raises
    only after [max_retries + 1] attempts. *)
Lemma request_ai_response_spec :
  forall (json_loads : string -> option json) (World : Type)
         (acquire_token : io World unit) (_prepare_request_data : io World json)
         (_send_request _parse_response : json -> io World json)
         (sleep : Z -> World -> World) (max_retries : Z) (format_text : string)
         (w : World),
    (0 <= max_retries)%Z ->
    exists r,
      BaseAIAssistant.request_ai_response json_loads acquire_token _prepare_request_data
        _send_request _parse_response sleep max_retries format_text w = Some r
      /\ (1 <= BaseAIAssistant.attempts r <= Z.to_nat (max_retries + 1))%nat
      /\ BaseAIAssistant.delays r = backoffs (BaseAIAssistant.attempts r - 1)
      /\ (forall e, BaseAIAssistant.outcome r = Raise e ->
            e = Exception
            /\ BaseAIAssistant.attempts r = Z.to_nat (max_retries + 1)).
Proof.
  intros json_loads World acquire_token _prepare_request_data _send_request
    _parse_response sleep max_retries format_text w Hmax.
  unfold BaseAIAssistant.request_ai_response.
  destruct (@request_loop_spec json_loads World acquire_token _prepare_request_data
              _send_request _parse_response sleep max_retries format_text
              (Z.to_nat (max_retries + 1) + 1) 0%Z w 0%nat [])
    as [r [Hrun [Hbound [Hmore [Hdelays Hraise]]]]]; [lia| rewrite Z.sub_0_r; lia |].
  rewrite Z.sub_0_r in *. cbn [Nat.add] in *.
  exists r. split; [exact Hrun|].
  assert (1 <= BaseAIAssistant.attempts r)%nat by (apply Hmore; lia).
  split; [lia|]. split.
  - rewrite Hdelays. cbn [app]. unfold backoffs.
    replace (BaseAIAssistant.attempts r - 0 - 1)%nat
      with (BaseAIAssistant.attempts r - 1)%nat by lia.
    apply map_ext. intros i. reflexivity.
  - exact Hraise.
Qed.

(** C2.  With [max_retries = 3], whatever the hooks and the world do, one
    call of [request_ai_response] enters its [try] block at least once
    and at most 4 times; the pause slept between attempt k and attempt
    k+1 is min(2^(k-1), 30) seconds, so the pauses are the first
    entries of 1, 2, 4; and the call raises only after the fourth
    attempt has failed.  The attempts are runs of the [try] block and
    the pauses are calls of [time.sleep]: the world that the call leaves
    is the one left by the last of its runs of the [try] block, where
    every earlier run raised and was followed by [time.sleep] of
    min(2^(k-1), 30) seconds, each run starting where that pause ended;
    the call returns what the last run returned, or raises when the last
    run, the fourth, raised, without sleeping again.
    [request_ai_response_async] does the same. *)
Theorem request_attempts_bounded :
  forall (json_loads : string -> option json) (World : Type)
         (acquire_token : io World unit) (_prepare_request_data : io World json)
         (_send_request _parse_response : json -> io World json)
         (sleep : Z -> World -> World) (format_text : string) (w : World),
  exists r,
    BaseAIAssistant.request_ai_response json_loads acquire_token _prepare_request_data
      _send_request _parse_response sleep 3 format_text w = Some r
    /\ BaseAIAssistant.request_ai_response_async json_loads acquire_token
         _prepare_request_data _send_request _parse_response sleep 3 format_text w
       = Some r
    /\ (1 <= BaseAIAssistant.attempts r <= 4)%nat
    /\ List.length (BaseAIAssistant.delays r) = (BaseAIAssistant.attempts r - 1)%nat
    /\ (forall k : nat,
          (1 <= k < BaseAIAssistant.attempts r)%nat ->
          nth_error (BaseAIAssistant.delays r) (k - 1)
          = Some (Z.min (2 ^ (Z.of_nat k - 1)) 30))
    /\ BaseAIAssistant.delays r = firstn (BaseAIAssistant.attempts r - 1) [1; 2; 4]%Z
    /\ (forall e, BaseAIAssistant.outcome r = Raise e ->
          BaseAIAssistant.attempts r = 4%nat)
    /\ (exists w1,
          after_failures
            (BaseAIAssistant.try_block json_loads acquire_token _prepare_request_data
               _send_request _parse_response format_text)
            (fun k => sleep (Z.min (2 ^ (Z.of_nat k - 1)) 30))
            (BaseAIAssistant.attempts r - 1) 1 w = Some w1
          /\ ((exists d,
                 BaseAIAssistant.try_block json_loads acquire_token _prepare_request_data
                   _send_request _parse_response format_text w1
                 = (BaseAIAssistant.final r, Ret d)
                 /\ BaseAIAssistant.outcome r = Ret d)
              \/ (exists e,
                    BaseAIAssistant.try_block json_loads acquire_token
                      _prepare_request_data _send_request _parse_response format_text w1
                    = (BaseAIAssistant.final r, Raise e)
                    /\ BaseAIAssistant.outcome r = Raise Exception
                    /\ BaseAIAssistant.attempts r = 4%nat))).
Proof.
  intros json_loads World acquire_token _prepare_request_data _send_request
    _parse_response sleep format_text w.
  destruct (@request_ai_response_spec json_loads World acquire_token
              _prepare_request_data _send_request _parse_response sleep 3%Z
              format_text w) as [r [Hrun [Hbound [Hdelays Hraise]]]]; [lia|].
  change (Z.to_nat (3 + 1)) with 4%nat in *.
  exists r. split; [exact Hrun|]. split; [exact Hrun|]. split; [exact Hbound|].
  split; [|split; [|split; [|split]]].
  - rewrite Hdelays. unfold backoffs. now rewrite length_map, length_seq.
  - intros k Hk. rewrite Hdelays. rewrite nth_error_backoffs by lia. reflexivity.
  - rewrite Hdelays.
    assert (Hcases : (BaseAIAssistant.attempts r - 1 = 0 \/ BaseAIAssistant.attempts r - 1 = 1
             \/ BaseAIAssistant.attempts r - 1 = 2 \/ BaseAIAssistant.attempts r - 1 = 3)%nat)
      by lia.
    destruct Hcases as [-> | [-> | [-> | ->]]]; reflexivity.
  - intros e He. apply (Hraise e He).
  - unfold BaseAIAssistant.request_ai_response in Hrun.
    destruct (@request_loop_trace json_loads World acquire_token _prepare_request_data
                _send_request _parse_response sleep 3%Z format_text
                (Z.to_nat (3 + 1) + 1)%nat 0%Z w 0%nat [] r ltac:(lia) Hrun)
      as [Hin _].
    destruct (Hin ltac:(lia)) as [_ [w1 [Hfail Hlast]]].
    rewrite Nat.sub_0_r in Hfail. exists w1. split; [exact Hfail|].
    destruct Hlast as [[d [H1 H2]]|[e [H1 [H2 H3]]]].
    + left. exists d. split; assumption.
    + right. exists e. split; [exact H1|]. split; [exact H2|lia].
Qed.

Lemma request_attempts_bounded_witness :
  exists r,
    BaseAIAssistant.request_ai_response (fun _ => None) (io_ret tt) (io_ret JNull)
      (DeepSeekAIAssistant._send_request Sample.dead_endpoint 3 60)
      (fun response => io_ret response)
      (fun _ w => w) 3 "" (DeepSeekAIAssistant.mkNet [] []) = Some r
    /\ BaseAIAssistant.attempts r = 4%nat.
Proof.
  destruct (@request_attempts_bounded (fun _ => None) DeepSeekAIAssistant.net
              (io_ret tt) (io_ret JNull)
              (DeepSeekAIAssistant._send_request Sample.dead_endpoint 3 60)
              (fun response => io_ret response)
              (fun _ w => w) "" (DeepSeekAIAssistant.mkNet [] []))
    as [r [Hrun [_ [_ [_ [_ [_ [Hraise _]]]]]]]].
  exists r. split; [exact Hrun|].
  apply (Hraise Exception).
  vm_compute in Hrun. injection Hrun as <-. reflexivity.
Defined.

(** A request layer whose first two runs of the [try] block fail (the
    endpoint does not answer the first eight POSTs in time) and whose
    third run returns: three attempts, pauses of one and two seconds
    between them, and the result of the third run. *)
Example third_attempt_returns :
  option_map
    (fun r => (BaseAIAssistant.attempts r, DeepSeekAIAssistant.slept (BaseAIAssistant.final r),
               BaseAIAssistant.outcome r))
    (BaseAIAssistant.request_ai_response (fun _ => Some (JObj [])) (io_ret tt)
       (io_ret JNull)
       (DeepSeekAIAssistant._send_request
          (fun _ n _ => if (n <? 8)%nat then DeepSeekAIAssistant.TimedOut
                        else DeepSeekAIAssistant.Delivered (JObj [])) 3 60)
       (fun response => io_ret response)
       DeepSeekAIAssistant.sleep 3 "{}" (DeepSeekAIAssistant.mkNet [] []))
  = Some (3%nat, [1; 2; 4; 1; 1; 2; 4; 2]%Z, Ret []).
Proof. vm_compute. reflexivity. Qed.

(** The pause is capped: after the sixth failure it stays at 30 seconds. *)
Example backoff_is_capped : backoffs 7 = [1; 2; 4; 8; 16; 30; 30]%Z.
Proof. reflexivity. Qed.

(** One logical request over the DeepSeek backend with an endpoint that
    never answers in time: four attempts of the outer loop, each of which
    posts four times inside [_send_request], sixteen POSTs in all. *)
Example one_request_sixteen_posts :
  option_map
    (fun r => (BaseAIAssistant.attempts r, BaseAIAssistant.delays r,
               List.length (DeepSeekAIAssistant.posts (BaseAIAssistant.final r))))
    (BaseAIAssistant.request_ai_response (fun _ => None) (io_ret tt) (io_ret JNull)
       (DeepSeekAIAssistant._send_request Sample.dead_endpoint 3 60)
       (fun response => io_ret response)
       (fun _ w => w) 3 "" (DeepSeekAIAssistant.mkNet [] []))
  = Some (4%nat, [1; 2; 4]%Z, 16%nat).
Proof. vm_compute. reflexivity. Qed.

(** ** The growth of the per-attempt timeout *)

Lemma qmin_cases :
  forall a b : Q, (a <= b /\ qmin a b = a) \/ (b < a /\ qmin a b = b).
Proof.
  intros a b. unfold qmin. destruct (Qle_bool a b) eqn:E.
  - left. split; [now apply Qle_bool_iff|reflexivity].
  - right. split; [|reflexivity].
    apply Qnot_le_lt. intros H. apply Qle_bool_iff in H. congruence.
Qed.

Lemma grown_timeout_bounds :
  forall t : Q, 0 <= t -> t <= 120 ->
    t <= qmin (t * (3 # 2)) 120 /\ qmin (t * (3 # 2)) 120 <= 120.
Proof.
  intros t H0 H120.
  destruct (qmin_cases (t * (3 # 2)) 120) as [[Hle ->]|[Hlt ->]]; split; lra.
Qed.

Section SendRequestFacts.

Variable endpoint : json -> nat -> Q -> DeepSeekAIAssistant.reply.
Variable max_retries : Z.

(** From a timeout between 0 and the ceiling, the loop appends to the
    record of the connection a run of timeouts that start at the current
    one, never go down and stay under the ceiling. *)
Lemma send_loop_timeouts :
  forall (request_data : json) (attempts_left : list Z) (t : Q)
         (w : DeepSeekAIAssistant.net),
    0 <= t -> t <= 120 ->
    exists used,
      DeepSeekAIAssistant.posts
        (fst (DeepSeekAIAssistant.send_loop endpoint max_retries request_data
                attempts_left t w))
      = DeepSeekAIAssistant.posts w ++ used
      /\ Forall (fun u => t <= u /\ u <= 120) used
      /\ Sorted Qle used.
Proof.
  intros request_data attempts_left.
  induction attempts_left as [|attempt later IH]; intros t w H0 H120.
  - exists []. cbn. rewrite app_nil_r. repeat constructor.
  - cbn [DeepSeekAIAssistant.send_loop].
    assert (Hone : exists used,
               DeepSeekAIAssistant.posts (DeepSeekAIAssistant.post_with t w)
               = DeepSeekAIAssistant.posts w ++ used
               /\ Forall (fun u => t <= u /\ u <= 120) used /\ Sorted Qle used).
    { exists [t]. split; [reflexivity|]. split.
      - constructor; [split; lra|constructor].
      - repeat constructor. }
    assert (Hmore : forall t' z,
               t <= t' -> t' <= 120 ->
               exists used,
                 DeepSeekAIAssistant.posts
                   (fst (DeepSeekAIAssistant.send_loop endpoint max_retries request_data
                           later t'
                           (DeepSeekAIAssistant.sleep z (DeepSeekAIAssistant.post_with t w))))
                 = DeepSeekAIAssistant.posts w ++ used
                 /\ Forall (fun u => t <= u /\ u <= 120) used /\ Sorted Qle used).
    { intros t' z Ht Ht'.
      destruct (IH t' (DeepSeekAIAssistant.sleep z (DeepSeekAIAssistant.post_with t w)))
        as [used [Hposts [Hall Hsorted]]]; [lra|lra|].
      exists (t :: used). split.
      - rewrite Hposts. cbn. rewrite <- app_assoc. reflexivity.
      - split.
        + constructor; [split; lra|].
          eapply Forall_impl; [|exact Hall]. cbv beta. intros u [Hu Hu']. split; lra.
        + constructor; [exact Hsorted|].
          destruct used as [|u rest]; constructor.
          apply Forall_inv in Hall. lra. }
    destruct (endpoint request_data _ t) as [body| |status_code| |e].
    + exact Hone.
    + destruct (attempt =? max_retries)%Z; [exact Hone|].
      destruct (grown_timeout_bounds H0 H120). apply Hmore; assumption.
    + destruct ((attempt =? max_retries)%Z || (500 <=? status_code)%Z); [exact Hone|].
      apply Hmore; lra.
    + destruct (attempt =? max_retries)%Z; [exact Hone|].
      apply Hmore; lra.
    + exact Hone.
Qed.

End SendRequestFacts.

(** C5, as the code has it.  For every configured timeout between 0 and
    the ceiling of 120 seconds, whatever the endpoint answers, the
    timeouts that one call of [_send_request] (or [_send_request_async])
    grants to its successive POSTs never go down and never exceed 120
    seconds. *)
Theorem timeout_growth_bounded :
  forall (endpoint : json -> nat -> Q -> DeepSeekAIAssistant.reply)
         (max_retries timeout : Z) (request_data : json)
         (w : DeepSeekAIAssistant.net),
    (0 <= timeout <= 120)%Z ->
    exists used : list Q,
      DeepSeekAIAssistant.posts
        (fst (DeepSeekAIAssistant._send_request endpoint max_retries timeout request_data w))
      = DeepSeekAIAssistant.posts w ++ used
      /\ DeepSeekAIAssistant.posts
           (fst (DeepSeekAIAssistant._send_request_async endpoint max_retries timeout
                   request_data w))
         = DeepSeekAIAssistant.posts w ++ used
      /\ nondecreasing used
      /\ under_ceiling used.
Proof.
  intros endpoint max_retries timeout request_data w [H0 H120].
  unfold DeepSeekAIAssistant._send_request, DeepSeekAIAssistant._send_request_async.
  destruct (@send_loop_timeouts endpoint max_retries request_data
              (range (max_retries + 1)) (inject_Z timeout) w)
    as [used [Hposts [Hall Hsorted]]].
  - change 0 with (inject_Z 0). rewrite <- Zle_Qle. exact H0.
  - change 120 with (inject_Z 120). rewrite <- Zle_Qle. exact H120.
  - exists used. split; [exact Hposts|]. split; [exact Hposts|]. split; [exact Hsorted|].
    eapply Forall_impl; [|exact Hall]. cbv beta. intros u [_ Hu]. exact Hu.
Qed.

Lemma timeout_growth_bounded_witness :
  exists used : list Q,
    DeepSeekAIAssistant.posts
      (fst (DeepSeekAIAssistant._send_request Sample.dead_endpoint 3 60 JNull
              (DeepSeekAIAssistant.mkNet [] [])))
    = [] ++ used
    /\ DeepSeekAIAssistant.posts
         (fst (DeepSeekAIAssistant._send_request_async Sample.dead_endpoint 3 60 JNull
                 (DeepSeekAIAssistant.mkNet [] [])))
       = [] ++ used
    /\ nondecreasing used
    /\ under_ceiling used.
Proof.
  apply (@timeout_growth_bounded Sample.dead_endpoint 3 60 JNull
           (DeepSeekAIAssistant.mkNet [] [])).
  lia.
Defined.

(** From the default of 60 seconds the timeouts of four timed-out POSTs
    are 60, 90, 120 and 120 seconds, with pauses of 1, 2 and 4 seconds. *)
Example timeouts_from_sixty :
  let w := fst (DeepSeekAIAssistant._send_request Sample.dead_endpoint 3 60 JNull
                  (DeepSeekAIAssistant.mkNet [] [])) in
  map Qred (DeepSeekAIAssistant.posts w) = [60; 90; 120; 120]
  /\ DeepSeekAIAssistant.slept w = [1; 2; 4]%Z.
Proof. vm_compute. split; reflexivity. Qed.

(** C5 as stated fails: configured with 200 seconds, the first POST is
    granted 200 seconds, above the ceiling, and the second 120 seconds,
    less than the first. *)
Lemma timeout_above_ceiling_shrinks :
  ~ (forall (endpoint : json -> nat -> Q -> DeepSeekAIAssistant.reply)
            (max_retries timeout : Z) (request_data : json),
        let used :=
          DeepSeekAIAssistant.posts
            (fst (DeepSeekAIAssistant._send_request endpoint max_retries timeout
                    request_data (DeepSeekAIAssistant.mkNet [] []))) in
        nondecreasing used /\ under_ceiling used).
Proof.
  intros H. destruct (H Sample.dead_endpoint 1%Z 200%Z JNull) as [_ Hunder].
  vm_compute in Hunder. inversion Hunder as [|t rest Hhead _]. subst.
  apply Hhead. reflexivity.
Qed.

Example timeouts_from_two_hundred :
  DeepSeekAIAssistant.posts
    (fst (DeepSeekAIAssistant._send_request Sample.dead_endpoint 1 200 JNull
            (DeepSeekAIAssistant.mkNet [] [])))
  = [200; 120].
Proof. vm_compute. reflexivity. Qed.

(** ** The token bucket *)

Lemma qlt_true : forall a b : Q, qlt a b = true -> a < b.
Proof.
  intros a b H. unfold qlt in H. apply Qnot_le_lt. intros Hle.
  apply Qle_bool_iff in Hle. rewrite Hle in H. discriminate H.
Qed.

Lemma refill_keeps_capacity :
  forall (now : Q) (b : BaseAIAssistant.bucket),
    BaseAIAssistant.max_burst (BaseAIAssistant._refill_tokens now b)
    = BaseAIAssistant.max_burst b.
Proof.
  intros now b. unfold BaseAIAssistant._refill_tokens.
  destruct (qlt 0 _); reflexivity.
Qed.

Lemma refill_under_capacity :
  forall (now : Q) (b : BaseAIAssistant.bucket),
    BaseAIAssistant.tokens b <= BaseAIAssistant.max_burst b ->
    BaseAIAssistant.tokens (BaseAIAssistant._refill_tokens now b)
    <= BaseAIAssistant.max_burst b.
Proof.
  intros now b H. unfold BaseAIAssistant._refill_tokens.
  destruct (qlt 0 _); cbn; [|exact H].
  destruct (qmin_cases (BaseAIAssistant.max_burst b)
              (BaseAIAssistant.tokens b
               + (now - BaseAIAssistant.last_refill_time b)
                 * BaseAIAssistant.token_refill_rate b)) as [[Hle ->]|[Hlt ->]]; lra.
Qed.

Lemma refill_ok :
  forall (now : Q) (b : BaseAIAssistant.bucket),
    bucket_ok b -> bucket_ok (BaseAIAssistant._refill_tokens now b).
Proof.
  intros now b [H0 Hcap]. split.
  - unfold BaseAIAssistant._refill_tokens.
    destruct (qlt 0 _) eqn:E; cbn; [|exact H0].
    apply qlt_true in E.
    destruct (qmin_cases (BaseAIAssistant.max_burst b)
                (BaseAIAssistant.tokens b
                 + (now - BaseAIAssistant.last_refill_time b)
                   * BaseAIAssistant.token_refill_rate b)) as [[Hle ->]|[Hlt ->]]; lra.
  - rewrite refill_keeps_capacity. apply refill_under_capacity. exact Hcap.
Qed.

Lemma refill_async_same :
  forall (now : Q) (b : BaseAIAssistant.bucket),
    BaseAIAssistant._refill_tokens_async now b = BaseAIAssistant._refill_tokens now b.
Proof. reflexivity. Qed.

Lemma debit_ok :
  forall (n : Z) (b : BaseAIAssistant.bucket),
    (0 <= n)%Z -> bucket_ok b ->
    Qle_bool (inject_Z n) (BaseAIAssistant.tokens b) = true ->
    bucket_ok (BaseAIAssistant.debit n b).
Proof.
  intros n b Hn [H0 Hcap] Hle. apply Qle_bool_iff in Hle.
  assert (0 <= inject_Z n) by (change 0 with (inject_Z 0); now rewrite <- Zle_Qle).
  split; cbn; lra.
Qed.

Lemma acquire_ok :
  forall (n : Z) (clock : list Q) (b : BaseAIAssistant.bucket),
    (0 <= n)%Z -> bucket_ok b ->
    bucket_ok (fst (BaseAIAssistant._acquire_token n clock b)).
Proof.
  intros n clock. induction clock as [|now later IH]; intros b Hn Hb; [exact Hb|].
  cbn [BaseAIAssistant._acquire_token].
  pose proof (refill_ok now Hb) as Hb'.
  destruct (Qle_bool _ _) eqn:E; [now apply debit_ok|].
  destruct (Qeq_bool _ 0); [exact Hb'|].
  destruct (qlt _ 0); [exact Hb'|].
  apply IH; assumption.
Qed.

Lemma acquire_async_ok :
  forall (n : Z) (clock : list Q) (b : BaseAIAssistant.bucket),
    (0 <= n)%Z -> bucket_ok b ->
    bucket_ok (fst (BaseAIAssistant._acquire_token_async n clock b)).
Proof.
  intros n clock. induction clock as [|now later IH]; intros b Hn Hb; [exact Hb|].
  cbn [BaseAIAssistant._acquire_token_async]. rewrite refill_async_same.
  pose proof (refill_ok now Hb) as Hb'.
  destruct (Qle_bool _ _) eqn:E; [now apply debit_ok|].
  destruct (Qeq_bool _ 0); [exact Hb'|].
  apply IH; assumption.
Qed.

Lemma acquired_not_negative :
  forall (n : Z) (clock : list Q) (b : BaseAIAssistant.bucket),
    snd (BaseAIAssistant._acquire_token n clock b) = BaseAIAssistant.Acquired ->
    0 <= BaseAIAssistant.tokens (fst (BaseAIAssistant._acquire_token n clock b)).
Proof.
  intros n clock. induction clock as [|now later IH]; intros b; [discriminate|].
  cbn [BaseAIAssistant._acquire_token].
  destruct (Qle_bool _ _) eqn:E.
  - intros _. apply Qle_bool_iff in E. cbn. lra.
  - destruct (Qeq_bool _ 0); [discriminate|].
    destruct (qlt _ 0); [discriminate|]. apply IH.
Qed.

Lemma history_ok :
  forall (calls : list BaseAIAssistant.call) (b : BaseAIAssistant.bucket),
    bucket_ok b -> Forall sane_call calls ->
    Forall bucket_ok (BaseAIAssistant.bucket_history calls b).
Proof.
  induction calls as [|c rest IH]; intros b Hb Hcalls; [constructor|].
  cbn [BaseAIAssistant.bucket_history].
  assert (Hstep : bucket_ok (BaseAIAssistant.run_call c b)).
  { apply Forall_inv in Hcalls. destruct c as [now|n clock|n clock]; cbn in *.
    - now apply refill_ok.
    - now apply acquire_ok.
    - now apply acquire_async_ok. }
  constructor; [exact Hstep|].
  apply IH; [exact Hstep|]. now apply Forall_inv_tail in Hcalls.
Qed.

(** C4.  A bucket built by the constructor with a capacity that is not
    negative satisfies 0 <= tokens <= max_burst, and so does the bucket
    after every call of any sequence of refills and acquisitions (sync
    or async, each asking for a number of tokens that is not negative,
    whatever the clock reads).  Moreover a refill never takes tokens
    above the capacity, and after a successful acquisition the tokens
    are never negative. *)
Theorem token_bucket_invariant :
  forall (rate_limit_per_minute max_burst : Z) (start : Q)
         (calls : list BaseAIAssistant.call),
    (0 <= max_burst)%Z ->
    Forall sane_call calls ->
    let b0 := BaseAIAssistant.init_bucket rate_limit_per_minute max_burst start in
    Forall bucket_ok (b0 :: BaseAIAssistant.bucket_history calls b0)
    /\ (forall (now : Q) (b : BaseAIAssistant.bucket),
          BaseAIAssistant.tokens b <= BaseAIAssistant.max_burst b ->
          BaseAIAssistant.tokens (BaseAIAssistant._refill_tokens now b)
          <= BaseAIAssistant.max_burst b)
    /\ (forall (n : Z) (clock : list Q) (b : BaseAIAssistant.bucket),
          snd (BaseAIAssistant._acquire_token n clock b) = BaseAIAssistant.Acquired ->
          0 <= BaseAIAssistant.tokens (fst (BaseAIAssistant._acquire_token n clock b))).
Proof.
  intros rate_limit_per_minute max_burst start calls Hburst Hcalls b0.
  assert (Hb0 : bucket_ok b0).
  { split; cbn.
    - change 0 with (inject_Z 0). now rewrite <- Zle_Qle.
    - apply Qle_refl. }
  split; [|split].
  - constructor; [exact Hb0|]. now apply history_ok.
  - apply refill_under_capacity.
  - apply acquired_not_negative.
Qed.

Lemma token_bucket_invariant_witness :
  let b0 := BaseAIAssistant.init_bucket 20 10 0 in
  Forall bucket_ok
    (b0 :: BaseAIAssistant.bucket_history
             [BaseAIAssistant.CallAcquire 1 [1]; BaseAIAssistant.CallRefill 30;
              BaseAIAssistant.CallAcquireAsync 4 [31; 32]] b0).
Proof.
  apply (@token_bucket_invariant 20 10 0
           [BaseAIAssistant.CallAcquire 1 [1]; BaseAIAssistant.CallRefill 30;
            BaseAIAssistant.CallAcquireAsync 4 [31; 32]]).
  - lia.
  - repeat constructor; cbn; lia.
Defined.

(** Ten tokens, one taken after a second: the refill is capped at ten
    before the debit leaves nine. *)
Example bucket_sample :
  let b := fst (BaseAIAssistant._acquire_token 1 [1]
                  (BaseAIAssistant.init_bucket 20 10 0)) in
  Qred (BaseAIAssistant.tokens b) = 9.
Proof. vm_compute. reflexivity. Qed.

(** An empty bucket makes the caller wait until the refill brings a
    whole token: with 20 tokens per minute that is after three seconds. *)
Example bucket_waits :
  let empty := BaseAIAssistant.mkBucket 10 (1 # 3) 0 0 in
  snd (BaseAIAssistant._acquire_token 1 [1; 2] empty) = BaseAIAssistant.Waiting
  /\ snd (BaseAIAssistant._acquire_token 1 [1; 2; 3] empty) = BaseAIAssistant.Acquired.
Proof. vm_compute. split; reflexivity. Qed.

(** ** Salvaging a JSON object from a response text *)

Lemma get_empty : forall i, String.get i EmptyString = None.
Proof. destruct i; reflexivity. Qed.

Lemma find_char_spec :
  forall (c : ascii) (s : string),
    (find_char c s = (-1)%Z /\ ~ occurs c s)
    \/ (exists i, find_char c s = Z.of_nat i /\ first_index c s i).
Proof.
  intros c s. induction s as [|a rest IH].
  - left. split; [reflexivity|]. intros [i Hi]. rewrite get_empty in Hi. discriminate.
  - cbn [find_char]. destruct (Ascii.eqb_spec a c) as [->|Hne].
    + right. exists 0%nat. split; [reflexivity|]. split; [reflexivity|]. intros k Hk; lia.
    + destruct IH as [[Hnone Hno]|[i [Hi [Hget Hbefore]]]].
      * left. rewrite Hnone. cbn. split; [reflexivity|].
        intros [[|k] Hk]; cbn in Hk; [congruence|]. apply Hno. now exists k.
      * right. exists (S i). rewrite Hi.
        destruct (Z.ltb_spec (Z.of_nat i) 0); [lia|]. split; [lia|].
        split; [exact Hget|]. intros [|k] Hk; cbn; [congruence|]. apply Hbefore. lia.
Qed.

Lemma rfind_char_spec :
  forall (c : ascii) (s : string),
    (rfind_char c s = (-1)%Z /\ ~ occurs c s)
    \/ (exists j, rfind_char c s = Z.of_nat j /\ last_index c s j).
Proof.
  intros c s. induction s as [|a rest IH].
  - left. split; [reflexivity|]. intros [i Hi]. rewrite get_empty in Hi. discriminate.
  - cbn [rfind_char]. destruct IH as [[Hnone Hno]|[j [Hj [Hget Hafter]]]].
    + rewrite Hnone. cbn. destruct (Ascii.eqb_spec a c) as [->|Hne].
      * right. exists 0%nat. split; [reflexivity|]. split; [reflexivity|].
        intros [|k] Hk; [lia|]. cbn. intros Hk'. apply Hno. now exists k.
      * left. split; [reflexivity|].
        intros [[|k] Hk]; cbn in Hk; [congruence|]. apply Hno. now exists k.
    + right. exists (S j). rewrite Hj.
      destruct (Z.leb_spec 0 (Z.of_nat j)); [|lia]. split; [lia|].
      split; [exact Hget|]. intros [|k] Hk; [lia|]. cbn. apply Hafter. lia.
Qed.

Lemma first_index_unique :
  forall c s i i', first_index c s i -> first_index c s i' -> i = i'.
Proof.
  intros c s i i' [Hi Hb] [Hi' Hb'].
  destruct (Nat.lt_trichotomy i i') as [Hlt|[Heq|Hgt]]; [|exact Heq|].
  - exfalso. apply (Hb' i Hlt Hi).
  - exfalso. apply (Hb i' Hgt Hi').
Qed.

Lemma last_index_unique :
  forall c s j j', last_index c s j -> last_index c s j' -> j = j'.
Proof.
  intros c s j j' [Hj Ha] [Hj' Ha'].
  destruct (Nat.lt_trichotomy j j') as [Hlt|[Heq|Hgt]]; [|exact Heq|].
  - exfalso. apply (Ha j' Hlt Hj').
  - exfalso. apply (Ha' j Hgt Hj).
Qed.

Lemma get_some_in_range :
  forall s i c, String.get i s = Some c -> (i < String.length s)%nat.
Proof.
  induction s as [|a rest IH]; intros i c H.
  - rewrite get_empty in H. discriminate.
  - destruct i as [|i]; cbn in *; [lia|]. apply IH in H. lia.
Qed.

(** The slice that the code takes is the text between the two braces. *)
Lemma slice_is_between :
  forall (s : string) (i j : nat) (c c' : ascii),
    String.get i s = Some c -> String.get j s = Some c' ->
    slice s (Z.of_nat i) (Z.of_nat j + 1) = between s i j.
Proof.
  intros s i j c c' Hi Hj.
  apply get_some_in_range in Hi. apply get_some_in_range in Hj.
  unfold slice, between, clip_index.
  destruct (Z.ltb_spec (Z.of_nat i) 0); [lia|].
  destruct (Z.ltb_spec (Z.of_nat j + 1) 0); [lia|].
  replace (Z.to_nat (Z.min (Z.of_nat i) (Z.of_nat (String.length s)))) with i by lia.
  replace (Z.to_nat (Z.min (Z.of_nat j + 1) (Z.of_nat (String.length s))))
    with (j + 1)%nat by lia.
  reflexivity.
Qed.

(** C8, at the point where the code parts from it.  The first handler
    of [_validate_json_response] names [json.JSONDecodeError] alone: any
    other exception of the first [json.loads] leaves the function as it
    is.  The text between the braces is then not tried, though it may
    parse and the docstring promises [ValueError] for every text that
    is not JSON, and the exception need not be [ValueError]. *)
Theorem first_parse_error_escapes :
  forall (json_loads : string -> res json) (text : string) (e : exn),
    json_loads text = Raise e ->
    e <> JSONDecodeError ->
    BaseAIAssistant._validate_json_response json_loads text = Raise e.
Proof.
  intros json_loads text e Hwhole Hother.
  unfold BaseAIAssistant._validate_json_response. rewrite Hwhole.
  destruct e; try reflexivity. contradiction Hother. reflexivity.
Qed.

Lemma first_parse_error_escapes_witness :
  BaseAIAssistant._validate_json_response Sample.shallow_loads "[[[{}"
  = Raise RecursionError.
Proof.
  apply (@first_parse_error_escapes Sample.shallow_loads "[[[{}" RecursionError).
  - reflexivity.
  - discriminate.
Defined.

(** Three opening brackets before an empty object: the whole text does
    not parse, the text between the first opening brace and the last
    closing brace does, and the call raises [RecursionError] all the
    same. *)
Example nested_text_is_not_salvaged :
  String.get 3 "[[[{}" = Some "{"%char
  /\ String.get 4 "[[[{}" = Some "}"%char
  /\ Sample.shallow_loads (between "[[[{}" 3 4) = Ret (JObj [])
  /\ BaseAIAssistant._validate_json_response Sample.shallow_loads "[[[{}"
     = Raise RecursionError.
Proof. repeat split; reflexivity. Qed.

(** ** The shape validator *)

Lemma for_all_true :
  forall (A : Type) (body : A -> res bool) (l : list A),
    for_all body l = Ret true <-> Forall (fun x => body x = Ret true) l.
Proof.
  intros A body l. induction l as [|x rest IH]; cbn.
  - split; [constructor|reflexivity].
  - destruct (body x) as [[|]|e] eqn:E; cbn.
    + rewrite IH. split.
      * intros H. constructor; assumption.
      * intros H. now apply Forall_inv_tail in H.
    + split; [discriminate|]. intros H. apply Forall_inv in H. congruence.
    + split; [discriminate|]. intros H. apply Forall_inv in H. congruence.
Qed.

Lemma lstrip_nil_iff :
  forall l : list ascii, lstrip_chars l = [] <-> forallb isspace l = true.
Proof.
  induction l as [|c rest IH]; cbn; [tauto|].
  destruct (isspace c); cbn; [exact IH|]. split; discriminate.
Qed.

Lemma lstrip_all_space :
  forall l : list ascii,
    forallb isspace (lstrip_chars l) = true <-> forallb isspace l = true.
Proof.
  induction l as [|c rest IH]; cbn; [tauto|].
  destruct (isspace c) eqn:E; cbn; [exact IH|]. rewrite E. tauto.
Qed.

Lemma forallb_rev :
  forall (A : Type) (f : A -> bool) (l : list A), forallb f (rev l) = forallb f l.
Proof.
  intros A f l. induction l as [|x rest IH]; cbn; [reflexivity|].
  rewrite forallb_app, IH. cbn. rewrite andb_true_r. apply andb_comm.
Qed.

Lemma strip_blank :
  forall s : string, String.eqb (strip s) "" = true <-> blank s.
Proof.
  intros s. unfold strip, blank. rewrite String.eqb_eq.
  set (l := list_ascii_of_string s).
  rewrite <- lstrip_all_space, <- forallb_rev, <- lstrip_nil_iff.
  split.
  - intros H. destruct (lstrip_chars (rev (lstrip_chars l))) as [|c m]; [reflexivity|].
    cbn in H. destruct (rev m ++ [c]) eqn:E; [|discriminate].
    apply app_eq_nil in E. destruct E; discriminate.
  - intros ->. reflexivity.
Qed.

Lemma check_item_true :
  forall item : json, BaseAIAssistant.check_item item = Ret true <-> element_ok item.
Proof.
  intros item. unfold BaseAIAssistant.check_item, element_ok.
  destruct item as [| b | q | s | l | fields]; cbn;
    try (split; [discriminate | intros [fs [Hfs _]]; discriminate]).
  rewrite for_all_true. split.
  - intros H. exists fields. split; [reflexivity|].
    eapply Forall_impl; [|exact H]. cbv beta. intros [k v] Hkv. cbn in *.
    destruct v as [| b | q | s | l | fs]; cbn in Hkv; try discriminate.
    exists s. split; [reflexivity|]. rewrite <- strip_blank.
    destruct (String.eqb (strip s) ""); cbn in Hkv; congruence.
  - intros [fs [Hfs H]]. injection Hfs as <-.
    eapply Forall_impl; [|exact H]. cbv beta. intros [k v] [s [Hs Hnb]]. cbn in *.
    subst v. cbn. rewrite <- strip_blank in Hnb.
    destruct (String.eqb (strip s) ""); [exfalso; now apply Hnb|reflexivity].
Qed.

Lemma for_all_raises_at_head :
  forall (A : Type) (body : A -> res bool) (x : A) (rest : list A) (e : exn),
    body x = Raise e -> for_all body (x :: rest) = Raise e.
Proof. intros A body x rest e H. cbn. rewrite H. reflexivity. Qed.

Lemma check_list_key_true :
  forall (response_json : dict) (key : string),
    BaseAIAssistant.check_list_key response_json key = Ret true
    <-> list_key_ok response_json key.
Proof.
  intros response_json key.
  unfold BaseAIAssistant.check_list_key, list_key_ok, dict_mem, getitem.
  destruct (dict_get response_json key) as [v|]; cbn.
  2:{ split; [discriminate|]. intros [elems [H _]]; discriminate. }
  destruct v as [| b | q | s | l | fields]; cbn;
    try (split; [discriminate | intros [elems [H _]]; discriminate]).
  - (* a string: its characters have no [items] *)
    split; [|intros [elems [H _]]; discriminate].
    destruct s as [|c rest]; cbn; discriminate.
  - (* a list *)
    destruct l as [|x rest].
    + cbn. split; [discriminate|]. intros [elems [H [Hne _]]].
      injection H as <-. now contradiction Hne.
    + cbn [List.length Nat.eqb]. rewrite for_all_true. split.
      * intros H. exists (x :: rest). split; [reflexivity|]. split; [discriminate|].
        eapply Forall_impl; [|exact H]. intros it. apply check_item_true.
      * intros [elems [H [_ Hall]]]. injection H as <-.
        eapply Forall_impl; [|exact Hall]. intros it. apply check_item_true.
  - (* a dict: its keys have no [items] *)
    split; [|intros [elems [H _]]; discriminate].
    destruct fields as [|[k v] rest]; cbn; discriminate.
Qed.

Lemma check_dict_key_true :
  forall (response_json : dict) (key : string) (sub_format : dict),
    BaseAIAssistant.check_dict_key response_json key sub_format = Ret true
    <-> Forall (fun kv => exists v, dict_get response_json key = Some v
                                    /\ contains v (fst kv) = Ret true) sub_format.
Proof.
  intros response_json key sub_format. unfold BaseAIAssistant.check_dict_key.
  rewrite for_all_true. split; intros H; (eapply Forall_impl; [|exact H]);
    cbv beta; intros [k fv]; cbn; unfold getitem.
  - destruct (dict_get response_json key) as [v|]; cbn; [|discriminate].
    intros Hc. exists v. split; [reflexivity|].
    destruct (contains v k) as [[|]|e]; cbn in Hc; congruence.
  - intros [v [-> Hc]]. cbn. rewrite Hc. reflexivity.
Qed.

Lemma check_key_true :
  forall (response_json : dict) (entry : string * json),
    BaseAIAssistant.check_key response_json entry = Ret true <-> key_ok response_json entry.
Proof.
  intros response_json [key format_value]. unfold BaseAIAssistant.check_key, key_ok.
  cbn [fst snd]. destruct (str_in key BaseAIAssistant.LIST_KEYS).
  - apply check_list_key_true.
  - destruct format_value as [| b | q | s | l | sub_format];
      try (unfold dict_mem; destruct (dict_get response_json key);
           split; congruence).
    apply check_dict_key_true.
Qed.

Lemma validate_response_format_true :
  forall (json_loads : string -> option json) (response_json : dict)
         (format_text : string) (fields : dict),
    json_loads format_text = Some (JObj fields) ->
    (BaseAIAssistant._validate_response_format json_loads response_json format_text = true
     <-> Forall (key_ok response_json) fields).
Proof.
  intros json_loads response_json format_text fields Hparse.
  unfold BaseAIAssistant._validate_response_format, BaseAIAssistant.validate_against.
  rewrite Hparse. cbn.
  assert (Hiff : for_all (BaseAIAssistant.check_key response_json) fields = Ret true
                 <-> Forall (key_ok response_json) fields).
  { rewrite for_all_true.
    split; intros H; (eapply Forall_impl; [|exact H]); intros entry; apply check_key_true. }
  rewrite <- Hiff.
  destruct (for_all (BaseAIAssistant.check_key response_json) fields) as [[|]|e];
    split; congruence.
Qed.

(** C1, as the code has it.  Whenever the template text parses to an
    object, validation answers true exactly when every entry of the
    template is satisfied: a key among the four list keys
    (possible_damage_scenario_list, possible_threat_scenario_list,
    possible_attack_path_list, asset_cybersecurity_requirement_list) must
    be present in the payload as a sequence that is not empty and whose
    elements are objects with only non-blank string fields; any other key
    whose template value is an object must hold every nested key name;
    any other key, a sequence template included, must only be present.
    So under the key list_key the payload with a blank field and the
    payload without one are both accepted and the payload without the key
    is rejected, while under possible_attack_path_list the blank field is
    rejected, the payload without blank field is accepted and the payload
    without the key is rejected. *)
Theorem validator_contract :
  forall (json_loads : string -> option json) (format_text : string),
    (forall (response_json : dict) (fields : dict),
        json_loads format_text = Some (JObj fields) ->
        (BaseAIAssistant._validate_response_format json_loads response_json format_text = true
         <-> Forall (key_ok response_json) fields))
    /\ (json_loads format_text = Some (Sample.template "list_key") ->
        BaseAIAssistant._validate_response_format json_loads
          (Sample.payload_blank "list_key") format_text = true
        /\ BaseAIAssistant._validate_response_format json_loads
             (Sample.payload_good "list_key") format_text = true
        /\ BaseAIAssistant._validate_response_format json_loads
             Sample.payload_missing format_text = false)
    /\ (json_loads format_text = Some (Sample.template "possible_attack_path_list") ->
        BaseAIAssistant._validate_response_format json_loads
          (Sample.payload_blank "possible_attack_path_list") format_text = false
        /\ BaseAIAssistant._validate_response_format json_loads
             (Sample.payload_good "possible_attack_path_list") format_text = true
        /\ BaseAIAssistant._validate_response_format json_loads
             Sample.payload_missing format_text = false).
Proof.
  intros json_loads format_text. split; [|split].
  - intros response_json fields Hparse. now apply validate_response_format_true.
  - intros Hparse. unfold BaseAIAssistant._validate_response_format. rewrite Hparse.
    repeat split; reflexivity.
  - intros Hparse. unfold BaseAIAssistant._validate_response_format. rewrite Hparse.
    repeat split; reflexivity.
Qed.

Lemma validator_contract_witness :
  BaseAIAssistant._validate_response_format (fun _ => Some (Sample.template "list_key"))
    (Sample.payload_blank "list_key") "template" = true
  /\ BaseAIAssistant._validate_response_format (fun _ => Some (Sample.template "list_key"))
       (Sample.payload_good "list_key") "template" = true
  /\ BaseAIAssistant._validate_response_format (fun _ => Some (Sample.template "list_key"))
       Sample.payload_missing "template" = false.
Proof.
  apply (proj1 (proj2 (validator_contract
                         (fun _ => Some (Sample.template "list_key")) "template"))).
  reflexivity.
Defined.

(** C1 as stated fails on its first example: under the key list_key the
    payload whose second element has a blank field is accepted. *)
Lemma blank_field_under_other_key_accepted :
  BaseAIAssistant._validate_response_format (fun _ => Some (Sample.template "list_key"))
    (Sample.payload_blank "list_key") "template" <> false.
Proof. vm_compute. discriminate. Qed.

(** A value that is not a list under a list key is rejected whatever it
    holds, and so is a list element that is not an object. *)
Example list_key_needs_a_list :
  BaseAIAssistant.validate_against
    [("possible_attack_path_list"%string, JStr "attack")]
    (Sample.template "possible_attack_path_list") = Raise AttributeError
  /\ BaseAIAssistant.validate_against
       [("possible_attack_path_list"%string, JList [JStr "attack"])]
       (Sample.template "possible_attack_path_list") = Raise AttributeError
  /\ BaseAIAssistant._validate_response_format
       (fun _ => Some (Sample.template "possible_attack_path_list"))
       [("possible_attack_path_list"%string, JList [JStr "attack"])] "template" = false.
Proof. repeat split; reflexivity. Qed.

(** ** The conditional stage *)

Lemma same_upstream_refl : forall a, same_upstream a a.
Proof. intros a. repeat split. Qed.

Lemma same_upstream_trans :
  forall a b c, same_upstream a b -> same_upstream b c -> same_upstream a c.
Proof.
  intros a b c [H1 [H2 [H3 H4]]] [K1 [K2 [K3 K4]]].
  repeat split; congruence.
Qed.

Lemma frames_bind :
  forall (A B : Type) (m : io Workflow.heap A) (k : A -> io Workflow.heap B),
    frames_upstream m -> (forall a, frames_upstream (k a)) -> frames_upstream (io_bind m k).
Proof.
  intros A B m k Hm Hk h. unfold io_bind.
  specialize (Hm h). destruct (m h) as [h1 [a|e]]; cbn in *; [|exact Hm].
  eapply same_upstream_trans; [exact Hm|apply Hk].
Qed.

Lemma frames_requirement :
  forall m : io CybersecurityControlRequirement.t unit,
    frames_upstream (Workflow.on_artifact (Workflow.on_requirement m)).
Proof.
  intros m h. unfold Workflow.on_artifact, Workflow.on_requirement.
  destruct (AssetTaraInfo.cybersecurity_control_requirement (Workflow.artifact h)) as [c|].
  - destruct (m c) as [c' r]. cbn. repeat split.
  - cbn. apply same_upstream_refl.
Qed.

Lemma frames_field :
  forall (d : dict) (k : string), frames_upstream (Workflow.field d k).
Proof. intros d k h. apply same_upstream_refl. Qed.

Section ConditionalStage.

Variable generator : nat -> Workflow.request -> option dict.
Variable prepare_for_ai05 : AssetTaraInfo.t -> string.
Variable get_prompt08 cso_csr_format : string.
Variable short_hash : string -> Z -> string.
Variable time_ms : nat -> Z.

Lemma frames_analyze :
  forall msg prompt format_text,
    frames_upstream (Workflow.analyze_asset generator msg prompt format_text).
Proof.
  intros msg prompt format_text h. unfold Workflow.analyze_asset.
  destruct (_ || _); [apply same_upstream_refl|].
  destruct (generator _ _); apply same_upstream_refl.
Qed.

(** Whatever the decision and whatever the generator answers, the stage
    changes nothing in the artifact but its control requirement. *)
Lemma cso_csr_frames_upstream :
  frames_upstream (Workflow.asset_cso_csr_assessment generator prepare_for_ai05
                     get_prompt08 cso_csr_format short_hash time_ms).
Proof.
  unfold Workflow.asset_cso_csr_assessment.
  apply frames_bind; [intros h; cbn; repeat split|intros _].
  apply frames_bind.
  { intros h. unfold Workflow.decision_is_reduce.
    destruct (AssetTaraInfo.risk_treatment_decision _) as [d|]; [|apply same_upstream_refl].
    destruct (RiskTreatmentDecision.risk_treatment d); apply same_upstream_refl. }
  intros [|]; [|intros h; apply same_upstream_refl].
  apply frames_bind; [intros h; apply frames_analyze|intros analysis_result].
  unfold Workflow.populate_requirement.
  repeat (first
    [ apply frames_requirement
    | apply frames_field
    | apply frames_bind; [|intros ?] ]).
  intros h. apply frames_requirement.
Qed.

Lemma keeps_issued_bind :
  forall (A B : Type) (m : io Workflow.heap A) (k : A -> io Workflow.heap B),
    keeps_issued m -> (forall a, keeps_issued (k a)) -> keeps_issued (io_bind m k).
Proof.
  intros A B m k Hm Hk h. unfold io_bind.
  specialize (Hm h). destruct (m h) as [h1 [a|e]]; cbn in *.
  - rewrite Hk. exact Hm.
  - exact Hm.
Qed.

Lemma keeps_issued_on_artifact :
  forall (A : Type) (m : io AssetTaraInfo.t A), keeps_issued (Workflow.on_artifact m).
Proof.
  intros A m h. unfold Workflow.on_artifact.
  destruct (m (Workflow.artifact h)); reflexivity.
Qed.

(** The assignments after the request issue no request of their own. *)
Lemma populate_keeps_issued :
  forall analysis_result : dict,
    keeps_issued (Workflow.populate_requirement short_hash time_ms analysis_result).
Proof.
  intros analysis_result. unfold Workflow.populate_requirement.
  repeat (first
    [ apply keeps_issued_on_artifact
    | apply keeps_issued_bind; [|intros ?] ]);
    try (intros h; reflexivity).
  intros h. apply keeps_issued_on_artifact.
Qed.

(** With the four fields in the response and a requirement text that is
    a string, the assignments go through. *)
Lemma populate_result :
  forall (response : dict) (control device rid : json) (text : string)
         (h : Workflow.heap) (c : CybersecurityControlRequirement.t),
    dict_get response "cybersecurity_control" = Some control ->
    dict_get response "allocated_to_device" = Some device ->
    dict_get response "cybersecurity_requirement_id" = Some rid ->
    dict_get response "cybersecurity_requirement" = Some (JStr text) ->
    AssetTaraInfo.cybersecurity_control_requirement (Workflow.artifact h) = Some c ->
    exists h',
      Workflow.populate_requirement short_hash time_ms response h = (h', Ret tt)
      /\ AssetTaraInfo.cybersecurity_control_requirement (Workflow.artifact h')
         = Some (CybersecurityControlRequirement.mk
                   (CybersecurityControlRequirement.cybersecurity_control_id c)
                   control device
                   (JStr ("CSR-" ++ short_hash text
                                      (time_ms (List.length (Workflow.issued h)))))
                   (JStr text)).
Proof.
  intros response control device rid text [[a1 a2 a3 a4 a5] iss sl] c H1 H2 H3 H4 Hc.
  cbn in Hc. subst a5.
  unfold Workflow.populate_requirement, Workflow.field, getitem, io_bind.
  rewrite H1, H2, H3, H4. cbn. eexists. split; reflexivity.
Qed.

(** X26.  The stage on a decided artifact.  For an artifact whose
    decision is set to an
    option other than REDUCE, the stage (sync or async) issues no request
    and returns the artifact with an empty control requirement attached
    and every other field unchanged.  For an artifact whose decision is
    REDUCE, the stage issues exactly one request, built from the artifact
    with the empty requirement attached (its serialisation and the prompt
    are not empty in the source), leaves every field but the control
    requirement unchanged, and, when the response holds the four
    fields and the requirement text is a string, returns with the
    control, the allocation and the requirement taken from the response
    and a requirement identifier regenerated from the text. *)
Theorem cso_csr_stage_is_conditional :
  forall (h : Workflow.heap) (o : RiskTreatmentOption.t),
    decided (Workflow.artifact h) = Some o ->
    let stage := Workflow.asset_cso_csr_assessment generator prepare_for_ai05
                   get_prompt08 cso_csr_format short_hash time_ms in
    let stage_async := Workflow.asset_cso_csr_assessment_async generator prepare_for_ai05
                         get_prompt08 cso_csr_format short_hash time_ms in
    let request := Workflow.mkRequest (prepare_for_ai05 (Workflow.artifact (passed_through h)))
                     get_prompt08 cso_csr_format in
    stage_async h = stage h
    /\ same_upstream (Workflow.artifact h) (Workflow.artifact (fst (stage h)))
    /\ (o <> RiskTreatmentOption.REDUCE -> stage h = (passed_through h, Ret tt))
    /\ (o = RiskTreatmentOption.REDUCE ->
        Workflow.msg request <> ""%string -> get_prompt08 <> ""%string ->
        Workflow.issued (fst (stage h)) = Workflow.issued h ++ [request]
        /\ forall (response : dict) (control device rid : json) (text : string),
             generator (List.length (Workflow.issued h)) request = Some response ->
             dict_get response "cybersecurity_control" = Some control ->
             dict_get response "allocated_to_device" = Some device ->
             dict_get response "cybersecurity_requirement_id" = Some rid ->
             dict_get response "cybersecurity_requirement" = Some (JStr text) ->
             snd (stage h) = Ret tt
             /\ AssetTaraInfo.cybersecurity_control_requirement (Workflow.artifact (fst (stage h)))
                = Some (CybersecurityControlRequirement.mk JNull control device
                          (JStr ("CSR-" ++ short_hash text
                                             (time_ms (S (List.length (Workflow.issued h))))))
                          (JStr text))).
Proof.
  intros h o Hdecided stage stage_async request.
  split; [reflexivity|]. split; [apply cso_csr_frames_upstream|].
  unfold decided in Hdecided.
  destruct (AssetTaraInfo.risk_treatment_decision (Workflow.artifact h)) as [d|] eqn:Hd;
    [|discriminate].
  assert (Hreduce : Workflow.decision_is_reduce (passed_through h)
                    = (passed_through h,
                       Ret (String.eqb (lower (RiskTreatmentOption.name o)) "reduce"))).
  { unfold Workflow.decision_is_reduce, passed_through. cbn. rewrite Hd, Hdecided.
    reflexivity. }
  split.
  - intros Hne. unfold stage, Workflow.asset_cso_csr_assessment.
    unfold io_bind at 1. unfold Workflow.on_artifact at 1, Workflow.assign at 1.
    fold (passed_through h). unfold io_bind at 1. rewrite Hreduce.
    destruct o; try reflexivity. now contradiction Hne.
  - intros -> Hmsg Hprompt.
    assert (Hgo : (String.eqb (Workflow.msg request) "" || String.eqb get_prompt08 "")%bool
                  = false).
    { apply orb_false_iff. split; now apply String.eqb_neq. }
    assert (Hstage : stage h
                     = io_bind (Workflow.analyze_asset generator (Workflow.msg request)
                                  get_prompt08 cso_csr_format)
                         (Workflow.populate_requirement short_hash time_ms)
                         (passed_through h)).
    { unfold stage, Workflow.asset_cso_csr_assessment.
      unfold io_bind at 1. unfold Workflow.on_artifact at 1, Workflow.assign at 1.
      fold (passed_through h). unfold io_bind at 1. rewrite Hreduce. reflexivity. }
    rewrite Hstage. clear Hstage.
    unfold io_bind, Workflow.analyze_asset. rewrite Hgo.
    change (Workflow.mkRequest (Workflow.msg request) get_prompt08 cso_csr_format)
      with request.
    change (Workflow.issued (passed_through h)) with (Workflow.issued h).
    destruct (generator (List.length (Workflow.issued h)) request) as [response|] eqn:Hgen.
    + split.
      * rewrite populate_keeps_issued. reflexivity.
      * intros response' control device rid text Hsome H1 H2 H3 H4.
        injection Hsome as <-.
        destruct (@populate_result response control device rid text
                    (Workflow.issue request (passed_through h))
                    CybersecurityControlRequirement.init H1 H2 H3 H4 eq_refl)
          as [h' [Hrun Hreq]].
        rewrite Hrun. split; [reflexivity|]. cbn [fst]. rewrite Hreq.
        cbn [Workflow.issue Workflow.issued]. rewrite length_app. cbn [List.length].
        rewrite Nat.add_1_r. reflexivity.
    + split; [reflexivity|]. intros response' control device rid text Hsome. discriminate.
Qed.

(** C6, at the point where the code parts from it.  An artifact that
    carries no risk-treatment option (its decision holds [None], as
    [set_risk_treatment] leaves it on an empty risk_treatment) is not
    decided as REDUCE, and the specification has the stage hand it on
    with the empty requirement.  The stage, sync or async, attaches the empty
    requirement and then raises [AttributeError] on reading the name of
    the option; it issues no request. *)
Theorem undecided_artifact_raises :
  forall h : Workflow.heap,
    decided (Workflow.artifact h) = None ->
    Workflow.asset_cso_csr_assessment generator prepare_for_ai05 get_prompt08
      cso_csr_format short_hash time_ms h
    = (passed_through h, Raise AttributeError)
    /\ Workflow.asset_cso_csr_assessment_async generator prepare_for_ai05 get_prompt08
         cso_csr_format short_hash time_ms h
       = (passed_through h, Raise AttributeError).
Proof.
  intros h Hnone.
  assert (Hreduce : Workflow.decision_is_reduce (passed_through h)
                    = (passed_through h, Raise AttributeError)).
  { unfold Workflow.decision_is_reduce, passed_through. cbn.
    unfold decided in Hnone.
    destruct (AssetTaraInfo.risk_treatment_decision (Workflow.artifact h)) as [d|];
      [rewrite Hnone|]; reflexivity. }
  split.
  - unfold Workflow.asset_cso_csr_assessment.
    unfold io_bind at 1. unfold Workflow.on_artifact at 1, Workflow.assign at 1.
    fold (passed_through h). unfold io_bind at 1. rewrite Hreduce. reflexivity.
  - unfold Workflow.asset_cso_csr_assessment_async.
    unfold io_bind at 1. unfold Workflow.on_artifact at 1, Workflow.assign at 1.
    fold (passed_through h). unfold io_bind at 1. rewrite Hreduce. reflexivity.
Qed.

End ConditionalStage.

Lemma undecided_artifact_raises_witness :
  Workflow.asset_cso_csr_assessment Sample.silent Sample.serialise "p8" "f8"
    (fun _ _ => "00000000"%string) (fun _ => 0%Z) (Sample.heap None)
  = (passed_through (Sample.heap None), Raise AttributeError)
  /\ Workflow.asset_cso_csr_assessment_async Sample.silent Sample.serialise "p8" "f8"
       (fun _ _ => "00000000"%string) (fun _ => 0%Z) (Sample.heap None)
     = (passed_through (Sample.heap None), Raise AttributeError).
Proof.
  apply (@undecided_artifact_raises Sample.silent Sample.serialise "p8" "f8"
           (fun _ _ => "00000000"%string) (fun _ => 0%Z) (Sample.heap None)).
  reflexivity.
Defined.

Lemma cso_csr_stage_is_conditional_witness :
  Workflow.asset_cso_csr_assessment Sample.silent Sample.serialise "p8" "f8"
    (fun _ _ => "00000000"%string) (fun _ => 0%Z)
    (Sample.heap (Some RiskTreatmentOption.AVOID))
  = (passed_through (Sample.heap (Some RiskTreatmentOption.AVOID)), Ret tt).
Proof.
  apply (proj1 (proj2 (proj2
           (@cso_csr_stage_is_conditional Sample.silent Sample.serialise "p8" "f8"
              (fun _ _ => "00000000"%string) (fun _ => 0%Z)
              (Sample.heap (Some RiskTreatmentOption.AVOID))
              RiskTreatmentOption.AVOID eq_refl)))).
  discriminate.
Defined.

(** The sample artifact without an option: the stage raises, and the
    siblings that read the same attribute test it first ([to_dict] of
    the decision writes [None] for it). *)
Example unset_option_raises :
  snd (Workflow.asset_cso_csr_assessment Sample.silent Sample.serialise "p8" "f8"
         (fun _ _ => "00000000"%string) (fun _ => 0%Z) (Sample.heap None))
  = Raise AttributeError.
Proof. reflexivity. Qed.

(** An empty risk_treatment in the response of the previous stage is what
    leaves the option unset. *)
Example empty_treatment_clears_option :
  RiskTreatmentDecision.set_risk_treatment (JStr "") (Sample.decision None)
  = (Sample.decision None, Ret tt)
  /\ RiskTreatmentDecision.set_risk_treatment (JStr "reduce") (Sample.decision None)
     = (Sample.decision (Some RiskTreatmentOption.REDUCE), Ret tt)
  /\ snd (RiskTreatmentDecision.set_risk_treatment (JStr "mitigate") (Sample.decision None))
     = Raise ValueError.
Proof. repeat split; reflexivity. Qed.

(** On REDUCE the stage asks once and fills the requirement; the control
    identifier of the response is not copied. *)
Example reduce_populates :
  let out := Workflow.asset_cso_csr_assessment Sample.helpful Sample.serialise "p8" "f8"
               (fun _ _ => "00000000"%string) (fun _ => 0%Z)
               (Sample.heap (Some RiskTreatmentOption.REDUCE)) in
  snd out = Ret tt
  /\ List.length (Workflow.issued (fst out)) = 1%nat
  /\ AssetTaraInfo.cybersecurity_control_requirement (Workflow.artifact (fst out))
     = Some (CybersecurityControlRequirement.mk JNull (JStr "authenticate frames")
               (JStr "yes") (JStr "CSR-00000000") (JStr "frames carry a MAC")).
Proof. repeat split; reflexivity. Qed.

(* ===================================================================== *)
(** * Part III. Further properties of the code *)
(* ===================================================================== *)

Import More.

(** ** [DeepSeekAIAssistant._send_request] *)

Section SendRequestMore.

Variable endpoint : json -> nat -> Q -> DeepSeekAIAssistant.reply.
Variable max_retries : Z.

(** The loop over the attempts [a, a+1, ..., a+m-1], the last of which is
    attempt number [max_retries]. *)
Lemma send_loop_shape :
  forall (request_data : json) (m a : nat) (t : Q) (w : DeepSeekAIAssistant.net),
    Z.of_nat (a + m) = (max_retries + 1)%Z ->
    let out := DeepSeekAIAssistant.send_loop endpoint max_retries request_data
                 (map Z.of_nat (seq a m)) t w in
    exists n : nat,
      (n <= m)%nat
      /\ ((1 <= m)%nat -> (1 <= n)%nat)
      /\ List.length (DeepSeekAIAssistant.posts (fst out))
         = (List.length (DeepSeekAIAssistant.posts w) + n)%nat
      /\ DeepSeekAIAssistant.slept (fst out)
         = DeepSeekAIAssistant.slept w ++ map inner_pause (seq a (n - 1))
      /\ (forall e, snd out = Raise e ->
            n = m \/ (exists s, e = HTTPError s /\ (500 <= s)%Z)
            \/ crashed_at endpoint request_data (fst out) e)
      /\ (forall body, snd out = Ret body -> (1 <= m)%nat ->
            exists t',
              last_of (DeepSeekAIAssistant.posts (fst out)) = Some t'
              /\ endpoint request_data
                   (List.length (DeepSeekAIAssistant.posts (fst out)) - 1) t'
                 = DeepSeekAIAssistant.Delivered body).
Proof.
  intros request_data m. induction m as [|m IH]; intros a t w Hlast out.
  - exists 0%nat. subst out. cbn. rewrite app_nil_r, Nat.add_0_r.
    repeat split; try lia; try congruence.
  - subst out. cbn [seq map DeepSeekAIAssistant.send_loop].
    assert (Hstop : forall (r : res json),
              (forall e, r = Raise e ->
                 m = 0%nat \/ (exists s, e = HTTPError s /\ (500 <= s)%Z)
                 \/ endpoint request_data (List.length (DeepSeekAIAssistant.posts w)) t
                    = DeepSeekAIAssistant.Crashed e) ->
              (forall body, r = Ret body ->
                 endpoint request_data (List.length (DeepSeekAIAssistant.posts w)) t
                 = DeepSeekAIAssistant.Delivered body) ->
              let out := (DeepSeekAIAssistant.post_with t w, r) in
              exists n : nat,
                (n <= S m)%nat /\ ((1 <= S m)%nat -> (1 <= n)%nat)
                /\ List.length (DeepSeekAIAssistant.posts (fst out))
                   = (List.length (DeepSeekAIAssistant.posts w) + n)%nat
                /\ DeepSeekAIAssistant.slept (fst out)
                   = DeepSeekAIAssistant.slept w ++ map inner_pause (seq a (n - 1))
                /\ (forall e, snd out = Raise e ->
                      n = S m \/ (exists s, e = HTTPError s /\ (500 <= s)%Z)
                      \/ crashed_at endpoint request_data (fst out) e)
                /\ (forall body, snd out = Ret body -> (1 <= S m)%nat ->
                      exists t',
                        last_of (DeepSeekAIAssistant.posts (fst out)) = Some t'
                        /\ endpoint request_data
                             (List.length (DeepSeekAIAssistant.posts (fst out)) - 1) t'
                           = DeepSeekAIAssistant.Delivered body)).
    { intros r Hr Hb out. exists 1%nat. subst out. cbn [fst snd].
      unfold crashed_at, DeepSeekAIAssistant.post_with.
      cbn [DeepSeekAIAssistant.posts DeepSeekAIAssistant.slept].
      assert (Hlast_post :
                last_of (DeepSeekAIAssistant.posts w ++ [t]) = Some t
                /\ (List.length (DeepSeekAIAssistant.posts w ++ [t]) - 1)%nat
                   = List.length (DeepSeekAIAssistant.posts w)).
      { unfold last_of. rewrite length_app. cbn [List.length].
        replace (List.length (DeepSeekAIAssistant.posts w) + 1 - 1)%nat
          with (List.length (DeepSeekAIAssistant.posts w)) by lia.
        rewrite nth_error_app2 by lia. rewrite Nat.sub_diag. split; reflexivity. }
      destruct Hlast_post as [Hlast_t Hlast_n]. rewrite Hlast_n, Hlast_t.
      split; [lia|]. split; [lia|]. split; [rewrite length_app; reflexivity|].
      split; [cbn [seq map Nat.sub]; rewrite app_nil_r; reflexivity|].
      split.
      - intros e He. destruct (Hr e He) as [->|[Hs|Hc]];
          [left; reflexivity|right; left; exact Hs|right; right].
        exists t. split; [reflexivity|exact Hc].
      - intros body Hbody _. exists t. split; [reflexivity|].
        apply Hb. exact Hbody. }
    assert (Hgo : forall t',
              (Z.of_nat a =? max_retries)%Z = false ->
              let out := DeepSeekAIAssistant.send_loop endpoint max_retries request_data
                           (map Z.of_nat (seq (S a) m)) t'
                           (DeepSeekAIAssistant.sleep (2 ^ Z.of_nat a)
                              (DeepSeekAIAssistant.post_with t w)) in
              exists n : nat,
                (n <= S m)%nat /\ ((1 <= S m)%nat -> (1 <= n)%nat)
                /\ List.length (DeepSeekAIAssistant.posts (fst out))
                   = (List.length (DeepSeekAIAssistant.posts w) + n)%nat
                /\ DeepSeekAIAssistant.slept (fst out)
                   = DeepSeekAIAssistant.slept w ++ map inner_pause (seq a (n - 1))
                /\ (forall e, snd out = Raise e ->
                      n = S m \/ (exists s, e = HTTPError s /\ (500 <= s)%Z)
                      \/ crashed_at endpoint request_data (fst out) e)
                /\ (forall body, snd out = Ret body -> (1 <= S m)%nat ->
                      exists t',
                        last_of (DeepSeekAIAssistant.posts (fst out)) = Some t'
                        /\ endpoint request_data
                             (List.length (DeepSeekAIAssistant.posts (fst out)) - 1) t'
                           = DeepSeekAIAssistant.Delivered body)).
    { intros t' Hne out. apply Z.eqb_neq in Hne.
      assert (Hm : (1 <= m)%nat) by lia.
      destruct (IH (S a) t' (DeepSeekAIAssistant.sleep (2 ^ Z.of_nat a)
                               (DeepSeekAIAssistant.post_with t w)))
        as [n [Hn [Hn1 [Hposts [Hslept [Hraise Hret]]]]]]; [lia|].
      fold out in Hposts, Hslept, Hraise, Hret.
      specialize (Hn1 Hm).
      exists (S n). split; [lia|]. split; [lia|]. split.
      - rewrite Hposts. cbn. rewrite length_app. cbn. lia.
      - split.
        + rewrite Hslept. cbn [DeepSeekAIAssistant.sleep DeepSeekAIAssistant.slept
            DeepSeekAIAssistant.post_with].
          rewrite <- app_assoc. f_equal.
          replace (S n - 1)%nat with (S (n - 1)) by lia. cbn [seq map app]. reflexivity.
        + split.
          * intros e He. destruct (Hraise e He) as [->|Hs]; [left; reflexivity|right; exact Hs].
          * intros body Hbody _. apply (Hret body Hbody Hm). }
    destruct (endpoint request_data (List.length (DeepSeekAIAssistant.posts w)) t)
      as [body| |status_code| |crash] eqn:Hanswer.
    + apply Hstop; [intros e He; discriminate|]. intros b Hb. congruence.
    + destruct (Z.of_nat a =? max_retries)%Z eqn:Hlastb.
      * apply Hstop; [|intros b Hb; discriminate].
        intros e _. left. apply Z.eqb_eq in Hlastb. lia.
      * apply Hgo. reflexivity.
    + destruct (Z.of_nat a =? max_retries)%Z eqn:Hlastb; cbn [orb].
      * apply Hstop; [|intros b Hb; discriminate].
        intros e _. left. apply Z.eqb_eq in Hlastb. lia.
      * destruct (500 <=? status_code)%Z eqn:H500.
        -- apply Hstop; [|intros b Hb; discriminate].
           intros e He. right. left. exists status_code. injection He as <-.
           split; [reflexivity|]. now apply Z.leb_le.
        -- apply Hgo. reflexivity.
    + destruct (Z.of_nat a =? max_retries)%Z eqn:Hlastb.
      * apply Hstop; [|intros b Hb; discriminate].
        intros e _. left. apply Z.eqb_eq in Hlastb. lia.
      * apply Hgo. reflexivity.
    + apply Hstop; [|intros b Hb; discriminate].
      intros e He. right. right. injection He as <-. reflexivity.
Qed.

End SendRequestMore.


(** X1.  One call of [_send_request] posts at most [max_retries + 1]
    times, at least once when the budget is not negative and not at all
    when it is; between two POSTs it sleeps 1, 2, 4, ... seconds (2 to the
    attempt number) and it sleeps at no other time. *)
Theorem send_request_posts_and_pauses :
  forall (endpoint : json -> nat -> Q -> DeepSeekAIAssistant.reply)
         (max_retries timeout : Z) (request_data : json) (w : DeepSeekAIAssistant.net),
    let out := DeepSeekAIAssistant._send_request endpoint max_retries timeout request_data w in
    exists n : nat,
      (n <= Z.to_nat (max_retries + 1))%nat
      /\ ((0 <= max_retries)%Z -> (1 <= n)%nat)
      /\ List.length (DeepSeekAIAssistant.posts (fst out))
         = (List.length (DeepSeekAIAssistant.posts w) + n)%nat
      /\ DeepSeekAIAssistant.slept (fst out)
         = DeepSeekAIAssistant.slept w ++ map inner_pause (seq 0 (n - 1)).
Proof.
  intros endpoint max_retries timeout request_data w out. subst out.
  unfold DeepSeekAIAssistant._send_request, range.
  destruct (Z.le_gt_cases 0 max_retries) as [Hpos|Hneg].
  - destruct (@send_loop_shape endpoint max_retries request_data
                (Z.to_nat (max_retries + 1)) 0%nat (inject_Z timeout) w)
      as [n [Hn [Hn1 [Hposts [Hslept _]]]]]; [lia|].
    exists n. split; [exact Hn|]. split; [intros _; apply Hn1; lia|].
    split; assumption.
  - replace (Z.to_nat (max_retries + 1)) with 0%nat by lia.
    exists 0%nat. cbn. rewrite app_nil_r, Nat.add_0_r. repeat split; lia.
Qed.



(** A status of 501 ends the call at the first POST; a status of 404 is
    tried four times, with pauses of 1, 2 and 4 seconds; and a timeout
    of 0 seconds, which [session.post] refuses with [ValueError], ends
    the call at the first POST as well. *)
Example server_error_is_not_retried :
  let broken := DeepSeekAIAssistant._send_request
                  (fun _ _ _ => DeepSeekAIAssistant.Rejected 501) 3 60 JNull
                  (DeepSeekAIAssistant.mkNet [] []) in
  let missing := DeepSeekAIAssistant._send_request
                   (fun _ _ _ => DeepSeekAIAssistant.Rejected 404) 3 60 JNull
                   (DeepSeekAIAssistant.mkNet [] []) in
  let refused := DeepSeekAIAssistant._send_request
                   (fun _ _ t => if Qle_bool t 0
                                 then DeepSeekAIAssistant.Crashed ValueError
                                 else DeepSeekAIAssistant.TimedOut) 3 0 JNull
                   (DeepSeekAIAssistant.mkNet [] []) in
  (List.length (DeepSeekAIAssistant.posts (fst broken)), snd broken)
  = (1%nat, Raise (HTTPError 501))
  /\ (List.length (DeepSeekAIAssistant.posts (fst missing)),
      DeepSeekAIAssistant.slept (fst missing), snd missing)
     = (4%nat, [1; 2; 4]%Z, Raise (HTTPError 404))
  /\ (List.length (DeepSeekAIAssistant.posts (fst refused)),
      DeepSeekAIAssistant.slept (fst refused), snd refused)
     = (1%nat, [], Raise ValueError).
Proof. vm_compute. repeat split; reflexivity. Qed.

(** ** [BaseAIAssistant.request_ai_response] *)

Section RequestLoopMore.

Variable json_loads : string -> option json.
Variable World : Type.
Variable acquire_token : io World unit.
Variable _prepare_request_data : io World json.
Variable _send_request : json -> io World json.
Variable _parse_response : json -> io World json.
Variable sleep : Z -> World -> World.
Variable max_retries : Z.
Variable format_text : string.

Lemma try_block_validated :
  forall (w w' : World) (d : dict),
    BaseAIAssistant.try_block json_loads acquire_token _prepare_request_data
      _send_request _parse_response format_text w = (w', Ret d) ->
    BaseAIAssistant._validate_response_format json_loads d format_text = true.
Proof.
  intros w w' d. unfold BaseAIAssistant.try_block, io_bind.
  destruct (acquire_token w) as [w1 [[]|e1]]; [|discriminate].
  destruct (_prepare_request_data w1) as [w2 [request_data|e2]]; [|discriminate].
  destruct (_send_request request_data w2) as [w3 [response|e3]]; [|discriminate].
  destruct (_parse_response response w3) as [w4 [parsed|e4]]; [|discriminate].
  destruct parsed as [| b | q | s | l | fields]; try discriminate.
  destruct (BaseAIAssistant._validate_response_format json_loads fields format_text)
    eqn:Hvalid; [|discriminate].
  unfold io_ret. intros H. injection H as _ <-. exact Hvalid.
Qed.

Lemma request_loop_validated :
  forall (fuel : nat) (retry_count : Z) (w : World) (a : nat) (ds : list Z)
         (r : BaseAIAssistant.run World) (d : dict),
    BaseAIAssistant.request_loop json_loads acquire_token _prepare_request_data
      _send_request _parse_response sleep max_retries format_text
      fuel retry_count w a ds = Some r ->
    BaseAIAssistant.outcome r = Ret d ->
    BaseAIAssistant._validate_response_format json_loads d format_text = true.
Proof.
  induction fuel as [|fuel IH]; intros retry_count w a ds r d Hrun Hout; [discriminate|].
  cbn [BaseAIAssistant.request_loop] in Hrun.
  destruct (retry_count <=? max_retries)%Z.
  - destruct (BaseAIAssistant.try_block _ _ _ _ _ _ w) as [w1 [parsed|e]] eqn:Htry.
    + injection Hrun as <-. cbn in Hout. injection Hout as ->.
      eapply try_block_validated; exact Htry.
    + destruct (retry_count + 1 <=? max_retries)%Z; eapply IH; eassumption.
  - injection Hrun as <-. discriminate Hout.
Qed.

End RequestLoopMore.

(** X3.  Whatever [request_ai_response] (or its async twin) returns has
    passed [_validate_response_format] against the format text of the
    call: no response reaches the caller unvalidated, whatever the hooks
    of the backend do. *)
Theorem returned_response_is_validated :
  forall (json_loads : string -> option json) (World : Type)
         (acquire_token : io World unit) (_prepare_request_data : io World json)
         (_send_request _parse_response : json -> io World json)
         (sleep : Z -> World -> World) (max_retries : Z) (format_text : string)
         (w : World) (r : BaseAIAssistant.run World) (d : dict),
    (BaseAIAssistant.request_ai_response json_loads acquire_token _prepare_request_data
       _send_request _parse_response sleep max_retries format_text w = Some r
     \/ BaseAIAssistant.request_ai_response_async json_loads acquire_token
          _prepare_request_data _send_request _parse_response sleep max_retries
          format_text w = Some r) ->
    BaseAIAssistant.outcome r = Ret d ->
    BaseAIAssistant._validate_response_format json_loads d format_text = true.
Proof.
  intros json_loads World acquire_token _prepare_request_data _send_request
    _parse_response sleep max_retries format_text w r d [Hrun|Hrun] Hout;
    eapply request_loop_validated; eassumption.
Qed.

Lemma returned_response_is_validated_witness :
  BaseAIAssistant._validate_response_format
    (fun _ => Some (Sample.template "possible_attack_path_list"))
    (Sample.payload_good "possible_attack_path_list") "template" = true.
Proof.
  apply (@returned_response_is_validated
           (fun _ => Some (Sample.template "possible_attack_path_list")) unit
           (io_ret tt) (io_ret JNull)
           (fun _ => io_ret (JObj (Sample.payload_good "possible_attack_path_list")))
           (fun response => io_ret response) (fun _ w => w) 3 "template" tt
           (BaseAIAssistant.mkRun tt 1 []
              (Ret (Sample.payload_good "possible_attack_path_list")))
           (Sample.payload_good "possible_attack_path_list")).
  - left. reflexivity.
  - reflexivity.
Defined.

Lemma backoff_range : forall k : nat, (1 <= k)%nat -> (1 <= backoff k <= 30)%Z.
Proof.
  intros k Hk. unfold backoff.
  assert (1 <= 2 ^ (Z.of_nat k - 1))%Z.
  { change 1%Z with (2 ^ 0)%Z at 1. apply Z.pow_le_mono_r; lia. }
  lia.
Qed.

Lemma total_snoc : forall (l : list Z) (x : Z), total (l ++ [x]) = (total l + x)%Z.
Proof.
  unfold total. induction l as [|y l IHl]; intros x; cbn [app fold_right]; [lia|].
  rewrite IHl. lia.
Qed.

Lemma backoffs_total :
  forall n : nat,
    (total (backoffs n) <= 30 * Z.of_nat n)%Z
    /\ (total (backoffs n) <= 2 ^ Z.of_nat n - 1)%Z
    /\ Forall (fun d => 1 <= d <= 30)%Z (backoffs n).
Proof.
  unfold backoffs. induction n as [|n [IH30 [IHpow IHall]]].
  - cbn. repeat split; try lia. constructor.
  - rewrite seq_S, map_app. cbn [map].
    rewrite total_snoc. replace (1 + n)%nat with (S n) by lia.
    pose proof (@backoff_range (S n) ltac:(lia)) as Hr.
    assert (Hle : (backoff (S n) <= 2 ^ Z.of_nat n)%Z).
    { unfold backoff. replace (Z.of_nat (S n) - 1)%Z with (Z.of_nat n) by lia. lia. }
    split; [lia|]. split.
    + replace (Z.of_nat (S n)) with (Z.of_nat n + 1)%Z by lia.
      rewrite Z.pow_add_r by lia. lia.
    + apply Forall_app. split; [exact IHall|]. constructor; [exact Hr|constructor].
Qed.

(** X4.  With a retry budget that is not negative, every pause of one
    logical request lasts between 1 and 30 seconds, and the pauses of
    the request add up to at most 30 seconds per retry and at most
    2^max_retries - 1 seconds. *)
Theorem backoff_time_bounded :
  forall (json_loads : string -> option json) (World : Type)
         (acquire_token : io World unit) (_prepare_request_data : io World json)
         (_send_request _parse_response : json -> io World json)
         (sleep : Z -> World -> World) (max_retries : Z) (format_text : string)
         (w : World),
    (0 <= max_retries)%Z ->
    exists r,
      BaseAIAssistant.request_ai_response json_loads acquire_token _prepare_request_data
        _send_request _parse_response sleep max_retries format_text w = Some r
      /\ Forall (fun d => 1 <= d <= 30)%Z (BaseAIAssistant.delays r)
      /\ (total (BaseAIAssistant.delays r) <= 30 * max_retries)%Z
      /\ (total (BaseAIAssistant.delays r) <= 2 ^ max_retries - 1)%Z.
Proof.
  intros json_loads World acquire_token _prepare_request_data _send_request
    _parse_response sleep max_retries format_text w Hmax.
  destruct (@request_ai_response_spec json_loads World acquire_token
              _prepare_request_data _send_request _parse_response sleep max_retries
              format_text w Hmax) as [r [Hrun [Hbound [Hdelays _]]]].
  exists r. split; [exact Hrun|]. rewrite Hdelays.
  destruct (backoffs_total (BaseAIAssistant.attempts r - 1)) as [H30 [Hpow Hall]].
  split; [exact Hall|].
  assert (Hk : (Z.of_nat (BaseAIAssistant.attempts r - 1) <= max_retries)%Z) by lia.
  split; [lia|].
  assert (2 ^ Z.of_nat (BaseAIAssistant.attempts r - 1) <= 2 ^ max_retries)%Z
    by (apply Z.pow_le_mono_r; lia).
  lia.
Qed.

Lemma backoff_time_bounded_witness :
  exists r,
    BaseAIAssistant.request_ai_response (fun _ => None) (io_ret tt) (io_ret JNull)
      (DeepSeekAIAssistant._send_request Sample.dead_endpoint 5 60)
      (fun response => io_ret response)
      (fun _ w => w) 5 "" (DeepSeekAIAssistant.mkNet [] []) = Some r
    /\ Forall (fun d => 1 <= d <= 30)%Z (BaseAIAssistant.delays r)
    /\ (total (BaseAIAssistant.delays r) <= 30 * 5)%Z
    /\ (total (BaseAIAssistant.delays r) <= 2 ^ 5 - 1)%Z.
Proof.
  apply (@backoff_time_bounded (fun _ => None) DeepSeekAIAssistant.net
           (io_ret tt) (io_ret JNull)
           (DeepSeekAIAssistant._send_request Sample.dead_endpoint 5 60)
           (fun response => io_ret response)
           (fun _ w => w) 5 "" (DeepSeekAIAssistant.mkNet [] [])).
  lia.
Defined.

(** ** The token bucket of [BaseAIAssistant] *)

Lemma refill_time_cases :
  forall (now : Q) (b : BaseAIAssistant.bucket),
    0 < BaseAIAssistant.token_refill_rate b ->
    BaseAIAssistant.last_refill_time b <= now ->
    BaseAIAssistant.last_refill_time (BaseAIAssistant._refill_tokens now b) == now.
Proof.
  intros now b Hrate Hlast. unfold BaseAIAssistant._refill_tokens.
  destruct (qlt 0 _) eqn:E; cbn; [reflexivity|].
  unfold qlt in E. apply negb_false_iff, Qle_bool_iff in E.
  assert (Hd : ~ 0 < now - BaseAIAssistant.last_refill_time b).
  { intros Hpos.
    pose proof (Qmult_lt_0_compat _ _ Hpos Hrate) as Hprod. lra. }
  lra.
Qed.

Lemma refill_keeps_rate :
  forall (now : Q) (b : BaseAIAssistant.bucket),
    BaseAIAssistant.token_refill_rate (BaseAIAssistant._refill_tokens now b)
    = BaseAIAssistant.token_refill_rate b.
Proof.
  intros now b. unfold BaseAIAssistant._refill_tokens.
  destruct (qlt 0 _); reflexivity.
Qed.

(** X5.  A request for more tokens than the bucket can hold is never
    granted: however long the clock runs, the sync and the async
    [_acquire_token] are still waiting or have failed. *)
Theorem over_capacity_never_granted :
  forall (required_tokens : Z) (clock : list Q) (b : BaseAIAssistant.bucket),
    BaseAIAssistant.tokens b <= BaseAIAssistant.max_burst b ->
    BaseAIAssistant.max_burst b < inject_Z required_tokens ->
    snd (BaseAIAssistant._acquire_token required_tokens clock b)
    <> BaseAIAssistant.Acquired
    /\ snd (BaseAIAssistant._acquire_token_async required_tokens clock b)
       <> BaseAIAssistant.Acquired.
Proof.
  intros n clock. induction clock as [|now later IH]; intros b Hcap Hbig.
  - split; discriminate.
  - cbn [BaseAIAssistant._acquire_token BaseAIAssistant._acquire_token_async].
    change BaseAIAssistant._refill_tokens_async with BaseAIAssistant._refill_tokens.
    pose proof (@refill_under_capacity now b Hcap) as Hunder.
    destruct (Qle_bool (inject_Z n) _) eqn:E.
    { apply Qle_bool_iff in E. lra. }
    assert (Hnext : BaseAIAssistant.tokens (BaseAIAssistant._refill_tokens now b)
                    <= BaseAIAssistant.max_burst (BaseAIAssistant._refill_tokens now b))
      by (rewrite refill_keeps_capacity; exact Hunder).
    assert (Hbig' : BaseAIAssistant.max_burst (BaseAIAssistant._refill_tokens now b)
                    < inject_Z n)
      by (rewrite refill_keeps_capacity; exact Hbig).
    destruct (IH _ Hnext Hbig') as [IHs IHa].
    destruct (Qeq_bool _ 0); [split; discriminate|].
    split; [|exact IHa].
    destruct (qlt _ 0); [discriminate|exact IHs].
Qed.

Lemma over_capacity_never_granted_witness :
  snd (BaseAIAssistant._acquire_token 11 [1; 100; 10000]
         (BaseAIAssistant.init_bucket 60 10 0))
  <> BaseAIAssistant.Acquired
  /\ snd (BaseAIAssistant._acquire_token_async 11 [1; 100; 10000]
            (BaseAIAssistant.init_bucket 60 10 0))
     <> BaseAIAssistant.Acquired.
Proof.
  apply (@over_capacity_never_granted 11 [1; 100; 10000]
           (BaseAIAssistant.init_bucket 60 10 0)).
  - cbn. lra.
  - cbn. unfold Qlt. cbn. lia.
Defined.

(** X6.  When [_acquire_token] grants at its first turn.  On a bucket
    within its bounds a request for no more tokens than the bucket holds
    is granted at once, whatever the clock reads: a refill never takes
    tokens away.  So is every request within the capacity once the time
    since the last refill is worth twice the capacity: the refill then
    reaches [max_burst], which [min] hands on as it is (the factor of
    two leaves room for the rounding of the floats that the code
    computes with).  The sync and the async call leave the refilled
    bucket, debited by the request. *)
Theorem stocked_bucket_grants_at_once :
  forall (required_tokens : Z) (now : Q) (later : list Q) (b : BaseAIAssistant.bucket),
    bucket_ok b ->
    inject_Z required_tokens <= BaseAIAssistant.tokens b
    \/ (inject_Z required_tokens <= BaseAIAssistant.max_burst b
        /\ 2 * BaseAIAssistant.max_burst b
           <= (now - BaseAIAssistant.last_refill_time b)
              * BaseAIAssistant.token_refill_rate b) ->
    BaseAIAssistant._acquire_token required_tokens (now :: later) b
    = (BaseAIAssistant.debit required_tokens (BaseAIAssistant._refill_tokens now b),
       BaseAIAssistant.Acquired)
    /\ BaseAIAssistant._acquire_token_async required_tokens (now :: later) b
       = (BaseAIAssistant.debit required_tokens (BaseAIAssistant._refill_tokens now b),
          BaseAIAssistant.Acquired)
    /\ inject_Z required_tokens
       <= BaseAIAssistant.tokens (BaseAIAssistant._refill_tokens now b).
Proof.
  intros n now later b [Hlow Hhigh] Hstock.
  assert (Hgrant : inject_Z n
                   <= BaseAIAssistant.tokens (BaseAIAssistant._refill_tokens now b)).
  { unfold BaseAIAssistant._refill_tokens. cbv zeta.
    remember ((now - BaseAIAssistant.last_refill_time b)
              * BaseAIAssistant.token_refill_rate b) as new_tokens eqn:Hnew.
    destruct (qlt 0 new_tokens) eqn:Eq.
    - apply qlt_true in Eq. cbn [BaseAIAssistant.tokens].
      destruct (qmin_cases (BaseAIAssistant.max_burst b)
                  (BaseAIAssistant.tokens b + new_tokens)) as [[Hle ->]|[Hlt ->]].
      + destruct Hstock as [Hheld|[Hcap _]]; lra.
      + destruct Hstock as [Hheld|[Hcap Hfull]]; lra.
    - unfold qlt in Eq. apply negb_false_iff, Qle_bool_iff in Eq.
      destruct Hstock as [Hheld|[Hcap Hfull]]; lra. }
  cbn [BaseAIAssistant._acquire_token BaseAIAssistant._acquire_token_async].
  change BaseAIAssistant._refill_tokens_async with BaseAIAssistant._refill_tokens.
  apply Qle_bool_iff in Hgrant. rewrite Hgrant.
  split; [reflexivity|]. split; [reflexivity|]. apply Qle_bool_iff. exact Hgrant.
Qed.

Lemma stocked_bucket_grants_at_once_witness :
  BaseAIAssistant._acquire_token 3 [30] (BaseAIAssistant.mkBucket 10 1 1 10)
  = (BaseAIAssistant.debit 3
       (BaseAIAssistant._refill_tokens 30 (BaseAIAssistant.mkBucket 10 1 1 10)),
     BaseAIAssistant.Acquired)
  /\ BaseAIAssistant._acquire_token_async 3 [30] (BaseAIAssistant.mkBucket 10 1 1 10)
     = (BaseAIAssistant.debit 3
          (BaseAIAssistant._refill_tokens 30 (BaseAIAssistant.mkBucket 10 1 1 10)),
        BaseAIAssistant.Acquired)
  /\ inject_Z 3
     <= BaseAIAssistant.tokens
          (BaseAIAssistant._refill_tokens 30 (BaseAIAssistant.mkBucket 10 1 1 10)).
Proof.
  apply (@stocked_bucket_grants_at_once 3 30 [] (BaseAIAssistant.mkBucket 10 1 1 10)).
  - split; cbn; lra.
  - right. split; [cbn; unfold Qle; cbn; lia|vm_compute; discriminate].
Defined.

(** A bucket of ten tokens that holds one, refilled at one token per
    second: after twenty seconds a request for three finds the bucket
    full and leaves seven. *)
Example full_bucket_after_twenty_seconds :
  let out := BaseAIAssistant._acquire_token 3 [30] (BaseAIAssistant.mkBucket 10 1 1 10) in
  snd out = BaseAIAssistant.Acquired /\ BaseAIAssistant.tokens (fst out) == 7.
Proof. vm_compute. split; reflexivity. Qed.

(** X7.  With a refill rate that is not negative the sync and the async
    [_acquire_token] are the same function of the clock, and neither
    fails with [ValueError]: the negative [wait_time] that [time.sleep]
    would refuse arises only from a negative rate. *)
Theorem acquire_twins_agree :
  forall (required_tokens : Z) (clock : list Q) (b : BaseAIAssistant.bucket),
    0 <= BaseAIAssistant.token_refill_rate b ->
    BaseAIAssistant._acquire_token required_tokens clock b
    = BaseAIAssistant._acquire_token_async required_tokens clock b
    /\ snd (BaseAIAssistant._acquire_token required_tokens clock b)
       <> BaseAIAssistant.Failed ValueError.
Proof.
  intros n clock. induction clock as [|now later IH]; intros b Hrate.
  - split; [reflexivity|discriminate].
  - cbn [BaseAIAssistant._acquire_token BaseAIAssistant._acquire_token_async].
    change BaseAIAssistant._refill_tokens_async with BaseAIAssistant._refill_tokens.
    pose proof (@refill_keeps_rate now b) as Hr.
    set (b1 := BaseAIAssistant._refill_tokens now b) in *.
    destruct (Qle_bool (inject_Z n) (BaseAIAssistant.tokens b1)) eqn:E1;
      [split; [reflexivity|discriminate]|].
    destruct (Qeq_bool (BaseAIAssistant.token_refill_rate b1) 0) eqn:E0;
      [split; [reflexivity|discriminate]|].
    assert (Hshort : BaseAIAssistant.tokens b1 < inject_Z n).
    { apply Qnot_le_lt. intros Hle. apply Qle_bool_iff in Hle. congruence. }
    assert (Hpos : 0 < BaseAIAssistant.token_refill_rate b1).
    { rewrite Hr. apply Qle_lteq in Hrate. destruct Hrate as [Hlt|Heq]; [exact Hlt|].
      exfalso. rewrite <- Hr in Heq. symmetry in Heq. apply Qeq_bool_iff in Heq.
      congruence. }
    destruct (qlt _ 0) eqn:Eneg.
    + exfalso. apply qlt_true in Eneg.
      assert (0 <= (inject_Z n - BaseAIAssistant.tokens b1)
                   / BaseAIAssistant.token_refill_rate b1)
        by (apply Qle_shift_div_l; [exact Hpos|lra]).
      lra.
    + apply IH. rewrite Hr. exact Hrate.
Qed.

Lemma acquire_twins_agree_witness :
  BaseAIAssistant._acquire_token 2 [1; 2; 3] (BaseAIAssistant.mkBucket 10 (1 # 2) 0 0)
  = BaseAIAssistant._acquire_token_async 2 [1; 2; 3]
      (BaseAIAssistant.mkBucket 10 (1 # 2) 0 0)
  /\ snd (BaseAIAssistant._acquire_token 2 [1; 2; 3]
            (BaseAIAssistant.mkBucket 10 (1 # 2) 0 0))
     <> BaseAIAssistant.Failed ValueError.
Proof.
  apply (@acquire_twins_agree 2 [1; 2; 3] (BaseAIAssistant.mkBucket 10 (1 # 2) 0 0)).
  cbn. unfold Qle. cbn. lia.
Defined.

(** A negative rate is where the twins part: the sync call fails with
    [ValueError], the async one keeps waiting. *)
Example negative_rate_parts_the_twins :
  snd (BaseAIAssistant._acquire_token 2 [1] (BaseAIAssistant.mkBucket 10 (-1) 0 0))
  = BaseAIAssistant.Failed ValueError
  /\ snd (BaseAIAssistant._acquire_token_async 2 [1]
            (BaseAIAssistant.mkBucket 10 (-1) 0 0))
     = BaseAIAssistant.Waiting.
Proof. vm_compute. split; reflexivity. Qed.

(** X8.  [_refill_tokens] with a rate that is not negative never takes
    tokens away from a bucket within its capacity, leaves the bucket as
    it is when the clock has not advanced, and adds nothing when it is
    called again at the same reading. *)
Theorem refill_monotone_idempotent :
  forall (now : Q) (b : BaseAIAssistant.bucket),
    0 <= BaseAIAssistant.token_refill_rate b ->
    BaseAIAssistant.tokens b <= BaseAIAssistant.max_burst b ->
    BaseAIAssistant.tokens b
    <= BaseAIAssistant.tokens (BaseAIAssistant._refill_tokens now b)
    /\ (now <= BaseAIAssistant.last_refill_time b ->
        BaseAIAssistant._refill_tokens now b = b)
    /\ BaseAIAssistant._refill_tokens now (BaseAIAssistant._refill_tokens now b)
       = BaseAIAssistant._refill_tokens now b.
Proof.
  intros now b Hrate Hcap. split; [|split].
  - unfold BaseAIAssistant._refill_tokens.
    destruct (qlt 0 _) eqn:E; cbn [BaseAIAssistant.tokens]; [|lra].
    apply qlt_true in E.
    destruct (qmin_cases (BaseAIAssistant.max_burst b)
                (BaseAIAssistant.tokens b
                 + (now - BaseAIAssistant.last_refill_time b)
                   * BaseAIAssistant.token_refill_rate b)) as [[Hle ->]|[Hlt ->]]; lra.
  - intros Hback. unfold BaseAIAssistant._refill_tokens.
    destruct (qlt 0 _) eqn:E; [|reflexivity].
    exfalso. apply qlt_true in E.
    assert (Hprod : (BaseAIAssistant.last_refill_time b - now)
                    * BaseAIAssistant.token_refill_rate b >= 0)
      by (apply Qmult_le_0_compat; lra).
    lra.
  - destruct (qlt 0 ((now - BaseAIAssistant.last_refill_time b)
                     * BaseAIAssistant.token_refill_rate b)) eqn:E.
    + assert (Hb : BaseAIAssistant._refill_tokens now b
                   = BaseAIAssistant.mkBucket (BaseAIAssistant.max_burst b)
                       (BaseAIAssistant.token_refill_rate b)
                       (qmin (BaseAIAssistant.max_burst b)
                          (BaseAIAssistant.tokens b
                           + (now - BaseAIAssistant.last_refill_time b)
                             * BaseAIAssistant.token_refill_rate b))
                       now)
        by (unfold BaseAIAssistant._refill_tokens; rewrite E; reflexivity).
      rewrite Hb. unfold BaseAIAssistant._refill_tokens.
      cbn [BaseAIAssistant.last_refill_time BaseAIAssistant.token_refill_rate].
      destruct (qlt 0 ((now - now) * _)) eqn:E2; [|reflexivity].
      exfalso. apply qlt_true in E2. lra.
    + assert (Hb : BaseAIAssistant._refill_tokens now b = b)
        by (unfold BaseAIAssistant._refill_tokens; rewrite E; reflexivity).
      rewrite !Hb. reflexivity.
Qed.

Lemma refill_monotone_idempotent_witness :
  BaseAIAssistant.tokens (BaseAIAssistant.mkBucket 10 1 4 0)
  <= BaseAIAssistant.tokens
       (BaseAIAssistant._refill_tokens 3 (BaseAIAssistant.mkBucket 10 1 4 0))
  /\ (3 <= BaseAIAssistant.last_refill_time (BaseAIAssistant.mkBucket 10 1 4 0) ->
      BaseAIAssistant._refill_tokens 3 (BaseAIAssistant.mkBucket 10 1 4 0)
      = BaseAIAssistant.mkBucket 10 1 4 0)
  /\ BaseAIAssistant._refill_tokens 3
       (BaseAIAssistant._refill_tokens 3 (BaseAIAssistant.mkBucket 10 1 4 0))
     = BaseAIAssistant._refill_tokens 3 (BaseAIAssistant.mkBucket 10 1 4 0).
Proof.
  apply (@refill_monotone_idempotent 3 (BaseAIAssistant.mkBucket 10 1 4 0)).
  - cbn. lra.
  - cbn. lra.
Defined.

(** ** The salvage of [_validate_json_response] *)

Lemma validate_json_response_raises :
  forall (json_loads : string -> res json) (text : string) (e : exn),
    BaseAIAssistant._validate_json_response json_loads text = Raise e ->
    e = ValueError \/ (json_loads text = Raise e /\ e <> JSONDecodeError).
Proof.
  intros json_loads text e. unfold BaseAIAssistant._validate_json_response.
  destruct (json_loads text) as [v|e0]; [discriminate|].
  destruct e0; try (intros H; injection H as <-; right; split;
                    [reflexivity|discriminate]).
  destruct (_ && _).
  - destruct (json_loads _); [discriminate|]. intros H. injection H as <-.
    left. reflexivity.
  - intros H. injection H as <-. left. reflexivity.
Qed.

(** X27.  [_validate_json_response] returns what [json.loads] makes of
    the whole text when that parses.  When the whole text is rejected
    with [json.JSONDecodeError], it returns what [json.loads] makes of
    the text between the first opening brace and the last closing brace
    when that parses, and raises [ValueError] when a brace is missing or
    that text raises anything.  Every other exception of the first
    parse is raised as it is; so [ValueError] is raised exactly when the
    first parse raises a plain [ValueError] or the salvage fails. *)
Theorem json_salvage :
  forall (json_loads : string -> res json) (text : string),
    (forall v, json_loads text = Ret v ->
               BaseAIAssistant._validate_json_response json_loads text = Ret v)
    /\ (forall i j v,
          json_loads text = Raise JSONDecodeError ->
          first_index "{"%char text i -> last_index "}"%char text j ->
          json_loads (between text i j) = Ret v ->
          BaseAIAssistant._validate_json_response json_loads text = Ret v)
    /\ (BaseAIAssistant._validate_json_response json_loads text = Raise ValueError
        <-> json_loads text = Raise ValueError
            \/ (json_loads text = Raise JSONDecodeError
                /\ (~ occurs "{"%char text \/ ~ occurs "}"%char text
                    \/ exists i j e,
                         first_index "{"%char text i /\ last_index "}"%char text j
                         /\ json_loads (between text i j) = Raise e)))
    /\ (forall e, BaseAIAssistant._validate_json_response json_loads text = Raise e ->
                  e = ValueError \/ (json_loads text = Raise e /\ e <> JSONDecodeError)).
Proof.
  intros json_loads text.
  split; [|split; [|split; [|intros e; apply validate_json_response_raises]]].
  - intros v Hv. unfold BaseAIAssistant._validate_json_response. rewrite Hv. reflexivity.
  - intros i j v Hwhole Hfirst Hlast Hpart.
    unfold BaseAIAssistant._validate_json_response. rewrite Hwhole.
    destruct (find_char_spec "{"%char text) as [[_ Hnof]|[i' [Hf Hfirst']]].
    { exfalso. apply Hnof. exists i. apply Hfirst. }
    destruct (rfind_char_spec "}"%char text) as [[_ Hnor]|[j' [Hr Hlast']]].
    { exfalso. apply Hnor. exists j. apply Hlast. }
    rewrite Hf, Hr.
    destruct (Z.eqb_spec (Z.of_nat i') (-1)) as [Habs|_]; [lia|].
    destruct (Z.eqb_spec (Z.of_nat j' + 1) 0) as [Habs|_]; [lia|].
    cbn [negb andb].
    rewrite (@slice_is_between text i' j' "{"%char "}"%char (proj1 Hfirst') (proj1 Hlast')).
    rewrite <- (first_index_unique Hfirst Hfirst'), <- (last_index_unique Hlast Hlast').
    rewrite Hpart. reflexivity.
  - unfold BaseAIAssistant._validate_json_response.
    destruct (json_loads text) as [v0|e0] eqn:Hwhole.
    { split; [discriminate|]. intros [H|[H _]]; discriminate H. }
    destruct e0;
      try (split; [discriminate|intros [H|[H _]]; discriminate H]).
    { split; [left; reflexivity|reflexivity]. }
    destruct (find_char_spec "{"%char text) as [[Hf Hnof]|[i [Hf Hfirst]]];
      destruct (rfind_char_spec "}"%char text) as [[Hr Hnor]|[j [Hr Hlast]]];
      rewrite Hf, Hr.
    + cbn. split; [|reflexivity]. intros _. right. split; [reflexivity|]. left. exact Hnof.
    + replace ((-1 =? -1)%Z) with true by reflexivity. cbn [negb andb].
      split; [|reflexivity]. intros _. right. split; [reflexivity|]. left. exact Hnof.
    + replace ((-1 + 1 =? 0)%Z) with true by reflexivity. rewrite andb_false_r.
      split; [|reflexivity]. intros _. right. split; [reflexivity|]. right. left.
      exact Hnor.
    + destruct (Z.eqb_spec (Z.of_nat i) (-1)) as [Habs|_]; [lia|].
      destruct (Z.eqb_spec (Z.of_nat j + 1) 0) as [Habs|_]; [lia|].
      cbn [negb andb].
      rewrite (@slice_is_between text i j "{"%char "}"%char (proj1 Hfirst) (proj1 Hlast)).
      destruct (json_loads (between text i j)) as [v1|e1] eqn:Hpart.
      * split; [discriminate|].
        intros [H|[_ [Hno|[Hno|[i' [j' [e' [Hi' [Hj' Hnone]]]]]]]]].
        -- discriminate H.
        -- exfalso. apply Hno. exists i. apply Hfirst.
        -- exfalso. apply Hno. exists j. apply Hlast.
        -- rewrite (first_index_unique Hi' Hfirst), (last_index_unique Hj' Hlast)
             in Hnone.
           congruence.
      * split; [|reflexivity]. intros _. right. split; [reflexivity|].
        right. right. exists i, j, e1. auto.
Qed.

Lemma json_salvage_witness :
  BaseAIAssistant._validate_json_response Sample.toy_loads "Sure: {} done" = Ret (JObj []).
Proof.
  apply (proj1 (proj2 (json_salvage Sample.toy_loads "Sure: {} done")) 6%nat 7%nat).
  - reflexivity.
  - split; [reflexivity|].
    intros k Hk. do 6 (destruct k as [|k]; [discriminate|]). lia.
  - split; [reflexivity|].
    intros k Hk. do 8 (destruct k as [|k]; [lia|]).
    do 5 (destruct k as [|k]; [discriminate|]). cbn. discriminate.
  - reflexivity.
Defined.

(** A closing brace before the only opening brace: the slice is empty and
    the call raises. *)
Example json_salvage_crossed :
  BaseAIAssistant._validate_json_response Sample.toy_loads "} {" = Raise ValueError.
Proof. reflexivity. Qed.

(** ** [DeepSeekAIAssistant._parse_response] *)

Lemma occurs_cons :
  forall (c a : ascii) (s : string),
    occurs c (String a s) <-> a = c \/ occurs c s.
Proof.
  intros c a s. unfold occurs. split.
  - intros [[|i] H]; cbn in H; [left; congruence|right; exists i; exact H].
  - intros [->|[i H]]; [exists 0%nat; reflexivity|exists (S i); exact H].
Qed.

Lemma occurs_nil : forall c : ascii, ~ occurs c EmptyString.
Proof. intros c [i H]. destruct i; discriminate H. Qed.

Lemma occurs_append :
  forall (c : ascii) (a b : string),
    occurs c (a ++ b)%string -> occurs c a \/ occurs c b.
Proof.
  intros c a b. induction a as [|x a IH]; cbn [String.append]; intros H.
  - right. exact H.
  - apply occurs_cons in H. destruct H as [->|H].
    + left. apply occurs_cons. left. reflexivity.
    + destruct (IH H) as [Ha|Hb]; [left; apply occurs_cons; right; exact Ha|right; exact Hb].
Qed.

Lemma replace_char_removes :
  forall (old : ascii) (new s : string),
    ~ occurs old new -> ~ occurs old (DeepSeekResponse.replace_char old new s).
Proof.
  intros old new s Hnew. induction s as [|c s IH]; cbn [DeepSeekResponse.replace_char].
  - apply occurs_nil.
  - destruct (Ascii.eqb c old) eqn:E.
    + intros H. apply occurs_append in H. tauto.
    + intros H. apply occurs_cons in H. destruct H as [->|H]; [|tauto].
      rewrite Ascii.eqb_refl in E. discriminate E.
Qed.

Lemma replace_char_brings_nothing :
  forall (c old : ascii) (new s : string),
    ~ occurs c new -> ~ occurs c s ->
    ~ occurs c (DeepSeekResponse.replace_char old new s).
Proof.
  intros c old new s Hnew. induction s as [|x s IH]; cbn [DeepSeekResponse.replace_char];
    intros Hs.
  - exact Hs.
  - assert (Hx : x <> c) by (intros ->; apply Hs, occurs_cons; left; reflexivity).
    assert (Hrest : ~ occurs c s) by (intros H; apply Hs, occurs_cons; right; exact H).
    destruct (Ascii.eqb x old).
    + intros H. apply occurs_append in H. tauto.
    + intros H. apply occurs_cons in H. tauto.
Qed.

Lemma clean_has_no_separator :
  forall s : string,
    ~ occurs ";"%char (DeepSeekResponse.clean s)
    /\ ~ occurs "010"%char (DeepSeekResponse.clean s).
Proof.
  intros s. unfold DeepSeekResponse.clean. split.
  - apply replace_char_removes. intros H. apply occurs_cons in H.
    destruct H as [H|H]; [discriminate H|exact (occurs_nil H)].
  - apply replace_char_brings_nothing.
    + intros H. apply occurs_cons in H.
      destruct H as [H|H]; [discriminate H|exact (occurs_nil H)].
    + apply replace_char_removes. apply occurs_nil.
Qed.

(** X9.  A [ValueError] never leaves [_parse_response]: a content that
    is not JSON comes back wrapped under the key "content".  What can
    escape is the [AttributeError], [TypeError] or [KeyError] of a
    response that has not the expected shape, or an exception of
    [json.loads] on the cleaned content that is no [ValueError] (the
    [RecursionError] of a text nested too deep), which neither handler
    catches.  A response without choices is handed on as it is. *)
Theorem parse_response_failures :
  forall (json_loads : string -> res json) (response : json),
    (forall e, DeepSeekResponse._parse_response json_loads response = Raise e ->
               is_value_error e = false
               /\ (e = AttributeError \/ e = TypeError \/ e = KeyError
                   \/ exists s, json_loads (DeepSeekResponse.clean s) = Raise e))
    /\ (forall fields,
          response = JObj fields ->
          match dict_get fields "choices" with
          | Some choices => truthy choices = false
          | None => True
          end ->
          DeepSeekResponse._parse_response json_loads response = Ret response).
Proof.
  intros json_loads response. split.
  - intros e. unfold DeepSeekResponse._parse_response.
    destruct response as [| b | q | s | l | fields]; cbn [DeepSeekResponse.get bind];
      try (intros H; injection H as <-; split; [reflexivity|tauto]).
    destruct (dict_get fields "choices") as [choices|]; [|discriminate].
    destruct (truthy choices) eqn:Htruthy; [|discriminate].
    destruct choices as [| b | q | s | l | its]; cbn [len bind];
      try (intros H; injection H as <-; split; [reflexivity|tauto]).
    + destruct s as [|c s]; [discriminate Htruthy|].
      cbn. intros H. injection H as <-. split; [reflexivity|tauto].
    + destruct l as [|choice rest]; [discriminate Htruthy|].
      cbn [List.length Nat.ltb Nat.leb DeepSeekResponse.first list_item nth_error bind].
      destruct (subscript choice "message") as [message|e1] eqn:E1; cbn [bind].
      2:{ intros H. injection H as <-. unfold subscript, getitem in E1.
          destruct choice; try (injection E1 as <-; split; [reflexivity|tauto]).
          destruct (dict_get _ _); [discriminate|].
          injection E1 as <-. split; [reflexivity|tauto]. }
      destruct (subscript message "content") as [content|e2] eqn:E2; cbn [bind].
      2:{ intros H. injection H as <-. unfold subscript, getitem in E2.
          destruct message; try (injection E2 as <-; split; [reflexivity|tauto]).
          destruct (dict_get _ _); [discriminate|].
          injection E2 as <-. split; [reflexivity|tauto]. }
      destruct content as [| b | q | s | l | its]; cbn [DeepSeekResponse.text_of bind];
        try (intros H; injection H as <-; split; [reflexivity|tauto]).
      destruct (BaseAIAssistant._validate_json_response json_loads _) as [v|e3] eqn:E3;
        [discriminate|].
      destruct (is_value_error e3) eqn:Hkind; [discriminate|].
      intros H. injection H as <-. split; [exact Hkind|].
      destruct (validate_json_response_raises _ _ E3) as [->|[Hwhole _]];
        [discriminate Hkind|].
      right. right. right. exists s. exact Hwhole.
    + destruct its as [|kv its]; [discriminate Htruthy|].
      cbn. intros H. injection H as <-. split; [reflexivity|tauto].
  - intros fields -> Hchoices. unfold DeepSeekResponse._parse_response.
    cbn [DeepSeekResponse.get bind].
    destruct (dict_get fields "choices") as [choices|]; [|reflexivity].
    rewrite Hchoices. reflexivity.
Qed.

(** X10.  On a response of the expected shape [_parse_response] returns
    the JSON value that [_validate_json_response] found in the cleaned
    content, or the cleaned content under the key "content" when that
    raised [ValueError]; it raises only what [json.loads] raised on the
    cleaned content, and only if that is no [ValueError].  So it returns
    whenever [json.loads] answers the cleaned content with a value or a
    [ValueError].  The cleaned content holds no semicolon and no
    newline. *)
Theorem parse_response_on_text :
  forall (json_loads : string -> res json) (response : dict)
         (choice : json) (rest : list json) (message : json) (s : string),
    dict_get response "choices" = Some (JList (choice :: rest)) ->
    subscript choice "message" = Ret message ->
    subscript message "content" = Ret (JStr s) ->
    let content := DeepSeekResponse.clean s in
    ((exists v,
        DeepSeekResponse._parse_response json_loads (JObj response) = Ret v
        /\ (BaseAIAssistant._validate_json_response json_loads content = Ret v
            \/ (BaseAIAssistant._validate_json_response json_loads content
                = Raise ValueError
                /\ v = JObj [("content"%string, JStr content)])))
     \/ (exists e,
           DeepSeekResponse._parse_response json_loads (JObj response) = Raise e
           /\ json_loads content = Raise e
           /\ is_value_error e = false))
    /\ ((forall e, json_loads content = Raise e -> is_value_error e = true) ->
        exists v, DeepSeekResponse._parse_response json_loads (JObj response) = Ret v)
    /\ ~ occurs ";"%char content
    /\ ~ occurs "010"%char content.
Proof.
  intros json_loads response choice rest message s Hchoices Hmessage Hcontent content.
  unfold DeepSeekResponse._parse_response.
  cbn [DeepSeekResponse.get bind]. rewrite Hchoices.
  cbn [truthy len bind List.length Nat.ltb Nat.leb DeepSeekResponse.first list_item
       nth_error].
  rewrite Hmessage. cbn [bind]. rewrite Hcontent. cbn [bind DeepSeekResponse.text_of].
  fold content.
  destruct (clean_has_no_separator s) as [Hsemi Hline]. fold content in Hsemi, Hline.
  destruct (BaseAIAssistant._validate_json_response json_loads content) as [v|e] eqn:E.
  - split; [left; exists v; split; [reflexivity|left; reflexivity]|].
    split; [intros _; exists v; reflexivity|]. split; assumption.
  - destruct (validate_json_response_raises _ _ E) as [->|[Hwhole Hother]].
    + cbn [is_value_error].
      split; [left; exists (JObj [("content"%string, JStr content)]);
              split; [reflexivity|right; split; reflexivity]|].
      split; [intros _; eexists; reflexivity|]. split; assumption.
    + destruct (is_value_error e) eqn:Hkind.
      * destruct e; try discriminate Hkind; [|contradiction Hother; reflexivity].
        split; [left; exists (JObj [("content"%string, JStr content)]);
                split; [reflexivity|right; split; reflexivity]|].
        split; [intros _; eexists; reflexivity|]. split; assumption.
      * split; [right; exists e; split; [reflexivity|split; [exact Hwhole|exact Hkind]]|].
        split; [|split; assumption].
        intros Hvalue. rewrite (Hvalue e Hwhole) in Hkind. discriminate Hkind.
Qed.

Lemma parse_response_on_text_witness :
  let response :=
    [("choices"%string,
      JList [JObj [("message"%string, JObj [("content"%string, JStr "a;b")])]])] in
  let content := DeepSeekResponse.clean "a;b" in
  ((exists v,
      DeepSeekResponse._parse_response Sample.no_json (JObj response) = Ret v
      /\ (BaseAIAssistant._validate_json_response Sample.no_json content = Ret v
          \/ (BaseAIAssistant._validate_json_response Sample.no_json content
              = Raise ValueError
              /\ v = JObj [("content"%string, JStr content)])))
   \/ (exists e,
         DeepSeekResponse._parse_response Sample.no_json (JObj response) = Raise e
         /\ Sample.no_json content = Raise e
         /\ is_value_error e = false))
  /\ ((forall e, Sample.no_json content = Raise e -> is_value_error e = true) ->
      exists v, DeepSeekResponse._parse_response Sample.no_json (JObj response) = Ret v)
  /\ ~ occurs ";"%char content
  /\ ~ occurs "010"%char content.
Proof.
  apply (@parse_response_on_text Sample.no_json
           [("choices"%string,
             JList [JObj [("message"%string, JObj [("content"%string, JStr "a;b")])]])]
           (JObj [("message"%string, JObj [("content"%string, JStr "a;b")])])
           [] (JObj [("content"%string, JStr "a;b")]) "a;b");
    reflexivity.
Defined.

(** A reply in plain text: the semicolon becomes a comma, the blanks at
    both ends go, and the text comes back under "content".  A reply
    nested deeper than the parser's stack: its [RecursionError] leaves
    [_parse_response]. *)
Example plain_text_reply :
  DeepSeekResponse._parse_response Sample.no_json
    (JObj [("choices"%string,
            JList [JObj [("message"%string,
                          JObj [("content"%string, JStr "  a;b ")])]])])
  = Ret (JObj [("content"%string, JStr "a,b")])
  /\ DeepSeekResponse._parse_response Sample.shallow_loads
       (JObj [("choices"%string,
               JList [JObj [("message"%string,
                             JObj [("content"%string, JStr "[[[{}")])]])])
     = Raise RecursionError.
Proof. vm_compute. split; reflexivity. Qed.

(** ** The two retry loops of [DeepSeekAIAssistant] together *)

Section NestedRetries.

Variable json_loads : string -> option json.
Variable loads : string -> res json.
Variable endpoint : json -> nat -> Q -> DeepSeekAIAssistant.reply.
Variable acquire_token : io DeepSeekAIAssistant.net unit.
Variable _prepare_request_data : io DeepSeekAIAssistant.net json.
Variable max_retries timeout : Z.
Variable format_text : string.

Hypothesis acquire_keeps : keeps_posts acquire_token.
Hypothesis prepare_keeps : keeps_posts _prepare_request_data.

Lemma send_request_post_count :
  forall (request_data : json) (w : DeepSeekAIAssistant.net),
    (List.length (DeepSeekAIAssistant.posts
                    (fst (DeepSeekAIAssistant._send_request endpoint max_retries timeout
                            request_data w)))
     <= List.length (DeepSeekAIAssistant.posts w) + Z.to_nat (max_retries + 1))%nat.
Proof.
  intros request_data w. unfold DeepSeekAIAssistant._send_request, range.
  destruct (Z.le_gt_cases 0 max_retries) as [Hpos|Hneg].
  - destruct (@send_loop_shape endpoint max_retries request_data
                (Z.to_nat (max_retries + 1)) 0%nat (inject_Z timeout) w)
      as [n [Hn [_ [Hposts _]]]]; [lia|].
    rewrite Hposts. lia.
  - replace (Z.to_nat (max_retries + 1)) with 0%nat by lia. cbn. lia.
Qed.

Lemma try_block_post_count :
  forall w : DeepSeekAIAssistant.net,
    (List.length (DeepSeekAIAssistant.posts
                    (fst (BaseAIAssistant.try_block json_loads acquire_token
                            _prepare_request_data
                            (DeepSeekAIAssistant._send_request endpoint max_retries timeout)
                            (parse_hook loads) format_text w)))
     <= List.length (DeepSeekAIAssistant.posts w) + Z.to_nat (max_retries + 1))%nat.
Proof.
  intros w. unfold BaseAIAssistant.try_block, io_bind.
  pose proof (acquire_keeps w) as Ha.
  destruct (acquire_token w) as [w1 [[]|e1]]; cbn [fst] in Ha |- *;
    [|rewrite Ha; lia].
  pose proof (prepare_keeps w1) as Hp.
  destruct (_prepare_request_data w1) as [w2 [request_data|e2]]; cbn [fst] in Hp |- *;
    [|rewrite Hp, Ha; lia].
  pose proof (send_request_post_count request_data w2) as Hs.
  destruct (DeepSeekAIAssistant._send_request endpoint max_retries timeout request_data w2)
    as [w3 [response|e3]]; cbn [fst] in Hs |- *;
    [|rewrite Hp, Ha in Hs; exact Hs].
  rewrite Hp, Ha in Hs. unfold parse_hook.
  destruct (DeepSeekResponse._parse_response loads response) as [parsed|e4];
    [|exact Hs].
  destruct parsed as [| b | q | s | l | fields]; try exact Hs.
  destruct (BaseAIAssistant._validate_response_format json_loads fields format_text);
    exact Hs.
Qed.

Lemma request_loop_post_count :
  forall (fuel : nat) (retry_count : Z) (w : DeepSeekAIAssistant.net) (a : nat)
         (ds : list Z) (r : BaseAIAssistant.run DeepSeekAIAssistant.net),
    BaseAIAssistant.request_loop json_loads acquire_token _prepare_request_data
      (DeepSeekAIAssistant._send_request endpoint max_retries timeout)
      (parse_hook loads) DeepSeekAIAssistant.sleep max_retries format_text
      fuel retry_count w a ds = Some r ->
    (a <= BaseAIAssistant.attempts r)%nat
    /\ (List.length (DeepSeekAIAssistant.posts (BaseAIAssistant.final r))
        <= List.length (DeepSeekAIAssistant.posts w)
           + (BaseAIAssistant.attempts r - a) * Z.to_nat (max_retries + 1))%nat.
Proof.
  induction fuel as [|fuel IH]; intros retry_count w a ds r Hrun; [discriminate|].
  cbn [BaseAIAssistant.request_loop] in Hrun.
  destruct (retry_count <=? max_retries)%Z.
  - pose proof (try_block_post_count w) as Htry.
    destruct (BaseAIAssistant.try_block _ _ _ _ _ _ w) as [w1 [parsed|e]];
      cbn [fst] in Htry.
    + injection Hrun as <-. cbn [BaseAIAssistant.attempts BaseAIAssistant.final].
      split; [lia|]. replace (S a - a)%nat with 1%nat by lia. lia.
    + destruct (retry_count + 1 <=? max_retries)%Z;
        apply IH in Hrun; destruct Hrun as [Hle Hposts];
        cbn [DeepSeekAIAssistant.sleep DeepSeekAIAssistant.posts] in Hposts;
        (split; [lia|]);
        replace (BaseAIAssistant.attempts r - a)%nat
          with (S (BaseAIAssistant.attempts r - S a)) by lia;
        cbn [Nat.mul]; lia.
  - injection Hrun as <-. cbn [BaseAIAssistant.attempts BaseAIAssistant.final].
    split; [lia|]. lia.
Qed.

End NestedRetries.

(** X11.  The two retry loops multiply.  [request_ai_response] of the
    DeepSeek assistant enters its [try] block up to [max_retries + 1]
    times and each entry runs [_send_request], which posts up to
    [max_retries + 1] times itself: one logical request makes at most
    [(max_retries + 1)^2] calls of [session.post].  ([json.loads] is the
    same for [_parse_response], which sees its exceptions, and for
    [_validate_response_format], which catches them all.) *)
Theorem nested_retries_post_bound :
  forall (json_loads : string -> res json)
         (endpoint : json -> nat -> Q -> DeepSeekAIAssistant.reply)
         (acquire_token : io DeepSeekAIAssistant.net unit)
         (_prepare_request_data : io DeepSeekAIAssistant.net json)
         (max_retries timeout : Z) (format_text : string)
         (w : DeepSeekAIAssistant.net),
    keeps_posts acquire_token ->
    keeps_posts _prepare_request_data ->
    (0 <= max_retries)%Z ->
    exists r,
      BaseAIAssistant.request_ai_response (fun text => value_of (json_loads text))
        acquire_token _prepare_request_data
        (DeepSeekAIAssistant._send_request endpoint max_retries timeout)
        (parse_hook json_loads) DeepSeekAIAssistant.sleep max_retries format_text w
      = Some r
      /\ (List.length (DeepSeekAIAssistant.posts (BaseAIAssistant.final r))
          <= List.length (DeepSeekAIAssistant.posts w)
             + Z.to_nat (max_retries + 1) * Z.to_nat (max_retries + 1))%nat.
Proof.
  intros json_loads endpoint acquire_token _prepare_request_data max_retries timeout
    format_text w Hacquire Hprepare Hmax.
  destruct (@request_ai_response_spec (fun text => value_of (json_loads text))
              DeepSeekAIAssistant.net acquire_token
              _prepare_request_data
              (DeepSeekAIAssistant._send_request endpoint max_retries timeout)
              (parse_hook json_loads) DeepSeekAIAssistant.sleep max_retries
              format_text w Hmax) as [r [Hrun [Hbound _]]].
  exists r. split; [exact Hrun|].
  unfold BaseAIAssistant.request_ai_response in Hrun.
  destruct (@request_loop_post_count (fun text => value_of (json_loads text)) json_loads
              endpoint acquire_token
              _prepare_request_data max_retries timeout format_text Hacquire Hprepare
              _ _ _ _ _ _ Hrun) as [_ Hposts].
  rewrite Nat.sub_0_r in Hposts.
  assert (BaseAIAssistant.attempts r * Z.to_nat (max_retries + 1)
          <= Z.to_nat (max_retries + 1) * Z.to_nat (max_retries + 1))%nat
    by (apply Nat.mul_le_mono_r; lia).
  lia.
Qed.

Lemma nested_retries_post_bound_witness :
  exists r,
    BaseAIAssistant.request_ai_response (fun text => value_of (Sample.no_json text))
      (io_ret tt) (io_ret JNull)
      (DeepSeekAIAssistant._send_request Sample.dead_endpoint 3 60)
      (parse_hook Sample.no_json) DeepSeekAIAssistant.sleep 3 EmptyString
      (DeepSeekAIAssistant.mkNet [] [])
    = Some r
    /\ (List.length (DeepSeekAIAssistant.posts (BaseAIAssistant.final r))
        <= List.length (@nil Q) + Z.to_nat (3 + 1) * Z.to_nat (3 + 1))%nat.
Proof.
  apply (@nested_retries_post_bound Sample.no_json Sample.dead_endpoint
           (io_ret tt) (io_ret JNull) 3 60 EmptyString (DeepSeekAIAssistant.mkNet [] [])).
  - intros w. reflexivity.
  - intros w. reflexivity.
  - lia.
Defined.


(** ** tara_objs/threat_scenario_attack_feasibility.py *)

(** X12.  The [from_string] of each of the five factor enums inverts
    [value]: it answers a member exactly for the value of that member,
    so every member can be reached and no two spellings reach the same
    one. *)
Theorem factor_from_string_inverts_value :
  (forall v l, AttackFeasibility.from_string AttackFeasibility.time_consuming_members
                 AttackFeasibility.time_consuming_value v = Some l
               <-> AttackFeasibility.time_consuming_value l = v)
  /\ (forall v l, AttackFeasibility.from_string AttackFeasibility.expertise_members
                    AttackFeasibility.expertise_value v = Some l
                  <-> AttackFeasibility.expertise_value l = v)
  /\ (forall v l, AttackFeasibility.from_string AttackFeasibility.knowledge_members
                    AttackFeasibility.knowledge_value v = Some l
                  <-> AttackFeasibility.knowledge_value l = v)
  /\ (forall v l, AttackFeasibility.from_string AttackFeasibility.window_members
                    AttackFeasibility.window_value v = Some l
                  <-> AttackFeasibility.window_value l = v)
  /\ (forall v l, AttackFeasibility.from_string AttackFeasibility.equipment_members
                    AttackFeasibility.equipment_value v = Some l
                  <-> AttackFeasibility.equipment_value l = v).
Proof.
  unfold AttackFeasibility.from_string.
  repeat split; intros H;
    try (apply find_some in H; destruct H as [_ H]; apply String.eqb_eq in H; exact H);
    subst v; destruct l; reflexivity.
Qed.

Lemma points_range :
  forall self : ThreatScenarioAttackFeasibility.t,
    (0 <= points AttackFeasibility.time_consuming_values
            (ThreatScenarioAttackFeasibility.time_consuming self) <= 19)%Z
    /\ (0 <= points AttackFeasibility.expertise_values
               (ThreatScenarioAttackFeasibility.expertise self) <= 8)%Z
    /\ (0 <= points AttackFeasibility.knowledge_values
               (ThreatScenarioAttackFeasibility.knowledge_about_toe self) <= 11)%Z
    /\ (0 <= points AttackFeasibility.window_values
               (ThreatScenarioAttackFeasibility.window_of_opportunity self) <= 10)%Z
    /\ (0 <= points AttackFeasibility.equipment_values
               (ThreatScenarioAttackFeasibility.equipment self) <= 9)%Z.
Proof.
  intros [i s p [t|] [e|] [k|] [w|] [q|] d r]; cbn;
    try destruct t; try destruct e; try destruct k; try destruct w; try destruct q;
    cbn; lia.
Qed.

Lemma difficulty_is_sum :
  forall self : ThreatScenarioAttackFeasibility.t,
    AttackFeasibility.calculate_difficulty self
    = (points AttackFeasibility.time_consuming_values
         (ThreatScenarioAttackFeasibility.time_consuming self)
       + points AttackFeasibility.expertise_values
           (ThreatScenarioAttackFeasibility.expertise self)
       + points AttackFeasibility.knowledge_values
           (ThreatScenarioAttackFeasibility.knowledge_about_toe self)
       + points AttackFeasibility.window_values
           (ThreatScenarioAttackFeasibility.window_of_opportunity self)
       + points AttackFeasibility.equipment_values
           (ThreatScenarioAttackFeasibility.equipment self))%Z.
Proof.
  intros self. unfold AttackFeasibility.calculate_difficulty, points,
    AttackFeasibility.add_factor.
  destruct (ThreatScenarioAttackFeasibility.time_consuming self),
    (ThreatScenarioAttackFeasibility.expertise self),
    (ThreatScenarioAttackFeasibility.knowledge_about_toe self),
    (ThreatScenarioAttackFeasibility.window_of_opportunity self),
    (ThreatScenarioAttackFeasibility.equipment self); lia.
Qed.

Lemma difficulty_range :
  forall self : ThreatScenarioAttackFeasibility.t,
    (0 <= AttackFeasibility.calculate_difficulty self <= 57)%Z.
Proof.
  intros self. rewrite difficulty_is_sum. pose proof (points_range self). lia.
Qed.

Lemma rating_by_difficulty :
  forall self : ThreatScenarioAttackFeasibility.t,
    exists r,
      snd (AttackFeasibility.calculate_attack_feasibility_rating self) = Ret r
      /\ (feasibility_rank r = 0 <-> 25 <= AttackFeasibility.calculate_difficulty self)%Z
      /\ (feasibility_rank r <= 1 <-> 20 <= AttackFeasibility.calculate_difficulty self)%Z
      /\ (feasibility_rank r <= 2 <-> 14 <= AttackFeasibility.calculate_difficulty self)%Z
      /\ (0 <= feasibility_rank r <= 3)%Z.
Proof.
  intros self. unfold AttackFeasibility.calculate_attack_feasibility_rating.
  cbv zeta.
  destruct (25 <=? _)%Z eqn:E25;
    [|destruct (20 <=? _)%Z eqn:E20; [|destruct (14 <=? _)%Z eqn:E14]];
    eexists; (split; [reflexivity|]); cbn [feasibility_rank]; lia.
Qed.

(** X13.  The difficulty that [calculate_difficulty] adds up lies
    between 0 and 57, and it grows with every factor; the rating that
    [calculate_attack_feasibility_rating] derives from it never goes up
    when a factor gets harder. *)
Theorem harder_attack_is_less_feasible :
  forall a b : ThreatScenarioAttackFeasibility.t,
    harder a b ->
    (0 <= AttackFeasibility.calculate_difficulty a
     <= AttackFeasibility.calculate_difficulty b)%Z
    /\ (AttackFeasibility.calculate_difficulty b <= 57)%Z
    /\ exists ra rb,
         snd (AttackFeasibility.calculate_attack_feasibility_rating a) = Ret ra
         /\ snd (AttackFeasibility.calculate_attack_feasibility_rating b) = Ret rb
         /\ (feasibility_rank rb <= feasibility_rank ra)%Z.
Proof.
  intros a b (Ht & He & Hk & Hw & Hq).
  pose proof (difficulty_range a) as Ha. pose proof (difficulty_range b) as Hb.
  assert (Hle : (AttackFeasibility.calculate_difficulty a
                 <= AttackFeasibility.calculate_difficulty b)%Z)
    by (rewrite !difficulty_is_sum; lia).
  split; [lia|]. split; [lia|].
  destruct (rating_by_difficulty a) as [ra [Hra [Ha0 [Ha1 [Ha2 Ha3]]]]].
  destruct (rating_by_difficulty b) as [rb [Hrb [Hb0 [Hb1 [Hb2 Hb3]]]]].
  exists ra, rb. split; [exact Hra|]. split; [exact Hrb|]. lia.
Qed.

Lemma harder_attack_is_less_feasible_witness :
  (0 <= AttackFeasibility.calculate_difficulty Sample.threat
   <= AttackFeasibility.calculate_difficulty
        (AttackFeasibility.with_equipment (Some EquipmentLevel.BESPOKE) Sample.threat))%Z
  /\ (AttackFeasibility.calculate_difficulty
        (AttackFeasibility.with_equipment (Some EquipmentLevel.BESPOKE) Sample.threat)
      <= 57)%Z
  /\ exists ra rb,
       snd (AttackFeasibility.calculate_attack_feasibility_rating Sample.threat) = Ret ra
       /\ snd (AttackFeasibility.calculate_attack_feasibility_rating
                 (AttackFeasibility.with_equipment (Some EquipmentLevel.BESPOKE)
                    Sample.threat)) = Ret rb
       /\ (feasibility_rank rb <= feasibility_rank ra)%Z.
Proof.
  apply (@harder_attack_is_less_feasible Sample.threat
           (AttackFeasibility.with_equipment (Some EquipmentLevel.BESPOKE) Sample.threat)).
  unfold harder. cbn. lia.
Defined.

(** ** The feasibility stage of tara_workflow.py *)

Lemma io_bind_inv :
  forall (W A B : Type) (m : io W A) (k : A -> io W B) (w w' : W) (r : res B),
    io_bind m k w = (w', r) ->
    (exists w1 x, m w = (w1, Ret x) /\ k x w1 = (w', r))
    \/ (exists e, m w = (w', Raise e) /\ r = Raise e).
Proof.
  intros W A B m k w w' r. unfold io_bind.
  destruct (m w) as [w1 [x|e]]; intros H.
  - left. exists w1, x. split; [reflexivity|exact H].
  - right. exists e. injection H as <- <-. split; reflexivity.
Qed.

Lemma only_factors_refl : forall h, only_factors h h.
Proof. intros h. unfold only_factors. repeat split; reflexivity. Qed.

Lemma only_factors_trans :
  forall h1 h2 h3, only_factors h1 h2 -> only_factors h2 h3 -> only_factors h1 h3.
Proof. unfold only_factors. intros h1 h2 h3 H12 H23. intuition congruence. Qed.

Lemma field_inv :
  forall (analysis_result : dict) (key : string) (h h' : Workflow.heap) (r : res json),
    Workflow.field analysis_result key h = (h', r) ->
    h' = h /\ (forall e, r = Raise e -> e = KeyError).
Proof.
  intros analysis_result key h h' r. unfold Workflow.field, getitem. intros H.
  injection H as <- <-. split; [reflexivity|].
  destruct (dict_get analysis_result key); intros e He; congruence.
Qed.

Lemma on_feasibility_inv :
  forall (m : io ThreatScenarioAttackFeasibility.t unit) (h h' : Workflow.heap)
         (r : res unit),
    Workflow.on_artifact (FeasibilityStage.on_feasibility m) h = (h', r) ->
    Workflow.issued h' = Workflow.issued h
    /\ Workflow.slept h' = Workflow.slept h
    /\ AssetTaraInfo.asset_cybersecurity_attribute (Workflow.artifact h')
       = AssetTaraInfo.asset_cybersecurity_attribute (Workflow.artifact h)
    /\ AssetTaraInfo.damage_scenario_impact_level (Workflow.artifact h')
       = AssetTaraInfo.damage_scenario_impact_level (Workflow.artifact h)
    /\ AssetTaraInfo.risk_treatment_decision (Workflow.artifact h')
       = AssetTaraInfo.risk_treatment_decision (Workflow.artifact h)
    /\ AssetTaraInfo.cybersecurity_control_requirement (Workflow.artifact h')
       = AssetTaraInfo.cybersecurity_control_requirement (Workflow.artifact h)
    /\ ((threat_of h = None /\ threat_of h' = None /\ r = Raise AttributeError)
        \/ exists t t', threat_of h = Some t /\ threat_of h' = Some t' /\ m t = (t', r)).
Proof.
  intros m [[attr dmg [t|] dec req] issued slept] h' r;
    unfold Workflow.on_artifact, FeasibilityStage.on_feasibility, threat_of;
    cbn [Workflow.artifact Workflow.issued Workflow.slept
         AssetTaraInfo.threat_scenario_attack_feasibility
         AssetTaraInfo.asset_cybersecurity_attribute
         AssetTaraInfo.damage_scenario_impact_level
         AssetTaraInfo.risk_treatment_decision
         AssetTaraInfo.cybersecurity_control_requirement].
  - destruct (m t) as [t' r'] eqn:Hm. intros H. injection H as <- <-.
    cbn. repeat split. right. exists t, t'.
    split; [reflexivity|]. split; [reflexivity|exact Hm].
  - intros H. injection H as <- <-. cbn. repeat split. left. repeat split.
Qed.

Lemma assign_parsed_inv :
  forall (A : Type) (parsed : res (option A))
         (store : option A -> ThreatScenarioAttackFeasibility.t
                  -> ThreatScenarioAttackFeasibility.t)
         (t t' : ThreatScenarioAttackFeasibility.t) (r : res unit),
    (forall v t, beside_factors (store v t) = beside_factors t) ->
    AttackFeasibility.assign_parsed parsed store t = (t', r) ->
    beside_factors t' = beside_factors t
    /\ (forall e, r = Raise e -> parsed = Raise e).
Proof.
  intros A parsed store t t' r Hstore. unfold AttackFeasibility.assign_parsed.
  destruct parsed as [v|e]; intros H; injection H as <- <-.
  - split; [apply Hstore|discriminate].
  - split; [reflexivity|]. intros e' He. injection He as <-. reflexivity.
Qed.

Lemma parse_enum_raises :
  forall (A : Type) (members : list A) (value : A -> string) (v : json) (e : exn),
    AttackFeasibility._parse_enum members value v = Raise e ->
    e = ValueError \/ e = TypeError.
Proof.
  intros A members value v e. unfold AttackFeasibility._parse_enum.
  destruct v; try (intros H; injection H as <-; tauto); try discriminate.
  destruct (AttackFeasibility.from_string _ _ _); [discriminate|].
  intros H; injection H as <-; tauto.
Qed.

Lemma factor_setter_inv :
  forall (m : io ThreatScenarioAttackFeasibility.t unit)
         (t t' : ThreatScenarioAttackFeasibility.t) (r : res unit),
    factor_setter m -> m t = (t', r) ->
    beside_factors t' = beside_factors t
    /\ (forall e, r = Raise e -> e = ValueError \/ e = TypeError).
Proof.
  intros m t t' r Hm H. destruct Hm as [v|v|v|v|v].
  - unfold AttackFeasibility.set_time_consuming in H.
    destruct (match v with JStr s => AttackFeasibility.time_consuming_alias s
                         | _ => None end).
    + injection H as <- <-. split; [reflexivity|discriminate].
    + apply assign_parsed_inv in H; [|reflexivity]. destruct H as [Hsame Hr].
      split; [exact Hsame|]. intros e He. eapply parse_enum_raises, Hr, He.
  - apply assign_parsed_inv in H; [|reflexivity]. destruct H as [Hsame Hr].
    split; [exact Hsame|]. intros e He. eapply parse_enum_raises, Hr, He.
  - apply assign_parsed_inv in H; [|reflexivity]. destruct H as [Hsame Hr].
    split; [exact Hsame|]. intros e He. eapply parse_enum_raises, Hr, He.
  - apply assign_parsed_inv in H; [|reflexivity]. destruct H as [Hsame Hr].
    split; [exact Hsame|]. intros e He. eapply parse_enum_raises, Hr, He.
  - apply assign_parsed_inv in H; [|reflexivity]. destruct H as [Hsame Hr].
    split; [exact Hsame|]. intros e He. eapply parse_enum_raises, Hr, He.
Qed.

Lemma setter_step :
  forall (m : io ThreatScenarioAttackFeasibility.t unit) (h h' : Workflow.heap)
         (r : res unit),
    factor_setter m ->
    Workflow.on_artifact (FeasibilityStage.on_feasibility m) h = (h', r) ->
    only_factors h h'
    /\ (forall e, r = Raise e -> e = ValueError \/ e = TypeError \/ e = AttributeError).
Proof.
  intros m h h' r Hm H. apply on_feasibility_inv in H.
  destruct H as (Hi & Hs & Ha & Hd & Hr & Hc & [(Hn & Hn' & ->)|(t & t' & Ht & Ht' & Hrun)]).
  - split; [|intros e He; injection He as <-; tauto].
    unfold only_factors. rewrite Hn, Hn'. repeat split; assumption.
  - destruct (@factor_setter_inv m t t' r Hm Hrun) as [Hsame Hraise].
    split; [|intros e He; destruct (Hraise e He); tauto].
    unfold only_factors. rewrite Ht, Ht'. cbn [option_map]. rewrite Hsame.
    repeat split; assumption.
Qed.

Lemma update_feasibility_rating_inv :
  forall (t t' : ThreatScenarioAttackFeasibility.t) (r : res unit),
    AttackFeasibility.update_feasibility_rating t = (t', r) ->
    r = Ret tt
    /\ factors t' = factors t
    /\ ThreatScenarioAttackFeasibility.threat_id t'
       = ThreatScenarioAttackFeasibility.threat_id t
    /\ ThreatScenarioAttackFeasibility.threat_scenario t'
       = ThreatScenarioAttackFeasibility.threat_scenario t
    /\ ThreatScenarioAttackFeasibility.attack_path t'
       = ThreatScenarioAttackFeasibility.attack_path t
    /\ ThreatScenarioAttackFeasibility.difficulty t'
       = Some (AttackFeasibility.calculate_difficulty t')
    /\ exists rating,
         ThreatScenarioAttackFeasibility.attack_feasibility_rating t' = Some rating
         /\ snd (AttackFeasibility.calculate_attack_feasibility_rating t') = Ret rating.
Proof.
  intros t t' r. unfold AttackFeasibility.update_feasibility_rating, io_bind,
    AttackFeasibility.calculate_attack_feasibility_rating.
  cbv zeta.
  destruct (25 <=? _)%Z eqn:E25;
    [|destruct (20 <=? _)%Z eqn:E20; [|destruct (14 <=? _)%Z eqn:E14]];
    intros H; injection H as <- <-;
    (split; [reflexivity|]); (split; [reflexivity|]); (split; [reflexivity|]);
    (split; [reflexivity|]); (split; [reflexivity|]); (split; [reflexivity|]);
    eexists; (split; [reflexivity|]);
    change (AttackFeasibility.calculate_difficulty
              (AttackFeasibility.with_attack_feasibility_rating _
                 (AttackFeasibility.with_difficulty _ t)))
      with (AttackFeasibility.calculate_difficulty t);
    rewrite ?E25, ?E20, ?E14; reflexivity.
Qed.

Ltac stage_step H Hacc :=
  let hn := fresh "h" in
  let x := fresh "x" in
  let Hm := fresh "Hm" in
  let Hr := fresh "Hr" in
  let e := fresh "e" in
  let Hnew := fresh "Hnew" in
  apply io_bind_inv in H;
  destruct H as [(hn & x & Hm & H)|(e & Hm & ->)];
  [ first
      [ apply field_inv in Hm; destruct Hm as [-> _]
      | apply setter_step in Hm; [|constructor]; destruct Hm as [Hm _];
        pose proof (only_factors_trans Hacc Hm) as Hnew;
        clear Hacc Hm; rename Hnew into Hacc ]
  | left; exists e; split; [reflexivity|];
    first
      [ apply field_inv in Hm; destruct Hm as [-> Hm]; split; [exact Hacc|];
        rewrite (Hm e eq_refl); intuition congruence
      | apply setter_step in Hm; [|constructor]; destruct Hm as [Hm Hr];
        split; [exact (only_factors_trans Hacc Hm)|];
        destruct (Hr e eq_refl) as [->|[->| ->]]; intuition congruence ] ].

Lemma apply_factors_shape :
  forall (analysis_result : dict) (h h' : Workflow.heap) (r : res unit),
    FeasibilityStage.apply_factors analysis_result h = (h', r) ->
    (exists e,
        r = Raise e /\ only_factors h h'
        /\ (e = KeyError \/ e = ValueError \/ e = TypeError \/ e = AttributeError))
    \/ (r = Ret tt
        /\ exists h1 t1 t',
             only_factors h h1
             /\ threat_of h1 = Some t1 /\ threat_of h' = Some t'
             /\ AttackFeasibility.update_feasibility_rating t1 = (t', Ret tt)
             /\ Workflow.issued h' = Workflow.issued h1
             /\ Workflow.slept h' = Workflow.slept h1
             /\ AssetTaraInfo.asset_cybersecurity_attribute (Workflow.artifact h')
                = AssetTaraInfo.asset_cybersecurity_attribute (Workflow.artifact h1)
             /\ AssetTaraInfo.damage_scenario_impact_level (Workflow.artifact h')
                = AssetTaraInfo.damage_scenario_impact_level (Workflow.artifact h1)
             /\ AssetTaraInfo.risk_treatment_decision (Workflow.artifact h')
                = AssetTaraInfo.risk_treatment_decision (Workflow.artifact h1)
             /\ AssetTaraInfo.cybersecurity_control_requirement (Workflow.artifact h')
                = AssetTaraInfo.cybersecurity_control_requirement (Workflow.artifact h1)).
Proof.
  intros analysis_result h h' r H. unfold FeasibilityStage.apply_factors in H.
  pose proof (only_factors_refl h) as Hacc.
  do 10 (stage_step H Hacc).
  apply on_feasibility_inv in H.
  destruct H as (Hi & Hs & Ha & Hd & Hr & Hc & [(Hn & Hn' & ->)|(t & t' & Ht & Ht' & Hrun)]).
  - left. exists AttributeError. split; [reflexivity|]. split; [|intuition congruence].
    eapply only_factors_trans; [exact Hacc|].
    unfold only_factors. rewrite Hn, Hn'. repeat split; assumption.
  - pose proof (update_feasibility_rating_inv _ Hrun) as [-> _].
    right. split; [reflexivity|]. eexists _, t, t'.
    split; [exact Hacc|]. repeat split; assumption.
Qed.

Lemma read_attack_path_inv :
  forall (h h1 : Workflow.heap) (r : res unit),
    Workflow.on_artifact (FeasibilityStage.on_feasibility (io_ret tt)) h = (h1, r) ->
    h1 = h
    /\ ((r = Ret tt /\ threat_of h <> None)
        \/ (r = Raise AttributeError /\ threat_of h = None)).
Proof.
  intros [[attr dmg [t|] dec req] issued slept] h1 r H;
    cbn in H; injection H as <- <-; (split; [reflexivity|]).
  - left. split; [reflexivity|discriminate].
  - right. split; reflexivity.
Qed.

Lemma analyze_asset_inv :
  forall (generator : nat -> Workflow.request -> option dict)
         (msg prompt format_text : string) (h h' : Workflow.heap) (r : res dict),
    (Workflow.analyze_asset generator msg prompt format_text h = (h', r)
     \/ Workflow.analyze_asset_async generator msg prompt format_text h = (h', r)) ->
    (h' = h /\ r = Raise ValueError)
    \/ (h' = Workflow.issue (Workflow.mkRequest msg prompt format_text) h
        /\ ((exists response, r = Ret response) \/ r = Raise RuntimeError)).
Proof.
  intros generator msg prompt format_text h h' r [H|H];
    unfold Workflow.analyze_asset, Workflow.analyze_asset_async in H;
    (destruct (_ || _); [injection H as <- <-; left; split; reflexivity|]);
    (destruct (generator _ _) as [response|]; injection H as <- <-; right;
     (split; [reflexivity|])); [left; exists response; reflexivity|right; reflexivity
                                |left; exists response; reflexivity|right; reflexivity].
Qed.

Section FeasibilityStageMore.

Variable generator : nat -> Workflow.request -> option dict.
Variable prepare_for_ai03 : AssetTaraInfo.t -> string.
Variable get_prompt06 : string.
Variable feasibility_format : string.

Lemma feasibility_stage_shape :
  forall (h h' : Workflow.heap) (r : res unit),
    (FeasibilityStage.get_possible_threat_scenario_attack_path_feasibilities
       generator prepare_for_ai03 get_prompt06 feasibility_format h = (h', r)
     \/ FeasibilityStage.get_possible_threat_scenario_attack_path_feasibilities_async
          generator prepare_for_ai03 get_prompt06 feasibility_format h = (h', r)) ->
    let request :=
      Workflow.mkRequest (prepare_for_ai03 (Workflow.artifact h)) get_prompt06
        feasibility_format in
    (exists e,
        r = Raise e
        /\ only_factors h
             (Workflow.mkHeap (Workflow.artifact h') (Workflow.issued h) (Workflow.slept h'))
        /\ (Workflow.issued h' = Workflow.issued h
            \/ Workflow.issued h' = Workflow.issued h ++ [request])
        /\ (e = AttributeError \/ e = ValueError \/ e = RuntimeError
            \/ e = KeyError \/ e = TypeError))
    \/ (r = Ret tt
        /\ exists h1 t1 t',
             only_factors (Workflow.issue request h) h1
             /\ threat_of h1 = Some t1 /\ threat_of h' = Some t'
             /\ AttackFeasibility.update_feasibility_rating t1 = (t', Ret tt)
             /\ Workflow.issued h' = Workflow.issued h1
             /\ Workflow.slept h' = Workflow.slept h1
             /\ AssetTaraInfo.asset_cybersecurity_attribute (Workflow.artifact h')
                = AssetTaraInfo.asset_cybersecurity_attribute (Workflow.artifact h1)
             /\ AssetTaraInfo.damage_scenario_impact_level (Workflow.artifact h')
                = AssetTaraInfo.damage_scenario_impact_level (Workflow.artifact h1)
             /\ AssetTaraInfo.risk_treatment_decision (Workflow.artifact h')
                = AssetTaraInfo.risk_treatment_decision (Workflow.artifact h1)
             /\ AssetTaraInfo.cybersecurity_control_requirement (Workflow.artifact h')
                = AssetTaraInfo.cybersecurity_control_requirement (Workflow.artifact h1)).
Proof.
  intros h h' r Hrun request.
  assert (H : exists analyze,
             (forall msg prompt format_text h0 h0' r0,
                 analyze msg prompt format_text h0 = (h0', r0) ->
                 Workflow.analyze_asset generator msg prompt format_text h0 = (h0', r0)
                 \/ Workflow.analyze_asset_async generator msg prompt format_text h0
                    = (h0', r0))
             /\ io_bind (Workflow.on_artifact (FeasibilityStage.on_feasibility (io_ret tt)))
                  (fun _ =>
                     io_bind (fun h => analyze (prepare_for_ai03 (Workflow.artifact h))
                                         get_prompt06 feasibility_format h)
                       (fun analysis_result =>
                          FeasibilityStage.apply_factors analysis_result)) h = (h', r)).
  { destruct Hrun as [Hrun|Hrun].
    - exists (Workflow.analyze_asset generator). split; [intros; left; assumption|exact Hrun].
    - exists (Workflow.analyze_asset_async generator).
      split; [intros; right; assumption|exact Hrun]. }
  clear Hrun. destruct H as (analyze & Hanalyze & H).
  apply io_bind_inv in H. destruct H as [(h1 & x & Hm & H)|(e & Hm & ->)].
  2:{ apply read_attack_path_inv in Hm. destruct Hm as [-> [[Hr _]|[Hr _]]];
        [discriminate Hr|]. injection Hr as ->.
      left. exists AttributeError. split; [reflexivity|].
      split; [destruct h; apply only_factors_refl|]. split; [left; reflexivity|tauto]. }
  apply read_attack_path_inv in Hm. destruct Hm as [-> _].
  apply io_bind_inv in H. destruct H as [(h2 & analysis_result & Hm & H)|(e & Hm & ->)].
  2:{ apply Hanalyze, analyze_asset_inv in Hm.
      destruct Hm as [[-> Hr]|[-> [[response Hr]|Hr]]]; try discriminate Hr;
        injection Hr as ->; left; eexists; (split; [reflexivity|]);
        (split; [destruct h; apply only_factors_refl|]).
      - split; [left; reflexivity|tauto].
      - split; [right; reflexivity|tauto]. }
  apply Hanalyze, analyze_asset_inv in Hm.
  destruct Hm as [[_ Hr]|[-> _]]; [discriminate Hr|].
  apply apply_factors_shape in H.
  destruct H as [(e & -> & Hof & He)|(-> & Hok)].
  - left. exists e. split; [reflexivity|].
    destruct Hof as (Hi & Hs & Ha & Hd & Hr & Hc & Ht).
    split; [|split; [right; exact Hi|intuition congruence]].
    unfold only_factors, threat_of in *.
    cbn [Workflow.artifact Workflow.issued Workflow.slept Workflow.issue] in *.
    repeat split; assumption.
  - right. split; [reflexivity|]. exact Hok.
Qed.

End FeasibilityStageMore.

(** X14.  When the feasibility stage (sync or async) returns, it has
    issued exactly one request, the threat scenario carries a rating and
    a difficulty that agree with its five factors as they now stand
    (the difficulty is their sum, between 0 and 57, and the rating is
    the one the thresholds give for it), and nothing else of the branch
    has changed. *)
Theorem feasibility_stage_success :
  forall (generator : nat -> Workflow.request -> option dict)
         (prepare_for_ai03 : AssetTaraInfo.t -> string)
         (get_prompt06 feasibility_format : string) (h h' : Workflow.heap),
    (FeasibilityStage.get_possible_threat_scenario_attack_path_feasibilities
       generator prepare_for_ai03 get_prompt06 feasibility_format h = (h', Ret tt)
     \/ FeasibilityStage.get_possible_threat_scenario_attack_path_feasibilities_async
          generator prepare_for_ai03 get_prompt06 feasibility_format h = (h', Ret tt)) ->
    Workflow.issued h'
    = Workflow.issued h
      ++ [Workflow.mkRequest (prepare_for_ai03 (Workflow.artifact h)) get_prompt06
            feasibility_format]
    /\ Workflow.slept h' = Workflow.slept h
    /\ AssetTaraInfo.asset_cybersecurity_attribute (Workflow.artifact h')
       = AssetTaraInfo.asset_cybersecurity_attribute (Workflow.artifact h)
    /\ AssetTaraInfo.damage_scenario_impact_level (Workflow.artifact h')
       = AssetTaraInfo.damage_scenario_impact_level (Workflow.artifact h)
    /\ AssetTaraInfo.risk_treatment_decision (Workflow.artifact h')
       = AssetTaraInfo.risk_treatment_decision (Workflow.artifact h)
    /\ AssetTaraInfo.cybersecurity_control_requirement (Workflow.artifact h')
       = AssetTaraInfo.cybersecurity_control_requirement (Workflow.artifact h)
    /\ exists t t' rating,
         threat_of h = Some t /\ threat_of h' = Some t'
         /\ ThreatScenarioAttackFeasibility.threat_id t'
            = ThreatScenarioAttackFeasibility.threat_id t
         /\ ThreatScenarioAttackFeasibility.threat_scenario t'
            = ThreatScenarioAttackFeasibility.threat_scenario t
         /\ ThreatScenarioAttackFeasibility.attack_path t'
            = ThreatScenarioAttackFeasibility.attack_path t
         /\ ThreatScenarioAttackFeasibility.difficulty t'
            = Some (AttackFeasibility.calculate_difficulty t')
         /\ (0 <= AttackFeasibility.calculate_difficulty t' <= 57)%Z
         /\ ThreatScenarioAttackFeasibility.attack_feasibility_rating t' = Some rating
         /\ snd (AttackFeasibility.calculate_attack_feasibility_rating t') = Ret rating.
Proof.
  intros generator prepare_for_ai03 get_prompt06 feasibility_format h h' Hrun.
  apply feasibility_stage_shape in Hrun. cbv zeta in Hrun.
  destruct Hrun as [(e & He & _)|(_ & h1 & t1 & t' & Hof & Ht1 & Ht' & Hup & Hi & Hs
                                  & Ha & Hd & Hr & Hc)]; [discriminate He|].
  destruct Hof as (Hi1 & Hs1 & Ha1 & Hd1 & Hr1 & Hc1 & Hb).
  cbn [Workflow.issue Workflow.issued Workflow.slept Workflow.artifact] in *.
  split; [congruence|]. split; [congruence|]. split; [congruence|].
  split; [congruence|]. split; [congruence|]. split; [congruence|].
  unfold threat_of in *.
  cbn [Workflow.issue Workflow.issued Workflow.slept Workflow.artifact] in *.
  rewrite Ht1 in Hb.
  destruct (AssetTaraInfo.threat_scenario_attack_feasibility (Workflow.artifact h))
    as [t|]; [|discriminate Hb].
  cbn [option_map] in Hb. injection Hb as Hid Hsc Hpath _ _.
  apply update_feasibility_rating_inv in Hup.
  destruct Hup as (_ & _ & Hid' & Hsc' & Hpath' & Hdiff & rating & Hrating & Hcalc).
  exists t, t', rating.
  split; [reflexivity|]. split; [exact Ht'|]. split; [congruence|].
  split; [congruence|]. split; [congruence|]. split; [exact Hdiff|].
  split; [apply difficulty_range|]. split; assumption.
Qed.

Lemma feasibility_stage_success_witness :
  exists h',
    FeasibilityStage.get_possible_threat_scenario_attack_path_feasibilities
      SampleMore.assessor Sample.serialise "prompt" "format" (Sample.heap None)
    = (h', Ret tt)
    /\ Workflow.issued h'
       = Workflow.issued (Sample.heap None)
         ++ [Workflow.mkRequest (Sample.serialise (Workflow.artifact (Sample.heap None)))
               "prompt" "format"]
    /\ option_map ThreatScenarioAttackFeasibility.attack_feasibility_rating (threat_of h')
       = Some (Some AttackFeasibilityRating.VERY_LOW).
Proof.
  eexists. split; [vm_compute; reflexivity|].
  split.
  - apply (@feasibility_stage_success SampleMore.assessor Sample.serialise
             "prompt" "format" (Sample.heap None)).
    left. vm_compute. reflexivity.
  - reflexivity.
Defined.

(** X15.  When the feasibility stage (sync or async) raises, it has
    issued at most one request and has not touched the rating or the
    difficulty of the threat scenario, nor anything of the branch but
    the five factors: the rating is only written once all five factors
    have been accepted.  What it raises is [AttributeError] (no threat
    scenario), [ValueError], [RuntimeError], [KeyError] or [TypeError]. *)
Theorem feasibility_stage_failure :
  forall (generator : nat -> Workflow.request -> option dict)
         (prepare_for_ai03 : AssetTaraInfo.t -> string)
         (get_prompt06 feasibility_format : string) (h h' : Workflow.heap) (e : exn),
    (FeasibilityStage.get_possible_threat_scenario_attack_path_feasibilities
       generator prepare_for_ai03 get_prompt06 feasibility_format h = (h', Raise e)
     \/ FeasibilityStage.get_possible_threat_scenario_attack_path_feasibilities_async
          generator prepare_for_ai03 get_prompt06 feasibility_format h = (h', Raise e)) ->
    only_factors h
      (Workflow.mkHeap (Workflow.artifact h') (Workflow.issued h) (Workflow.slept h'))
    /\ (Workflow.issued h' = Workflow.issued h
        \/ Workflow.issued h'
           = Workflow.issued h
             ++ [Workflow.mkRequest (prepare_for_ai03 (Workflow.artifact h)) get_prompt06
                   feasibility_format])
    /\ (e = AttributeError \/ e = ValueError \/ e = RuntimeError
        \/ e = KeyError \/ e = TypeError).
Proof.
  intros generator prepare_for_ai03 get_prompt06 feasibility_format h h' e Hrun.
  apply feasibility_stage_shape in Hrun. cbv zeta in Hrun.
  destruct Hrun as [(e' & He & Hof & Hissued & Hkind)|(Hret & _)]; [|discriminate Hret].
  injection He as ->. split; [exact Hof|]. split; assumption.
Qed.

Lemma feasibility_stage_failure_witness :
  exists h',
    FeasibilityStage.get_possible_threat_scenario_attack_path_feasibilities
      SampleMore.careless_assessor Sample.serialise "prompt" "format" (Sample.heap None)
    = (h', Raise ValueError)
    /\ only_factors (Sample.heap None)
         (Workflow.mkHeap (Workflow.artifact h') (Workflow.issued (Sample.heap None))
            (Workflow.slept h'))
    /\ option_map factors (threat_of h')
       <> option_map factors (threat_of (Sample.heap None)).
Proof.
  eexists. split; [vm_compute; reflexivity|].
  split.
  - apply (@feasibility_stage_failure SampleMore.careless_assessor Sample.serialise
             "prompt" "format" (Sample.heap None) _ ValueError).
    left. vm_compute. reflexivity.
  - vm_compute. discriminate.
Defined.

(** ** [AssetTaraInfo.calculate_overall_risk] *)

Ltac risk_case :=
  intros;
  try match goal with
      | H : _ \/ _ \/ _ |- _ => destruct H as [H|[H|H]]; try discriminate H
      end;
  try match goal with
      | H : Raise _ = Raise _ |- _ => injection H as <-
      end;
  try discriminate; try reflexivity; try congruence.

(** X16.  [calculate_overall_risk] writes nothing but the risk value of
    the decision.  It raises only [AttributeError], and only when the
    damage scenario, the threat scenario and the rating are there but
    the decision is not; when it raises, or when one of the three is
    missing, the artifact is left as it was. *)
Theorem overall_risk_frame :
  forall a : AssetTaraInfo.t,
    let a' := fst (AssetTaraInfo.calculate_overall_risk a) in
    let r := snd (AssetTaraInfo.calculate_overall_risk a) in
    AssetTaraInfo.asset_cybersecurity_attribute a'
    = AssetTaraInfo.asset_cybersecurity_attribute a
    /\ AssetTaraInfo.damage_scenario_impact_level a'
       = AssetTaraInfo.damage_scenario_impact_level a
    /\ AssetTaraInfo.threat_scenario_attack_feasibility a'
       = AssetTaraInfo.threat_scenario_attack_feasibility a
    /\ AssetTaraInfo.cybersecurity_control_requirement a'
       = AssetTaraInfo.cybersecurity_control_requirement a
    /\ option_map (RiskTreatmentDecision.with_risk_value 0)
         (AssetTaraInfo.risk_treatment_decision a')
       = option_map (RiskTreatmentDecision.with_risk_value 0)
           (AssetTaraInfo.risk_treatment_decision a)
    /\ (forall e, r = Raise e ->
          e = AttributeError /\ a' = a /\ AssetTaraInfo.risk_treatment_decision a = None)
    /\ (AssetTaraInfo.damage_scenario_impact_level a = None
        \/ AssetTaraInfo.threat_scenario_attack_feasibility a = None
        \/ option_map ThreatScenarioAttackFeasibility.attack_feasibility_rating
             (AssetTaraInfo.threat_scenario_attack_feasibility a) = Some None ->
        a' = a /\ r = Ret tt).
Proof.
  intros [attr [damage|] [threat|] decision req]; cbv zeta;
    unfold AssetTaraInfo.calculate_overall_risk;
    cbn [AssetTaraInfo.damage_scenario_impact_level
         AssetTaraInfo.threat_scenario_attack_feasibility];
    try solve [cbn; repeat split; risk_case].
  destruct threat as [i s p tc ex kn wo eq df [rating|]];
    cbn [ThreatScenarioAttackFeasibility.attack_feasibility_rating].
  2:{ cbn. repeat split; risk_case. }
  destruct damage as [sn ds sa fi op pr impact].
  destruct decision as [d|]; destruct rating, impact; vm_compute; repeat split; risk_case.
Qed.

Lemma overall_risk_monotone :
  forall (attr attr' : option AssetInfoCybersecurityAttribute.t)
         (da db : DamageScenarioImpactLevel.t)
         (ta tb : ThreatScenarioAttackFeasibility.t)
         (dec_a dec_b : RiskTreatmentDecision.t)
         (req req' : option CybersecurityControlRequirement.t)
         (ra rb : AttackFeasibilityRating.t),
    ThreatScenarioAttackFeasibility.attack_feasibility_rating ta = Some ra ->
    ThreatScenarioAttackFeasibility.attack_feasibility_rating tb = Some rb ->
    (SeverityLevel.value (DamageScenarioImpactLevel.impact_level da)
     <= SeverityLevel.value (DamageScenarioImpactLevel.impact_level db))%Z ->
    (feasibility_rank ra <= feasibility_rank rb)%Z ->
    exists va vb,
      overall_risk_assigned (AssetTaraInfo.mk attr (Some da) (Some ta) (Some dec_a) req)
      = Some va
      /\ overall_risk_assigned (AssetTaraInfo.mk attr' (Some db) (Some tb) (Some dec_b) req')
         = Some vb
      /\ (1 <= va <= vb)%Z /\ (vb <= 5)%Z.
Proof.
  intros attr attr' da db ta tb dec_a dec_b req req' ra rb Hra Hrb Hsev Hrank.
  unfold overall_risk_assigned, AssetTaraInfo.calculate_overall_risk.
  cbn [AssetTaraInfo.damage_scenario_impact_level
       AssetTaraInfo.threat_scenario_attack_feasibility].
  rewrite Hra, Hrb.
  destruct (DamageScenarioImpactLevel.impact_level da),
    (DamageScenarioImpactLevel.impact_level db), ra, rb;
    cbn in Hsev, Hrank; try lia;
    eexists _, _; (split; [lazy; reflexivity|]); (split; [lazy; reflexivity|]); lia.
Qed.

Lemma same_factors_same_rating :
  forall t t' : ThreatScenarioAttackFeasibility.t,
    factors t' = factors t ->
    AttackFeasibility.calculate_difficulty t' = AttackFeasibility.calculate_difficulty t
    /\ snd (AttackFeasibility.calculate_attack_feasibility_rating t')
       = snd (AttackFeasibility.calculate_attack_feasibility_rating t).
Proof.
  intros t t' H. unfold factors in H. injection H as Ht He Hk Hw Hq.
  assert (Hd : AttackFeasibility.calculate_difficulty t'
               = AttackFeasibility.calculate_difficulty t)
    by (rewrite !difficulty_is_sum; congruence).
  split; [exact Hd|].
  unfold AttackFeasibility.calculate_attack_feasibility_rating. cbv zeta. rewrite Hd.
  destruct (25 <=? _)%Z; [reflexivity|].
  destruct (20 <=? _)%Z; [reflexivity|].
  destruct (14 <=? _)%Z; reflexivity.
Qed.

(** X17.  From the factors to the risk value.  Take two artifacts that
    carry a decision, rate their threat scenarios with
    [update_feasibility_rating] and run [calculate_overall_risk]: if the
    second attack is at least as hard in every factor and its damage is
    no more severe, its risk value is not higher; both values lie
    between 1 and 5. *)
Theorem harder_attack_is_no_riskier :
  forall (a b : AssetTaraInfo.t) (da db : DamageScenarioImpactLevel.t)
         (ta tb : ThreatScenarioAttackFeasibility.t),
    AssetTaraInfo.damage_scenario_impact_level a = Some da ->
    AssetTaraInfo.damage_scenario_impact_level b = Some db ->
    AssetTaraInfo.threat_scenario_attack_feasibility a = Some ta ->
    AssetTaraInfo.threat_scenario_attack_feasibility b = Some tb ->
    AssetTaraInfo.risk_treatment_decision a <> None ->
    AssetTaraInfo.risk_treatment_decision b <> None ->
    harder ta tb ->
    (SeverityLevel.value (DamageScenarioImpactLevel.impact_level db)
     <= SeverityLevel.value (DamageScenarioImpactLevel.impact_level da))%Z ->
    exists va vb,
      overall_risk_assigned (rated a) = Some va
      /\ overall_risk_assigned (rated b) = Some vb
      /\ (1 <= vb <= va)%Z /\ (va <= 5)%Z.
Proof.
  intros [attr_a da' ta' [dec_a|] req_a] [attr_b db' tb' [dec_b|] req_b] da db ta tb
    Hda Hdb Hta Htb Hdec_a Hdec_b Hharder Hsev;
    try (cbn in Hdec_a, Hdec_b; congruence).
  cbn in Hda, Hdb, Hta, Htb. subst da' db' ta' tb'.
  unfold rated, FeasibilityStage.on_feasibility.
  cbn [AssetTaraInfo.threat_scenario_attack_feasibility
       AssetTaraInfo.asset_cybersecurity_attribute
       AssetTaraInfo.damage_scenario_impact_level
       AssetTaraInfo.risk_treatment_decision
       AssetTaraInfo.cybersecurity_control_requirement].
  destruct (AttackFeasibility.update_feasibility_rating ta) as [ta' r_a] eqn:Ea.
  destruct (AttackFeasibility.update_feasibility_rating tb) as [tb' r_b] eqn:Eb.
  apply update_feasibility_rating_inv in Ea, Eb.
  destruct Ea as (_ & Hfa & _ & _ & _ & _ & ra & Hra & Hca).
  destruct Eb as (_ & Hfb & _ & _ & _ & _ & rb & Hrb & Hcb).
  cbn [fst].
  destruct (@same_factors_same_rating ta ta' Hfa) as [_ Hsa].
  destruct (@same_factors_same_rating tb tb' Hfb) as [_ Hsb].
  rewrite Hsa in Hca. rewrite Hsb in Hcb.
  assert (Hrank : (feasibility_rank rb <= feasibility_rank ra)%Z).
  { destruct Hharder as (Ht & He & Hk & Hw & Hq).
    assert (Hle : (AttackFeasibility.calculate_difficulty ta
                   <= AttackFeasibility.calculate_difficulty tb)%Z)
      by (rewrite !difficulty_is_sum; lia).
    destruct (rating_by_difficulty ta) as [ra' [Hra' [Ha0 [Ha1 [Ha2 Ha3]]]]].
    destruct (rating_by_difficulty tb) as [rb' [Hrb' [Hb0 [Hb1 [Hb2 Hb3]]]]].
    assert (ra' = ra) by congruence. assert (rb' = rb) by congruence. subst ra' rb'.
    lia. }
  destruct (@overall_risk_monotone attr_b attr_a db da tb' ta' dec_b dec_a req_b req_a
              rb ra Hrb Hra Hsev Hrank) as (vb & va & Hvb & Hva & Hrange & Hmax).
  exists va, vb. split; [exact Hva|]. split; [exact Hvb|]. lia.
Qed.

Lemma harder_attack_is_no_riskier_witness :
  exists va vb,
    overall_risk_assigned (rated (Sample.artifact None)) = Some va
    /\ overall_risk_assigned
         (rated (AssetTaraInfo.mk (Some Sample.attribute) (Some Sample.damage)
                   (Some (AttackFeasibility.with_time_consuming
                            (Some TimeConsumingLevel.MORE_THAN_SIX_MONTHS) Sample.threat))
                   (Some (Sample.decision None)) None)) = Some vb
    /\ (1 <= vb <= va)%Z /\ (va <= 5)%Z.
Proof.
  apply (@harder_attack_is_no_riskier (Sample.artifact None)
           (AssetTaraInfo.mk (Some Sample.attribute) (Some Sample.damage)
              (Some (AttackFeasibility.with_time_consuming
                       (Some TimeConsumingLevel.MORE_THAN_SIX_MONTHS) Sample.threat))
              (Some (Sample.decision None)) None)
           Sample.damage Sample.damage Sample.threat
           (AttackFeasibility.with_time_consuming
              (Some TimeConsumingLevel.MORE_THAN_SIX_MONTHS) Sample.threat)).
  - reflexivity.
  - reflexivity.
  - reflexivity.
  - reflexivity.
  - discriminate.
  - discriminate.
  - unfold harder. cbn. lia.
  - cbn. lia.
Defined.

(** ** The list stages after a validated response *)

Lemma expand_elements :
  forall elems : list json,
    Forall element_ok elems ->
    FanOut.expand elems = Ret (List.concat (map fields_of elems))
    /\ Forall (fun kv => exists s, snd kv = JStr s /\ ~ blank s)
         (List.concat (map fields_of elems)).
Proof.
  induction elems as [|item rest IH]; intros Hok.
  - split; [reflexivity|constructor].
  - inversion Hok as [|x l [fields [-> Hfields]] Hrest]; subst.
    destruct (IH Hrest) as [Hexp Hall].
    cbn [FanOut.expand items bind map List.concat fields_of]. rewrite Hexp.
    cbn [bind]. split; [reflexivity|].
    apply Forall_app. split; assumption.
Qed.

(** X18.  The three list stages cannot fail on a validated response.
    When the template names one of the four list keys and the response
    has passed [_validate_response_format], the loop over
    [analysis_result[key]] raises nothing: it visits the fields of the
    elements in order, and every value it hands to a new copy of the
    artifact is a string that is not blank. *)
Theorem validated_list_expands :
  forall (json_loads : string -> option json) (analysis_result : dict)
         (format_text : string) (template : dict) (key : string) (format_value : json),
    json_loads format_text = Some (JObj template) ->
    In (key, format_value) template ->
    str_in key BaseAIAssistant.LIST_KEYS = true ->
    BaseAIAssistant._validate_response_format json_loads analysis_result format_text
    = true ->
    exists elems,
      dict_get analysis_result key = Some (JList elems)
      /\ elems <> []
      /\ FanOut.entries analysis_result key = Ret (List.concat (map fields_of elems))
      /\ Forall (fun kv => exists s, snd kv = JStr s /\ ~ blank s)
           (List.concat (map fields_of elems)).
Proof.
  intros json_loads analysis_result format_text template key format_value
    Hloads Hin Hkey Hvalid.
  apply (@validate_response_format_true json_loads analysis_result format_text template
           Hloads) in Hvalid.
  rewrite Forall_forall in Hvalid. specialize (Hvalid _ Hin).
  unfold key_ok in Hvalid. cbn [fst snd] in Hvalid. rewrite Hkey in Hvalid.
  destruct Hvalid as [elems [Hget [Hne Hok]]].
  exists elems. split; [exact Hget|]. split; [exact Hne|].
  destruct (expand_elements Hok) as [Hexp Hall].
  split; [|exact Hall].
  unfold FanOut.entries, getitem. rewrite Hget. cbn [bind iter]. exact Hexp.
Qed.

Lemma validated_list_expands_witness :
  exists elems,
    dict_get (Sample.payload_good "possible_attack_path_list")
      "possible_attack_path_list" = Some (JList elems)
    /\ elems <> []
    /\ FanOut.entries (Sample.payload_good "possible_attack_path_list")
         "possible_attack_path_list" = Ret (List.concat (map fields_of elems))
    /\ Forall (fun kv => exists s, snd kv = JStr s /\ ~ blank s)
         (List.concat (map fields_of elems)).
Proof.
  apply (@validated_list_expands
           (fun _ => Some (Sample.template "possible_attack_path_list"))
           (Sample.payload_good "possible_attack_path_list") "template"
           [("possible_attack_path_list"%string, JList [JObj [("a"%string, JStr "x")]])]
           "possible_attack_path_list" (JList [JObj [("a"%string, JStr "x")]])).
  - reflexivity.
  - left. reflexivity.
  - reflexivity.
  - reflexivity.
Defined.

(** ** [summarize_single_asset_cybersecurity_requirements] *)

Section SummaryMore.

Variable World : Type.
Variable analyze_asset : string -> string -> string -> io World dict.
Variable prepare_for_ai06 : AssetTaraInfo.t -> string.
Variable get_prompt : string.
Variable format_text : string.

Lemma gather_started :
  forall (l : list AssetTaraInfo.t) (msg_list : list string) (info : AssetCSRInfo.t)
         (m : list string) (i : option AssetCSRInfo.t),
    Summary.gather prepare_for_ai06 l msg_list (Some info) = Ret (m, i) ->
    m = msg_list ++ map prepare_for_ai06 (filter allocated l) /\ i = Some info.
Proof.
  induction l as [|a rest IH]; intros msg_list info m i H.
  - cbn in H. injection H as <- <-. cbn. rewrite app_nil_r. split; reflexivity.
  - cbn [Summary.gather] in H. cbn [filter]. unfold allocated at 1.
    destruct (AssetTaraInfo.cybersecurity_control_requirement a) as [c|]; [|discriminate H].
    destruct (Summary.is_yes _).
    + apply IH in H. destruct H as [-> ->]. cbn [map]. rewrite <- app_assoc.
      split; reflexivity.
    + apply IH in H. exact H.
Qed.

Lemma gather_inv :
  forall (l : list AssetTaraInfo.t) (m : list string) (i : option AssetCSRInfo.t),
    Summary.gather prepare_for_ai06 l [] None = Ret (m, i) ->
    m = map prepare_for_ai06 (filter allocated l)
    /\ ((l = [] /\ i = None)
        \/ exists a rest attribute,
             l = a :: rest
             /\ AssetTaraInfo.asset_cybersecurity_attribute a = Some attribute
             /\ i = Some (AssetCSRInfo.init
                            (JStr (AssetInfo.asset_id
                                     (AssetInfoCybersecurityAttribute.asset_info attribute)))
                            (JStr (AssetInfo.asset_name
                                     (AssetInfoCybersecurityAttribute.asset_info
                                        attribute))))).
Proof.
  intros [|a rest] m i H.
  - cbn in H. injection H as <- <-. split; [reflexivity|left; split; reflexivity].
  - cbn [Summary.gather] in H. cbn [filter]. unfold allocated at 1.
    destruct (AssetTaraInfo.cybersecurity_control_requirement a) as [c|]; [|discriminate H].
    destruct (AssetTaraInfo.asset_cybersecurity_attribute a) as [attribute|] eqn:Hattr;
      [|discriminate H].
    destruct (Summary.is_yes _); apply gather_started in H; destruct H as [-> ->];
      (split; [reflexivity|right; exists a, rest, attribute; repeat split; assumption]).
Qed.

Lemma gather_idle :
  forall (l : list AssetTaraInfo.t) (msg_list : list string)
         (info : option AssetCSRInfo.t),
    Forall (fun a => AssetTaraInfo.cybersecurity_control_requirement a <> None
                     /\ allocated a = false) l ->
    (exists i, Summary.gather prepare_for_ai06 l msg_list info = Ret (msg_list, i))
    \/ Summary.gather prepare_for_ai06 l msg_list info = Raise AttributeError.
Proof.
  induction l as [|a rest IH]; intros msg_list info Hall.
  - left. exists info. reflexivity.
  - inversion Hall as [|x l' [Hreq Hno] Hrest]; subst.
    cbn [Summary.gather]. unfold allocated in Hno.
    destruct (AssetTaraInfo.cybersecurity_control_requirement a) as [c|]; [|congruence].
    rewrite Hno. destruct info as [info|].
    + apply IH, Hrest.
    + destruct (AssetTaraInfo.asset_cybersecurity_attribute a); [|right; reflexivity].
      apply IH, Hrest.
Qed.

Lemma assemble_rows :
  forall (info : AssetCSRInfo.t) (elems : list json) (out : list AssetCSRInfo.t),
    Summary.assemble info elems = Ret out ->
    List.length out = List.length elems
    /\ Forall (fun row => AssetCSRInfo.asset_id row = AssetCSRInfo.asset_id info
                          /\ AssetCSRInfo.asset_name row = AssetCSRInfo.asset_name info)
         out.
Proof.
  induction elems as [|item rest IH]; intros out H.
  - cbn in H. injection H as <-. split; [reflexivity|constructor].
  - cbn [Summary.assemble] in H.
    destruct (Summary.row info item) as [new|e] eqn:Hrow; [|discriminate H].
    cbn [bind] in H.
    destruct (Summary.assemble info rest) as [more|e]; [|discriminate H].
    cbn [bind] in H. injection H as <-.
    destruct (IH more eq_refl) as [Hlen Hall].
    split; [cbn; rewrite Hlen; reflexivity|].
    constructor; [|exact Hall].
    unfold Summary.row in Hrow.
    destruct (subscript item "cybersecurity_requirement_id"); [|discriminate Hrow].
    destruct (subscript item "csr_id"); [|discriminate Hrow].
    destruct (subscript item "title"); [|discriminate Hrow].
    destruct (subscript item "sub_title"); [|discriminate Hrow].
    destruct (subscript item "cybersecurity_requirement"); [|discriminate Hrow].
    cbn [bind] in Hrow. injection Hrow as <-. split; reflexivity.
Qed.

End SummaryMore.

(** X19.  The summary of an asset needs a requirement allocated to the
    device.  Given a list of artifacts none of which is allocated (each
    has a requirement object), the function raises before any request
    is made: [ValueError], from the empty message that [analyze_asset]
    refuses, or [AttributeError] when the list is empty or its first
    artifact has no attribute object. *)
Theorem summary_needs_allocation :
  forall (World : Type) (analyze_asset : string -> string -> string -> io World dict)
         (prepare_for_ai06 : AssetTaraInfo.t -> string) (get_prompt format_text : string)
         (l : list AssetTaraInfo.t) (w : World),
    (forall prompt format_text w, analyze_asset EmptyString prompt format_text w
                                  = (w, Raise ValueError)) ->
    Forall (fun a => AssetTaraInfo.cybersecurity_control_requirement a <> None
                     /\ allocated a = false) l ->
    exists e,
      Summary.summarize_single_asset_cybersecurity_requirements analyze_asset
        prepare_for_ai06 get_prompt format_text l w = (w, Raise e)
      /\ (e = ValueError \/ e = AttributeError)
      /\ (l = [] -> e = AttributeError).
Proof.
  intros World analyze_asset prepare_for_ai06 get_prompt format_text l w Hrefuse Hall.
  unfold Summary.summarize_single_asset_cybersecurity_requirements.
  destruct (@gather_idle prepare_for_ai06 l [] None Hall) as [[i Hg]|Hg]; rewrite Hg.
  - destruct i as [info|].
    + cbn [String.concat]. rewrite Hrefuse.
      exists ValueError. split; [reflexivity|]. split; [left; reflexivity|].
      intros ->. discriminate Hg.
    + exists AttributeError. split; [reflexivity|]. split; [right; reflexivity|].
      intros _. reflexivity.
  - exists AttributeError. split; [reflexivity|]. split; [right; reflexivity|].
    intros _. reflexivity.
Qed.

Lemma summary_needs_allocation_witness :
  exists e,
    Summary.summarize_single_asset_cybersecurity_requirements
      (Workflow.analyze_asset Sample.helpful) Sample.serialise "prompt" "format"
      [AssetTaraInfo.set_cybersecurity_control_requirement
         CybersecurityControlRequirement.init (Sample.artifact None)]
      (Sample.heap None) = (Sample.heap None, Raise e)
    /\ (e = ValueError \/ e = AttributeError)
    /\ ([AssetTaraInfo.set_cybersecurity_control_requirement
           CybersecurityControlRequirement.init (Sample.artifact None)] = [] ->
        e = AttributeError).
Proof.
  apply (@summary_needs_allocation Workflow.heap (Workflow.analyze_asset Sample.helpful)
           Sample.serialise "prompt" "format"
           [AssetTaraInfo.set_cybersecurity_control_requirement
              CybersecurityControlRequirement.init (Sample.artifact None)]
           (Sample.heap None)).
  - intros prompt format_text w. reflexivity.
  - constructor; [|constructor]. split; [discriminate|reflexivity].
Defined.

(** X20.  When the summary returns, the list of artifacts was not
    empty, the one request it made carried the messages of the
    allocated artifacts, in order and joined by newlines, and it
    returns one row per element of the list in the response; every row
    names the asset of the first artifact of the list, allocated or
    not. *)
Theorem summary_rows :
  forall (World : Type) (analyze_asset : string -> string -> string -> io World dict)
         (prepare_for_ai06 : AssetTaraInfo.t -> string) (get_prompt format_text : string)
         (l : list AssetTaraInfo.t) (w w' : World) (out : list AssetCSRInfo.t),
    Summary.summarize_single_asset_cybersecurity_requirements analyze_asset
      prepare_for_ai06 get_prompt format_text l w = (w', Ret out) ->
    exists a rest attribute analysis_result v elems,
      l = a :: rest
      /\ AssetTaraInfo.asset_cybersecurity_attribute a = Some attribute
      /\ analyze_asset
           (String.concat (String "010"%char EmptyString)
              (map prepare_for_ai06 (filter allocated l)))
           get_prompt format_text w = (w', Ret analysis_result)
      /\ dict_get analysis_result "asset_cybersecurity_requirement_list" = Some v
      /\ iter v = Ret elems
      /\ List.length out = List.length elems
      /\ Forall (names_asset (AssetInfoCybersecurityAttribute.asset_info attribute)) out.
Proof.
  intros World analyze_asset prepare_for_ai06 get_prompt format_text l w w' out H.
  unfold Summary.summarize_single_asset_cybersecurity_requirements in H.
  destruct (Summary.gather prepare_for_ai06 l [] None) as [[m i]|e] eqn:Hg.
  2:{ injection H as _ H. discriminate H. }
  apply gather_inv in Hg.
  destruct Hg as [-> [[-> ->]|(a & rest & attribute & -> & Hattr & ->)]].
  { injection H as _ H. discriminate H. }
  destruct (analyze_asset _ get_prompt format_text w) as [w1 [analysis_result|e]] eqn:Ha.
  2:{ injection H as _ H. discriminate H. }
  injection H as <- H.
  unfold getitem in H.
  destruct (dict_get analysis_result "asset_cybersecurity_requirement_list") as [v|] eqn:Hv;
    [|discriminate H].
  cbn [bind] in H.
  destruct (iter v) as [elems|e] eqn:Hiter; [|discriminate H].
  cbn [bind] in H. apply assemble_rows in H. destruct H as [Hlen Hrows].
  exists a, rest, attribute, analysis_result, v, elems.
  split; [reflexivity|]. split; [exact Hattr|]. split; [reflexivity|].
  split; [exact Hv|]. split; [exact Hiter|]. split; [exact Hlen|].
  exact Hrows.
Qed.

Lemma summary_rows_witness :
  exists a rest attribute analysis_result v elems,
    [SampleSummary.allocated_artifact] = a :: rest
    /\ AssetTaraInfo.asset_cybersecurity_attribute a = Some attribute
    /\ SampleSummary.summariser
         (String.concat (String "010"%char EmptyString)
            (map Sample.serialise (filter allocated [SampleSummary.allocated_artifact])))
         "prompt" "format" tt = (tt, Ret analysis_result)
    /\ dict_get analysis_result "asset_cybersecurity_requirement_list" = Some v
    /\ iter v = Ret elems
    /\ List.length
         [AssetCSRInfo.mk (JStr "A-01") (JStr "Gateway") (JStr "CSR-001") (JStr "1")
            (JStr "frames") (JStr "authenticity") (JStr "frames carry a MAC")]
       = List.length elems
    /\ Forall (names_asset (AssetInfoCybersecurityAttribute.asset_info attribute))
         [AssetCSRInfo.mk (JStr "A-01") (JStr "Gateway") (JStr "CSR-001") (JStr "1")
            (JStr "frames") (JStr "authenticity") (JStr "frames carry a MAC")].
Proof.
  apply (@summary_rows unit SampleSummary.summariser Sample.serialise "prompt" "format"
           [SampleSummary.allocated_artifact] tt tt).
  vm_compute. reflexivity.
Defined.

(** ** More on the response validator *)

Lemma key_ok_extends :
  forall (d d' : dict) (entry : string * json),
    extends d d' -> key_ok d entry -> key_ok d' entry.
Proof.
  intros d d' [key format_value] Hext. unfold key_ok. cbn [fst snd].
  destruct (str_in key BaseAIAssistant.LIST_KEYS).
  - intros [elems [Hget Hrest]]. exists elems. split; [apply Hext, Hget|exact Hrest].
  - destruct format_value as [| b | q | s | l | sub_format];
      try (intros Hsome; destruct (dict_get d key) as [v|] eqn:Hget; [|congruence];
           rewrite (Hext _ _ Hget); discriminate).
    intros Hall. eapply Forall_impl; [|exact Hall].
    intros kv [v [Hget Hin]]. exists v. split; [apply Hext, Hget|exact Hin].
Qed.

Lemma extends_cons :
  forall (d : dict) (k : string) (v : json),
    dict_get d k = None -> extends d ((k, v) :: d).
Proof.
  intros d k v Hnone k' v' Hget. cbn [dict_get].
  destruct (String.eqb k k') eqn:E; [|exact Hget].
  apply String.eqb_eq in E. subst k'. congruence.
Qed.

(** X21.  [_validate_response_format] looks at the keys the template
    names and at nothing else: a response that passes still passes when
    bindings are added to it, whatever the template is. *)
Theorem extra_keys_are_ignored :
  forall (json_loads : string -> option json) (d d' : dict) (format_text : string),
    extends d d' ->
    BaseAIAssistant._validate_response_format json_loads d format_text = true ->
    BaseAIAssistant._validate_response_format json_loads d' format_text = true.
Proof.
  intros json_loads d d' format_text Hext Hvalid.
  destruct (json_loads format_text) as [format_json|] eqn:Hloads.
  2:{ unfold BaseAIAssistant._validate_response_format in Hvalid.
      rewrite Hloads in Hvalid. discriminate Hvalid. }
  destruct format_json as [| b | q | s | l | template];
    try (unfold BaseAIAssistant._validate_response_format in Hvalid;
         rewrite Hloads in Hvalid; discriminate Hvalid).
  apply (@validate_response_format_true json_loads d' format_text template Hloads).
  apply (@validate_response_format_true json_loads d format_text template Hloads) in Hvalid.
  eapply Forall_impl; [|exact Hvalid].
  intros entry. apply key_ok_extends, Hext.
Qed.

Lemma extra_keys_are_ignored_witness :
  BaseAIAssistant._validate_response_format
    (fun _ => Some (Sample.template "possible_attack_path_list"))
    (("note"%string, JNull) :: Sample.payload_good "possible_attack_path_list")
    "template" = true.
Proof.
  apply (@extra_keys_are_ignored
           (fun _ => Some (Sample.template "possible_attack_path_list"))
           (Sample.payload_good "possible_attack_path_list")
           (("note"%string, JNull) :: Sample.payload_good "possible_attack_path_list")
           "template").
  - apply extends_cons. reflexivity.
  - reflexivity.
Defined.

(** ** The enums that read a response without regard to case *)

(** X22.  [SeverityLevel.get] and [RiskTreatmentOption.from_string] read
    their argument without regard to case.  [from_string] answers an
    option exactly for the spellings of its value (which are those of
    its name); [SeverityLevel.get] answers a member for the spellings of
    its name and NEGLIGIBLE for every other string, so it never fails
    on a string. *)
Theorem enums_ignore_case :
  (forall (s : string) (o : RiskTreatmentOption.t),
      RiskTreatmentOption.from_string s = Some o
      <-> lower s = lower (RiskTreatmentOption.value o))
  /\ (forall o : RiskTreatmentOption.t,
        lower (RiskTreatmentOption.name o) = lower (RiskTreatmentOption.value o))
  /\ (forall (s : string) (m : SeverityLevel.t),
        upper s = SeverityLevel.name m -> SeverityLevel.get_str s = m)
  /\ (forall s : string,
        (forall m, upper s <> SeverityLevel.name m) ->
        SeverityLevel.get_str s = SeverityLevel.NEGLIGIBLE)
  /\ (forall m : SeverityLevel.t,
        SeverityLevel.get_str (lower (SeverityLevel.name m)) = m).
Proof.
  split; [|split; [|split; [|split]]].
  - intros s o. unfold RiskTreatmentOption.from_string. split.
    + intros H. apply find_some in H. destruct H as [_ H].
      apply String.eqb_eq in H. symmetry. exact H.
    + intros H. unfold RiskTreatmentOption.members. cbn [find]. rewrite H.
      destruct o; reflexivity.
  - intros o. destruct o; reflexivity.
  - intros s m H. unfold SeverityLevel.get_str, SeverityLevel.members. cbn [find].
    rewrite H. destruct m; reflexivity.
  - intros s H. unfold SeverityLevel.get_str, SeverityLevel.members. cbn [find].
    destruct (String.eqb_spec (SeverityLevel.name SeverityLevel.NEGLIGIBLE) (upper s))
      as [E|_]; [reflexivity|].
    destruct (String.eqb_spec (SeverityLevel.name SeverityLevel.MODERATE) (upper s))
      as [E|_]; [exfalso; apply (H SeverityLevel.MODERATE); symmetry; exact E|].
    destruct (String.eqb_spec (SeverityLevel.name SeverityLevel.MAJOR) (upper s))
      as [E|_]; [exfalso; apply (H SeverityLevel.MAJOR); symmetry; exact E|].
    destruct (String.eqb_spec (SeverityLevel.name SeverityLevel.SEVERE) (upper s))
      as [E|_]; [exfalso; apply (H SeverityLevel.SEVERE); symmetry; exact E|].
    reflexivity.
  - intros m. destruct m; reflexivity.
Qed.

(** ** What [process_threat_scenario_async] hands back *)

Lemma keeps_requirement_bind :
  forall (A B : Type) (m : io Workflow.heap A) (k : A -> io Workflow.heap B),
    keeps_requirement m -> (forall a, keeps_requirement (k a)) ->
    keeps_requirement (io_bind m k).
Proof.
  intros A B m k Hm Hk h h' r H Hreq. apply io_bind_inv in H.
  destruct H as [(h1 & x & Hrun & H)|(e & Hrun & _)].
  - eapply Hk; [exact H|]. eapply Hm; eassumption.
  - eapply Hm; eassumption.
Qed.

Lemma keeps_requirement_on_requirement :
  forall m : io CybersecurityControlRequirement.t unit,
    keeps_requirement (Workflow.on_artifact (Workflow.on_requirement m)).
Proof.
  intros m h h' r H Hreq. unfold Workflow.on_artifact, Workflow.on_requirement in H.
  destruct (AssetTaraInfo.cybersecurity_control_requirement (Workflow.artifact h)) as [c|];
    [|congruence].
  destruct (m c) as [c' r']. injection H as <- _. cbn. discriminate.
Qed.

Lemma keeps_requirement_field :
  forall (d : dict) (k : string), keeps_requirement (Workflow.field d k).
Proof. intros d k h h' r H Hreq. injection H as <- _. exact Hreq. Qed.

Lemma keeps_requirement_analyze :
  forall (generator : nat -> Workflow.request -> option dict)
         (msg prompt format_text : string),
    keeps_requirement (Workflow.analyze_asset_async generator msg prompt format_text).
Proof.
  intros generator msg prompt format_text h h' r H Hreq.
  assert (Hor : Workflow.analyze_asset generator msg prompt format_text h = (h', r)
                \/ Workflow.analyze_asset_async generator msg prompt format_text h
                   = (h', r)) by (right; exact H).
  apply analyze_asset_inv in Hor. destruct Hor as [[-> _]|[-> _]]; exact Hreq.
Qed.

Section ReturnedArtifact.

Variable generator : nat -> Workflow.request -> option dict.
Variable prepare_for_ai04 prepare_for_ai05 : AssetTaraInfo.t -> string.
Variable get_prompt07 get_prompt08 risk_treatment_format cso_csr_format : string.
Variable short_hash : string -> Z -> string.
Variable time_ms : nat -> Z.

Lemma populate_keeps_requirement :
  forall analysis_result : dict,
    keeps_requirement (Workflow.populate_requirement short_hash time_ms analysis_result).
Proof.
  intros analysis_result. unfold Workflow.populate_requirement.
  repeat (first
    [ apply keeps_requirement_on_requirement
    | apply keeps_requirement_field
    | apply keeps_requirement_bind; [|intros ?] ]).
  intros h. apply keeps_requirement_on_requirement.
Qed.

Lemma cso_csr_success :
  forall h h' : Workflow.heap,
    Workflow.asset_cso_csr_assessment_async generator prepare_for_ai05 get_prompt08
      cso_csr_format short_hash time_ms h = (h', Ret tt) ->
    AssetTaraInfo.cybersecurity_control_requirement (Workflow.artifact h') <> None
    /\ exists o,
         decided (Workflow.artifact h') = Some o
         /\ (allocated (Workflow.artifact h') = true -> o = RiskTreatmentOption.REDUCE).
Proof.
  intros h h' H.
  pose proof (@cso_csr_frames_upstream generator prepare_for_ai05 get_prompt08
                cso_csr_format short_hash time_ms h) as Hframe.
  change (Workflow.asset_cso_csr_assessment generator prepare_for_ai05 get_prompt08
            cso_csr_format short_hash time_ms)
    with (Workflow.asset_cso_csr_assessment_async generator prepare_for_ai05 get_prompt08
            cso_csr_format short_hash time_ms) in Hframe.
  rewrite H in Hframe. cbn [fst] in Hframe. destruct Hframe as (_ & _ & _ & Hdec).
  unfold Workflow.asset_cso_csr_assessment_async in H.
  apply io_bind_inv in H. destruct H as [(h1 & x & Hset & H)|(e & _ & He)];
    [|discriminate He].
  unfold Workflow.on_artifact, Workflow.assign in Hset. injection Hset as <- _.
  apply io_bind_inv in H. destruct H as [(h2 & reduce & Hred & H)|(e & _ & He)];
    [|discriminate He].
  unfold Workflow.decision_is_reduce in Hred.
  cbn [Workflow.artifact AssetTaraInfo.set_cybersecurity_control_requirement
       AssetTaraInfo.risk_treatment_decision] in Hred.
  unfold decided. rewrite Hdec.
  destruct (AssetTaraInfo.risk_treatment_decision (Workflow.artifact h)) as [d|];
    [|discriminate Hred].
  destruct (RiskTreatmentDecision.risk_treatment d) as [o|]; [|discriminate Hred].
  injection Hred as <- <-.
  destruct (String.eqb (lower (RiskTreatmentOption.name o)) "reduce") eqn:Hreduce.
  - split.
    + apply io_bind_inv in H. destruct H as [(h3 & analysis_result & Han & H)|(e & _ & He)];
        [|discriminate He].
      eapply populate_keeps_requirement; [exact H|].
      eapply keeps_requirement_analyze; [exact Han|]. cbn. discriminate.
    + exists o. split; [reflexivity|]. intros _.
      destruct o; try discriminate Hreduce. reflexivity.
  - unfold io_ret in H. injection H as <-. split; [cbn; discriminate|].
    exists o. split; [reflexivity|]. intros Hyes. discriminate Hyes.
Qed.

Lemma threat_loop_returns_decided :
  forall (fuel : nat) (retry_count : Z) (h : Workflow.heap) (a : nat)
         (b : Workflow.branch),
    Workflow.threat_loop generator prepare_for_ai04 prepare_for_ai05 get_prompt07
      get_prompt08 risk_treatment_format cso_csr_format short_hash time_ms
      fuel retry_count h a = Some b ->
    Workflow.outcome b = Ret Workflow.TheArtifact ->
    AssetTaraInfo.cybersecurity_control_requirement
      (Workflow.artifact (Workflow.final b)) <> None
    /\ exists o,
         decided (Workflow.artifact (Workflow.final b)) = Some o
         /\ (allocated (Workflow.artifact (Workflow.final b)) = true ->
             o = RiskTreatmentOption.REDUCE).
Proof.
  induction fuel as [|fuel IH]; intros retry_count h a b Hrun Hout; [discriminate Hrun|].
  cbn [Workflow.threat_loop] in Hrun.
  destruct (retry_count <=? Workflow.max_retries)%Z.
  2:{ injection Hrun as <-. discriminate Hout. }
  destruct (io_bind _ _ h) as [h1 [[]|e]] eqn:Hpair.
  - injection Hrun as <-. cbn [Workflow.final].
    apply io_bind_inv in Hpair. destruct Hpair as [(h0 & x & _ & H)|(e & _ & He)];
      [|discriminate He].
    apply cso_csr_success in H. exact H.
  - destruct (retry_count + 1 >? Workflow.max_retries)%Z.
    + injection Hrun as <-. discriminate Hout.
    + eapply IH; eassumption.
Qed.

End ReturnedArtifact.

(** X23.  An artifact that [process_threat_scenario_async] returns has
    been through both stages: it carries a risk-treatment option and a
    control requirement, and the requirement is allocated to the device
    only if the option is REDUCE.  So an artifact whose decision has no
    option is never among the results of the branch. *)
Theorem returned_artifact_is_decided :
  forall (generator : nat -> Workflow.request -> option dict)
         (prepare_for_ai04 prepare_for_ai05 : AssetTaraInfo.t -> string)
         (get_prompt07 get_prompt08 risk_treatment_format cso_csr_format : string)
         (short_hash : string -> Z -> string) (time_ms : nat -> Z)
         (h : Workflow.heap) (b : Workflow.branch),
    Workflow.process_threat_scenario_async generator prepare_for_ai04 prepare_for_ai05
      get_prompt07 get_prompt08 risk_treatment_format cso_csr_format short_hash time_ms h
    = Some b ->
    Workflow.outcome b = Ret Workflow.TheArtifact ->
    AssetTaraInfo.cybersecurity_control_requirement
      (Workflow.artifact (Workflow.final b)) <> None
    /\ exists o,
         decided (Workflow.artifact (Workflow.final b)) = Some o
         /\ (allocated (Workflow.artifact (Workflow.final b)) = true ->
             o = RiskTreatmentOption.REDUCE).
Proof.
  intros generator prepare_for_ai04 prepare_for_ai05 get_prompt07 get_prompt08
    risk_treatment_format cso_csr_format short_hash time_ms h b Hrun Hout.
  unfold Workflow.process_threat_scenario_async in Hrun.
  destruct (AssetTaraInfo.threat_scenario_attack_feasibility (Workflow.artifact h)).
  - eapply threat_loop_returns_decided; eassumption.
  - injection Hrun as <-. discriminate Hout.
Qed.

Lemma returned_artifact_is_decided_witness :
  exists b,
    Workflow.process_threat_scenario_async Sample.flaky Sample.serialise Sample.serialise
      "p7" "p8" "f7" "f8" (fun _ _ => "00000000"%string) (fun _ => 0%Z) (Sample.heap None)
    = Some b
    /\ AssetTaraInfo.cybersecurity_control_requirement
         (Workflow.artifact (Workflow.final b)) <> None
    /\ exists o,
         decided (Workflow.artifact (Workflow.final b)) = Some o
         /\ (allocated (Workflow.artifact (Workflow.final b)) = true ->
             o = RiskTreatmentOption.REDUCE).
Proof.
  eexists. split; [vm_compute; reflexivity|].
  apply (@returned_artifact_is_decided Sample.flaky Sample.serialise Sample.serialise
           "p7" "p8" "f7" "f8" (fun _ _ => "00000000"%string) (fun _ => 0%Z)
           (Sample.heap None)).
  - vm_compute. reflexivity.
  - reflexivity.
Defined.

(** ** The impact stage after a validated response *)

Lemma level_argument_present :
  forall (attrs : dict) (k : string),
    dict_mem attrs k = true ->
    (exists level, DamageScenarioImpactLevel.level_argument (JObj attrs) k = Ret level)
    \/ DamageScenarioImpactLevel.level_argument (JObj attrs) k = Raise AttributeError.
Proof.
  intros attrs k Hmem. unfold DamageScenarioImpactLevel.level_argument, subscript, getitem.
  unfold dict_mem in Hmem. destruct (dict_get attrs k) as [v|]; [|discriminate Hmem].
  cbn [bind]. destruct (truthy v); [|left; eexists; reflexivity].
  destruct v; cbn; try (right; reflexivity). left. eexists. reflexivity.
Qed.

(** X24.  What validation buys the impact stage.  When the template
    asks, under a key that is not a list key, for an object with the
    four dimensions, and the validated response holds an object under
    that key, [set_impact_levels_by_strings] finds all four dimensions:
    it returns, or it raises [AttributeError] on a level that is
    neither a string nor falsy, and then the damage scenario is as it
    was.  No [KeyError] and no [TypeError] is left. *)
Theorem validated_impact_levels :
  forall (json_loads : string -> option json) (analysis_result : dict)
         (format_text : string) (template : dict) (key : string) (sub attrs : dict)
         (self : DamageScenarioImpactLevel.t),
    json_loads format_text = Some (JObj template) ->
    In (key, JObj sub) template ->
    str_in key BaseAIAssistant.LIST_KEYS = false ->
    Forall (fun k => dict_mem sub k = true) dimensions ->
    BaseAIAssistant._validate_response_format json_loads analysis_result format_text
    = true ->
    dict_get analysis_result key = Some (JObj attrs) ->
    (exists self',
        DamageScenarioImpactLevel.set_impact_levels_by_strings (JObj attrs) self
        = (self', Ret tt))
    \/ DamageScenarioImpactLevel.set_impact_levels_by_strings (JObj attrs) self
       = (self, Raise AttributeError).
Proof.
  intros json_loads analysis_result format_text template key sub attrs self
    Hloads Hin Hkey Hdims Hvalid Hget.
  apply (@validate_response_format_true json_loads analysis_result format_text template
           Hloads) in Hvalid.
  rewrite Forall_forall in Hvalid. specialize (Hvalid _ Hin).
  unfold key_ok in Hvalid. cbn [fst snd] in Hvalid. rewrite Hkey in Hvalid.
  assert (Hpresent : forall k, In k dimensions -> dict_mem attrs k = true).
  { intros k Hk. rewrite Forall_forall in Hdims. specialize (Hdims k Hk).
    unfold dict_mem in Hdims. destruct (dict_get sub k) as [fv|] eqn:Hsub;
      [|discriminate Hdims].
    assert (Hentry : In (k, fv) sub).
    { clear - Hsub. induction sub as [|[k' v'] sub IH]; [discriminate Hsub|].
      cbn in Hsub. destruct (String.eqb k' k) eqn:E.
      - apply String.eqb_eq in E. injection Hsub as ->. subst k'. left. reflexivity.
      - right. apply IH, Hsub. }
    rewrite Forall_forall in Hvalid. destruct (Hvalid _ Hentry) as [v [Hv Hcontains]].
    rewrite Hget in Hv. injection Hv as <-. cbn in Hcontains.
    injection Hcontains as Hcontains. exact Hcontains. }
  unfold DamageScenarioImpactLevel.set_impact_levels_by_strings,
    DamageScenarioImpactLevel.level_arguments.
  destruct (@level_argument_present attrs "safety"
              (Hpresent "safety"%string ltac:(cbn; tauto)))
    as [[s ->]| ->]; [|right; reflexivity].
  destruct (@level_argument_present attrs "financial"
              (Hpresent "financial"%string ltac:(cbn; tauto)))
    as [[f ->]| ->]; [|right; reflexivity].
  destruct (@level_argument_present attrs "operational"
              (Hpresent "operational"%string ltac:(cbn; tauto)))
    as [[o ->]| ->]; [|right; reflexivity].
  destruct (@level_argument_present attrs "privacy"
              (Hpresent "privacy"%string ltac:(cbn; tauto)))
    as [[p ->]| ->]; [|right; reflexivity].
  cbn [bind]. left. unfold io_bind.
  destruct (set_impact_levels_consistent s f o p self) as [self1 [-> _]].
  destruct (recalculate_consistent self1) as [self2 [-> _]].
  exists self2. reflexivity.
Qed.

Lemma validated_impact_levels_witness :
  (exists self',
      DamageScenarioImpactLevel.set_impact_levels_by_strings
        (JObj [("safety"%string, JStr "Severe"); ("financial"%string, JStr "");
               ("operational"%string, JNull); ("privacy"%string, JStr "major")])
        Sample.damage = (self', Ret tt))
  \/ DamageScenarioImpactLevel.set_impact_levels_by_strings
       (JObj [("safety"%string, JStr "Severe"); ("financial"%string, JStr "");
              ("operational"%string, JNull); ("privacy"%string, JStr "major")])
       Sample.damage = (Sample.damage, Raise AttributeError).
Proof.
  apply (@validated_impact_levels
           (fun _ => Some (JObj [("possible_damage_scenario_impact_level"%string,
                                  JObj [("safety"%string, JStr "Negligible");
                                        ("financial"%string, JStr "Moderate");
                                        ("operational"%string, JStr "Major");
                                        ("privacy"%string, JStr "Severe")])]))
           [("possible_damage_scenario_impact_level"%string,
             JObj [("safety"%string, JStr "Severe"); ("financial"%string, JStr "");
                   ("operational"%string, JNull); ("privacy"%string, JStr "major")])]
           "format"
           [("possible_damage_scenario_impact_level"%string,
             JObj [("safety"%string, JStr "Negligible");
                   ("financial"%string, JStr "Moderate");
                   ("operational"%string, JStr "Major");
                   ("privacy"%string, JStr "Severe")])]
           "possible_damage_scenario_impact_level"
           [("safety"%string, JStr "Negligible"); ("financial"%string, JStr "Moderate");
            ("operational"%string, JStr "Major"); ("privacy"%string, JStr "Severe")]
           [("safety"%string, JStr "Severe"); ("financial"%string, JStr "");
            ("operational"%string, JNull); ("privacy"%string, JStr "major")]
           Sample.damage).
  - reflexivity.
  - left. reflexivity.
  - reflexivity.
  - repeat constructor.
  - reflexivity.
  - reflexivity.
Defined.

(** The validator tests the four names with [in]: a string that spells
    them passes, and the stage then fails on the first subscript. *)
Example impact_levels_in_a_string :
  BaseAIAssistant._validate_response_format
    (fun _ => Some (JObj [("possible_damage_scenario_impact_level"%string,
                           JObj [("safety"%string, JStr "Negligible");
                                 ("financial"%string, JStr "Moderate");
                                 ("operational"%string, JStr "Major");
                                 ("privacy"%string, JStr "Severe")])]))
    [("possible_damage_scenario_impact_level"%string,
      JStr "safety, financial, operational and privacy are negligible")]
    "format" = true
  /\ snd (DamageScenarioImpactLevel.set_impact_levels_by_strings
            (JStr "safety, financial, operational and privacy are negligible")
            Sample.damage) = Raise TypeError.
Proof. split; reflexivity. Qed.

(** ** The risk-treatment stage *)

Lemma keeps_risk_value_bind :
  forall (A B : Type) (m : io Workflow.heap A) (k : A -> io Workflow.heap B),
    keeps_risk_value m -> (forall a, keeps_risk_value (k a)) ->
    keeps_risk_value (io_bind m k).
Proof.
  intros A B m k Hm Hk h h' r H. apply io_bind_inv in H.
  destruct H as [(h1 & x & Hrun & H)|(e & Hrun & _)].
  - rewrite (Hk _ _ _ _ H). eapply Hm; eassumption.
  - eapply Hm; eassumption.
Qed.

Lemma keeps_risk_value_field :
  forall (d : dict) (k : string), keeps_risk_value (Workflow.field d k).
Proof. intros d k h h' r H. injection H as <- _. reflexivity. Qed.

Lemma keeps_risk_value_analyze :
  forall (generator : nat -> Workflow.request -> option dict)
         (msg prompt format_text : string),
    keeps_risk_value (Workflow.analyze_asset generator msg prompt format_text)
    /\ keeps_risk_value (Workflow.analyze_asset_async generator msg prompt format_text).
Proof.
  intros generator msg prompt format_text.
  split; intros h h' r H;
    [assert (Hor : Workflow.analyze_asset generator msg prompt format_text h = (h', r)
                   \/ Workflow.analyze_asset_async generator msg prompt format_text h
                      = (h', r)) by (left; exact H)
    |assert (Hor : Workflow.analyze_asset generator msg prompt format_text h = (h', r)
                   \/ Workflow.analyze_asset_async generator msg prompt format_text h
                      = (h', r)) by (right; exact H)];
    apply analyze_asset_inv in Hor; destruct Hor as [[-> _]|[-> _]]; reflexivity.
Qed.

Lemma keeps_risk_value_on_decision :
  forall m : io RiskTreatmentDecision.t unit,
    (forall d d' r, m d = (d', r) ->
                    RiskTreatmentDecision.risk_value d' = RiskTreatmentDecision.risk_value d) ->
    keeps_risk_value (Workflow.on_artifact (Workflow.on_decision m)).
Proof.
  intros m Hm h h' r H. unfold Workflow.on_artifact, Workflow.on_decision in H.
  unfold risk_value_of.
  destruct (AssetTaraInfo.risk_treatment_decision (Workflow.artifact h)) as [d|] eqn:Hd.
  - destruct (m d) as [d' r'] eqn:Hrun. injection H as <- _. cbn.
    rewrite (Hm _ _ _ Hrun). reflexivity.
  - injection H as <- _. cbn. rewrite Hd. reflexivity.
Qed.

Lemma set_risk_treatment_keeps_value :
  forall (v : json) (d d' : RiskTreatmentDecision.t) (r : res unit),
    RiskTreatmentDecision.set_risk_treatment v d = (d', r) ->
    RiskTreatmentDecision.risk_value d' = RiskTreatmentDecision.risk_value d.
Proof.
  intros v d d' r. unfold RiskTreatmentDecision.set_risk_treatment.
  destruct (truthy v).
  - destruct (RiskTreatmentDecision._parse_enum v); intros H; injection H as <- _;
      reflexivity.
  - intros H; injection H as <- _; reflexivity.
Qed.

Lemma overall_risk_with_decision :
  forall (a : AssetTaraInfo.t) (d : RiskTreatmentDecision.t),
    AssetTaraInfo.risk_treatment_decision a = Some d ->
    (0 <= RiskTreatmentDecision.risk_value d <= 5)%Z ->
    exists a' v,
      AssetTaraInfo.calculate_overall_risk a = (a', Ret tt)
      /\ option_map RiskTreatmentDecision.risk_value
           (AssetTaraInfo.risk_treatment_decision a') = Some v
      /\ overall_risk_assigned a = Some v
      /\ (0 <= v <= 5)%Z.
Proof.
  intros [attr [damage|] [threat|] decision req] d Hd Hrange; cbn in Hd; subst decision;
    unfold overall_risk_assigned, AssetTaraInfo.calculate_overall_risk;
    cbn [AssetTaraInfo.damage_scenario_impact_level
         AssetTaraInfo.threat_scenario_attack_feasibility];
    try solve [eexists _, _; (split; [reflexivity|]); (split; [reflexivity|]);
               (split; [reflexivity|]); exact Hrange].
  destruct (ThreatScenarioAttackFeasibility.attack_feasibility_rating threat)
    as [rating|].
  2:{ eexists _, _. split; [reflexivity|]. split; [reflexivity|].
      split; [reflexivity|]. exact Hrange. }
  destruct rating, (DamageScenarioImpactLevel.impact_level damage);
    eexists _, _; (split; [lazy; reflexivity|]); (split; [lazy; reflexivity|]);
    (split; [lazy; reflexivity|]); lia.
Qed.

Section RiskStageMore.

Variable generator : nat -> Workflow.request -> option dict.
Variable prepare_for_ai04 : AssetTaraInfo.t -> string.
Variable get_prompt07 risk_treatment_format : string.

Lemma risk_stage_tail_keeps_value :
  forall analyze : string -> string -> string -> io Workflow.heap dict,
    (forall msg prompt format_text, keeps_risk_value (analyze msg prompt format_text)) ->
    keeps_risk_value
      (analysis_result <~ (fun h => analyze (prepare_for_ai04 (Workflow.artifact h))
                                      get_prompt07 risk_treatment_format h) ;;
       v <~ Workflow.field analysis_result "risk_treatment" ;;
       _ <~ Workflow.on_artifact
              (Workflow.on_decision (RiskTreatmentDecision.set_risk_treatment v)) ;;
       v <~ Workflow.field analysis_result "item_change" ;;
       _ <~ Workflow.on_artifact
              (Workflow.on_decision
                 (Workflow.assign (RiskTreatmentDecision.with_item_change v))) ;;
       v <~ Workflow.field analysis_result "cybersecurity_goal" ;;
       _ <~ Workflow.on_artifact
              (Workflow.on_decision
                 (Workflow.assign (RiskTreatmentDecision.with_cybersecurity_goal v))) ;;
       v <~ Workflow.field analysis_result "cybersecurity_claim" ;;
       Workflow.on_artifact
         (Workflow.on_decision
            (Workflow.assign (RiskTreatmentDecision.with_cybersecurity_claim v)))).
Proof.
  intros analyze Hanalyze.
  apply keeps_risk_value_bind; [intros h h' r H; eapply Hanalyze; exact H|intros ?].
  repeat (first
    [ apply keeps_risk_value_field
    | apply keeps_risk_value_on_decision;
      first [ apply set_risk_treatment_keeps_value
            | intros d d' r H; injection H as <- _; reflexivity ]
    | apply keeps_risk_value_bind; [|intros ?] ]).
Qed.

End RiskStageMore.

Lemma risk_stage_value :
  forall (analyze : string -> string -> string -> io Workflow.heap dict)
         (prepare_for_ai04 : AssetTaraInfo.t -> string)
         (get_prompt07 risk_treatment_format : string) (h : Workflow.heap) (v : Z),
    (forall msg prompt format_text, keeps_risk_value (analyze msg prompt format_text)) ->
    overall_risk_assigned
      (AssetTaraInfo.set_risk_treatment_decision RiskTreatmentDecision.init
         (Workflow.artifact h)) = Some v ->
    risk_value_of
      (fst ((_ <~ Workflow.on_artifact
                    (Workflow.assign
                       (AssetTaraInfo.set_risk_treatment_decision
                          RiskTreatmentDecision.init)) ;;
             _ <~ Workflow.on_artifact AssetTaraInfo.calculate_overall_risk ;;
             analysis_result <~ (fun h => analyze (prepare_for_ai04 (Workflow.artifact h))
                                            get_prompt07 risk_treatment_format h) ;;
             v <~ Workflow.field analysis_result "risk_treatment" ;;
             _ <~ Workflow.on_artifact
                    (Workflow.on_decision (RiskTreatmentDecision.set_risk_treatment v)) ;;
             v <~ Workflow.field analysis_result "item_change" ;;
             _ <~ Workflow.on_artifact
                    (Workflow.on_decision
                       (Workflow.assign (RiskTreatmentDecision.with_item_change v))) ;;
             v <~ Workflow.field analysis_result "cybersecurity_goal" ;;
             _ <~ Workflow.on_artifact
                    (Workflow.on_decision
                       (Workflow.assign (RiskTreatmentDecision.with_cybersecurity_goal v))) ;;
             v <~ Workflow.field analysis_result "cybersecurity_claim" ;;
             Workflow.on_artifact
               (Workflow.on_decision
                  (Workflow.assign (RiskTreatmentDecision.with_cybersecurity_claim v))))
            h))
    = Some v.
Proof.
  intros analyze prepare_for_ai04 get_prompt07 risk_treatment_format h v Hanalyze Hv.
  destruct (@overall_risk_with_decision
              (AssetTaraInfo.set_risk_treatment_decision RiskTreatmentDecision.init
                 (Workflow.artifact h))
              RiskTreatmentDecision.init eq_refl ltac:(cbn; lia))
    as (a' & v' & Hcalc & Hvalue & Hassigned & _).
  rewrite Hv in Hassigned. injection Hassigned as <-.
  match goal with |- risk_value_of (fst (?m h)) = _ => destruct (m h) as [h' r] eqn:H end.
  cbn [fst].
  apply io_bind_inv in H. destruct H as [(h1 & x & Hset & H)|(e & Hset & _)];
    [|discriminate Hset].
  unfold Workflow.on_artifact, Workflow.assign in Hset. injection Hset as <- _.
  apply io_bind_inv in H. destruct H as [(h2 & y & Hrun & H)|(e & Hrun & _)];
    unfold Workflow.on_artifact in Hrun;
    cbn [Workflow.artifact Workflow.issued Workflow.slept] in Hrun;
    rewrite Hcalc in Hrun; [|discriminate Hrun].
  injection Hrun as <- _.
  rewrite (@risk_stage_tail_keeps_value prepare_for_ai04 get_prompt07
             risk_treatment_format analyze Hanalyze _ _ _ H).
  exact Hvalue.
Qed.

(** X25.  The risk-treatment stage (sync or async) starts afresh: it
    replaces whatever decision the artifact carried, so its result does
    not depend on that decision, and a retry starts from the same
    state as the first run.  Whether it returns or raises, it leaves a
    decision in the artifact, and the risk value of that decision is
    the one [calculate_overall_risk] gives a fresh decision: 0 when the
    damage scenario, the threat scenario or the rating is missing, else
    the entry of the risk matrix, between 1 and 5. *)
Theorem risk_stage_starts_afresh :
  forall (generator : nat -> Workflow.request -> option dict)
         (prepare_for_ai04 : AssetTaraInfo.t -> string)
         (get_prompt07 risk_treatment_format : string)
         (h : Workflow.heap) (d : option RiskTreatmentDecision.t),
    let stage := Workflow.asset_threat_risk_treatment_assessment generator
                   prepare_for_ai04 get_prompt07 risk_treatment_format in
    let stage_async := Workflow.asset_threat_risk_treatment_assessment_async generator
                         prepare_for_ai04 get_prompt07 risk_treatment_format in
    stage (with_decision d h) = stage h
    /\ stage_async (with_decision d h) = stage_async h
    /\ exists v,
         overall_risk_assigned
           (AssetTaraInfo.set_risk_treatment_decision RiskTreatmentDecision.init
              (Workflow.artifact h)) = Some v
         /\ (0 <= v <= 5)%Z
         /\ risk_value_of (fst (stage h)) = Some v
         /\ risk_value_of (fst (stage_async h)) = Some v.
Proof.
  intros generator prepare_for_ai04 get_prompt07 risk_treatment_format h d
    stage stage_async.
  split; [reflexivity|]. split; [reflexivity|].
  destruct (@overall_risk_with_decision
              (AssetTaraInfo.set_risk_treatment_decision RiskTreatmentDecision.init
                 (Workflow.artifact h))
              RiskTreatmentDecision.init eq_refl ltac:(cbn; lia))
    as (a' & v & _ & _ & Hassigned & Hrange).
  exists v. split; [exact Hassigned|]. split; [exact Hrange|].
  split.
  - apply (@risk_stage_value (Workflow.analyze_asset generator)); [|exact Hassigned].
    intros msg prompt format_text. apply keeps_risk_value_analyze.
  - apply (@risk_stage_value (Workflow.analyze_asset_async generator)); [|exact Hassigned].
    intros msg prompt format_text. apply keeps_risk_value_analyze.
Qed.
